(** * HyperCanny climate workflow: calibration, thresholds, detection, abruptness

    A shallow embedding of [hypercc/calibration.py], [hypercc/workflow.py] and
    the threshold and month options of [hypercc/main.py].

    - Python and NumPy floats are IEEE binary64: they are Rocq's primitive
      floats, so arithmetic, comparisons and NaN behave as in the program.
    - A raised exception is a value of [exn]; code that can raise lives in the
      [result] monad.
    - NumPy arrays of rank 3 are a shape and a cell function.
    - Functions of modules that are not part of the three source files
      ([.filters], [.stats], [.units], [.plotting], [.data.data_set],
      [hyper_canny], SciPy) are Section variables. *)

From Stdlib Require Import String Ascii DecimalString ZArith List Bool Lia Floats.
Import ListNotations.

Set Warnings "-inexact-float".
Local Open Scope string_scope.
Local Open Scope list_scope.

(* ================================================================== *)
(** ** Exceptions and the error monad *)

Inductive exn : Type :=
| TypeError (msg : string)
| ValueError (msg : string)
| KeyError (key : string)
| IndexError (msg : string)
| LibraryError (origin msg : string).

Inductive result (A : Type) : Type :=
| Ok (a : A)
| Raise (e : exn).

Arguments Ok {A} a.
Arguments Raise {A} e.

Definition bind {A B : Type} (c : result A) (k : A -> result B) : result B :=
  match c with
  | Ok a => k a
  | Raise e => Raise e
  end.

Notation "x <- c ;; k" := (bind c (fun x => k))
  (at level 61, c at next level, right associativity).
Notation "' pat <- c ;; k" := (bind c (fun x => match x with pat => k end))
  (at level 61, pat pattern, c at next level, right associativity).

Definition is_ok {A : Type} (c : result A) : bool :=
  match c with Ok _ => true | Raise _ => false end.

(* ================================================================== *)
(** ** Python sequences *)

(** [l[i]] with Python's negative indices; out of range raises IndexError. *)
Definition py_index {A : Type} (l : list A) (i : Z) : result A :=
  let n := Z.of_nat (length l) in
  let j := if (i <? 0)%Z then (i + n)%Z else i in
  if ((j <? 0) || (n <=? j))%Z then Raise (IndexError "index out of range")
  else match nth_error l (Z.to_nat j) with
       | Some a => Ok a
       | None => Raise (IndexError "index out of range")
       end.

(** A slice bound as Python normalises it against a length [n]. *)
Definition slice_bound (n : nat) (i : Z) : nat :=
  let m := Z.of_nat n in
  if (i <? 0)%Z then Z.to_nat (Z.max 0 (i + m)) else Z.to_nat (Z.min i m).

(** [l[lo:hi]], an absent bound being the start or the end. *)
Definition py_slice {A : Type} (l : list A) (lo hi : option Z) : list A :=
  let n := length l in
  let a := match lo with Some i => slice_bound n i | None => 0 end in
  let b := match hi with Some i => slice_bound n i | None => n end in
  firstn (b - a) (skipn a l).

(** [l.index(x)]: position of the first occurrence, ValueError when absent. *)
Fixpoint list_index (x : string) (l : list string) : result Z :=
  match l with
  | [] => Raise (ValueError "x is not in list")
  | y :: l' => if String.eqb x y then Ok 0%Z
               else (i <- list_index x l' ;; Ok (i + 1)%Z)
  end.

(** [d[k]] on a dict with string keys, KeyError when absent. *)
Fixpoint dict_get {A : Type} (d : list (string * A)) (k : string) : result A :=
  match d with
  | [] => Raise (KeyError k)
  | (k', v) :: d' => if String.eqb k k' then Ok v else dict_get d' k
  end.

(* ================================================================== *)
(** ** NumPy arithmetic on one-dimensional float arrays *)

(** [x**2] on an array is NumPy's square, one multiplication. *)
Definition sq (x : float) : float := (x * x)%float.

(** An elementwise binary operation with NumPy's broadcasting of a
    length-one operand; other length mismatches raise ValueError. *)
Definition np_zip (f : float -> float -> float) (a b : list float)
  : result (list float) :=
  if Nat.eqb (length a) (length b) then Ok (map (fun p => f (fst p) (snd p)) (combine a b))
  else match a, b with
       | [x], _ => Ok (map (f x) b)
       | _, [y] => Ok (map (fun x => f x y) a)
       | _, _ => Raise (ValueError "operands could not be broadcast together")
       end.

(* ================================================================== *)
(** ** Configuration and calibration record *)

(** The argparse namespace, restricted to the attributes the workflow reads.
    Options declared with [nargs] are lists of strings. *)
Record Config : Type := mkConfig {
  calibration_quartile : string;
  sigma_x : list string;
  sigma_t : list string;
  sobel_scale : list string;
  upper_threshold_ref : string;
  lower_threshold_ref : string;
  upper_threshold_frac : list string;
  lower_threshold_frac : list string;
  taper : bool;
  output_folder : string
}.

(** The dictionary returned by [calibrate_sobel]. *)
Record Calibration : Type := mkCalibration {
  cal_time : list float;
  cal_distance : list float;
  cal_magnitude : list float;
  cal_gamma : list float
}.

Definition quartile_names : list string := ["min"; "1st"; "median"; "3rd"; "max"].

(** main.py, lines 100-108: the admissible values of the two reference
    options. *)
Definition upper_threshold_ref_choices : list string := ["pi-control-max"].
Definition lower_threshold_ref_choices : list string := ["pi-control-3"; "pi-control-max"].

Definition choice_ok (choices : list string) (s : string) : bool :=
  existsb (String.eqb s) choices.

(** What argparse checks on the options the threshold derivation reads. *)
Definition parser_accepts (cfg : Config) : bool :=
  choice_ok quartile_names (calibration_quartile cfg)
  && choice_ok upper_threshold_ref_choices (upper_threshold_ref cfg)
  && choice_ok lower_threshold_ref_choices (lower_threshold_ref cfg)
  && Nat.eqb (length (upper_threshold_frac cfg)) 1
  && Nat.eqb (length (lower_threshold_frac cfg)) 1.

(** workflow.py, get_calibration_factor. *)
Definition get_calibration_factor (cfg : Config) (cal : Calibration) : result float :=
  quartile <- list_index (calibration_quartile cfg) quartile_names ;;
  py_index (cal_gamma cal) quartile.

(** The combined magnitude quartiles,
    [np.sqrt((calibration['distance'] * gamma)**2 + calibration['time']**2)]. *)
Definition mag_quartiles (cal : Calibration) (gamma : float) : result (list float) :=
  s <- np_zip PrimFloat.add
         (map sq (map (fun d => (d * gamma)%float) (cal_distance cal)))
         (map sq (cal_time cal)) ;;
  Ok (map PrimFloat.sqrt s).

Section Thresholds.

(** Python's [float(s)] on a string: the number, or ValueError. *)
Variable py_float : string -> result float.

(** workflow.py, get_thresholds.  The dictionary [ref_values] is built before
    it is read, so both reference quartiles are indexed whichever is chosen. *)
Definition get_thresholds (cfg : Config) (cal : Calibration) : result (float * float) :=
  gamma <- get_calibration_factor cfg cal ;;
  mags <- mag_quartiles cal gamma ;;
  m3 <- py_index mags 3 ;;
  m4 <- py_index mags 4 ;;
  let ref_values := [("pi-control-3", m3); ("pi-control-max", m4)] in
  ref_lower <- dict_get ref_values (lower_threshold_ref cfg) ;;
  ref_upper <- dict_get ref_values (upper_threshold_ref cfg) ;;
  s_lower <- py_index (lower_threshold_frac cfg) 0 ;;
  frac_lower <- py_float s_lower ;;
  s_upper <- py_index (upper_threshold_frac cfg) 0 ;;
  frac_upper <- py_float s_upper ;;
  Ok ((ref_lower * frac_lower)%float, (ref_upper * frac_upper)%float).

End Thresholds.

(* ================================================================== *)
(** ** NumPy arrays of rank two and three *)

(** A rank-3 array (time, lat, lon): its shape and its cells.  Cells outside
    the shape are never read by the definitions below. *)
Record ndarray3 (A : Type) : Type := mk_ndarray3 {
  len0 : nat;
  len1 : nat;
  len2 : nat;
  cell : nat -> nat -> nat -> A
}.

Arguments mk_ndarray3 {A} _ _ _ _.
Arguments len0 {A} _.
Arguments len1 {A} _.
Arguments len2 {A} _.
Arguments cell {A} _ _ _ _.

Record ndarray2 (A : Type) : Type := mk_ndarray2 {
  rows : nat;
  cols : nat;
  cell2 : nat -> nat -> A
}.

Arguments mk_ndarray2 {A} _ _ _.
Arguments rows {A} _.
Arguments cols {A} _.
Arguments cell2 {A} _ _.

Definition voxel : Type := (nat * nat * nat)%type.

Definition in_shape {A : Type} (a : ndarray3 A) (v : voxel) : bool :=
  let '(i, j, k) := v in
  (i <? len0 a)%nat && (j <? len1 a)%nat && (k <? len2 a)%nat.

Definition same_shape {A B : Type} (a : ndarray3 A) (b : ndarray3 B) : bool :=
  Nat.eqb (len0 a) (len0 b) && Nat.eqb (len1 a) (len1 b) && Nat.eqb (len2 a) (len2 b).

(** The indices of a shape in C (row-major) order, the order of
    [flatten], [np.where] and boolean-mask indexing. *)
Definition indices3 (n0 n1 n2 : nat) : list voxel :=
  flat_map (fun i =>
    flat_map (fun j => map (fun k => (i, j, k)) (seq 0 n2)) (seq 0 n1)) (seq 0 n0).

Definition at3 {A : Type} (a : ndarray3 A) (v : voxel) : A :=
  let '(i, j, k) := v in cell a i j k.

Definition flatten {A : Type} (a : ndarray3 A) : list A :=
  map (at3 a) (indices3 (len0 a) (len1 a) (len2 a)).

Definition map3 {A B : Type} (f : A -> B) (a : ndarray3 A) : ndarray3 B :=
  mk_ndarray3 (len0 a) (len1 a) (len2 a) (fun i j k => f (cell a i j k)).

(** [a.transpose([2, 1, 0])]. *)
Definition transpose3 {A : Type} (a : ndarray3 A) : ndarray3 A :=
  mk_ndarray3 (len2 a) (len1 a) (len0 a) (fun i j k => cell a k j i).

(** [a[i, j, k] = x] *)
Definition set3 {A : Type} (a : ndarray3 A) (v : voxel) (x : A) : ndarray3 A :=
  let '(i, j, k) := v in
  mk_ndarray3 (len0 a) (len1 a) (len2 a)
    (fun i' j' k' =>
       if Nat.eqb i' i && Nat.eqb j' j && Nat.eqb k' k then x else cell a i' j' k').

(** [np.where(mask)] on an integer mask: the non-zero cells in C order. *)
Definition np_where (mask : ndarray3 Z) : list voxel :=
  filter (fun v => negb (Z.eqb (at3 mask v) 0))
         (indices3 (len0 mask) (len1 mask) (len2 mask)).

(** A data field: a plain array, or a masked array whose mask is an array
    ([true] = invalid) or [np.ma.nomask]. *)
Inductive Field : Type :=
| Plain (values : ndarray3 float)
| Masked (values : ndarray3 float) (mask : option (ndarray3 bool)).

Definition field_values (d : Field) : ndarray3 float :=
  match d with Plain a => a | Masked a _ => a end.

(** [isinstance(data, np.ma.core.MaskedArray)] *)
Definition is_masked_array (d : Field) : bool :=
  match d with Plain _ => false | Masked _ _ => true end.

(** The grid description (the [Box] of the data set). *)
Record Box : Type := mkBox {
  box_shape : nat * nat * nat;
  relative_grid_area : ndarray2 float;
  box_years : list Z;
  box_lat : list float;
  box_lon : list float
}.

Record DataSet : Type := mkDataSet {
  ds_data : Field;
  ds_box : Box
}.

(** The four-channel Sobel output, shape (4, time, lat, lon): channels 0-2
    are the derivatives and channel 3 the normalisation term.  For masked
    input it is a masked array; [g_mask] is its mask on one channel. *)
Record GradientField : Type := mkGradientField {
  g_len0 : nat;
  g_len1 : nat;
  g_len2 : nat;
  g_cell : nat -> nat -> nat -> nat -> float;
  g_mask : option (ndarray3 bool)
}.

(** [sobel[c]] for a channel [c]; [sobel[-1]] is channel 3. *)
Definition channel (s : GradientField) (c : nat) : ndarray3 float :=
  mk_ndarray3 (g_len0 s) (g_len1 s) (g_len2 s) (g_cell s c).

(** The layout the compiled kernels take: shape (lon, lat, time, 4). *)
Record KernelField : Type := mkKernelField {
  k_len0 : nat;
  k_len1 : nat;
  k_len2 : nat;
  k_cell : nat -> nat -> nat -> nat -> float
}.

(** [sobel.transpose([3, 2, 1, 0]).copy()] *)
Definition transpose4 (s : GradientField) : KernelField :=
  mkKernelField (g_len2 s) (g_len1 s) (g_len0 s) (fun k j i c => g_cell s c i j k).

(** The cells a masked array keeps: all of them without a mask. *)
Definition unmasked (m : option (ndarray3 bool)) (v : voxel) : bool :=
  match m with
  | Some mk => negb (at3 mk v)
  | None => true
  end.

(** NumPy's [minimum] and [maximum], which propagate NaN. *)
Definition np_minimum (a b : float) : float :=
  if PrimFloat.leb a b || PrimFloat.is_nan a then a else b.

Definition np_maximum (a b : float) : float :=
  if PrimFloat.leb b a || PrimFloat.is_nan a then a else b.

(** A reduction without identity over a flat sequence: ValueError on a
    zero-size array. *)
Definition np_reduce (f : float -> float -> float) (l : list float) : result float :=
  match l with
  | [] => Raise (ValueError "zero-size array to reduction operation which has no identity")
  | x :: l' => Ok (fold_left f l' x)
  end.

(** [a.min()] of a channel.  A masked array reduces over its unmasked cells;
    when all are masked NumPy returns the [masked] constant, which compares
    false with everything and is NaN here. *)
Definition channel_min (a : ndarray3 float) (m : option (ndarray3 bool)) : result float :=
  let idx := indices3 (len0 a) (len1 a) (len2 a) in
  match m with
  | None => np_reduce np_minimum (map (at3 a) idx)
  | Some _ =>
      match map (at3 a) (filter (unmasked m) idx) with
      | [] => match idx with
              | [] => Raise (ValueError "zero-size array to reduction operation which has no identity")
              | _ => Ok PrimFloat.nan
              end
      | l => np_reduce np_minimum l
      end
  end.

(** [np.max(a, axis=0)] on a float array. *)
Definition max_axis0 (a : ndarray3 float) : result (ndarray2 float) :=
  match len0 a with
  | O => if Nat.eqb (len1 a * len2 a) 0
         then Ok (mk_ndarray2 (len1 a) (len2 a) (fun _ _ => 0%float))
         else Raise (ValueError "zero-size array to reduction operation maximum which has no identity")
  | S n => Ok (mk_ndarray2 (len1 a) (len2 a)
                 (fun j k => fold_left np_maximum
                               (map (fun i => cell a i j k) (seq 1 n)) (cell a 0 j k)))
  end.

Definition indices2 (n1 n2 : nat) : list (nat * nat) :=
  flat_map (fun j => map (fun k => (j, k)) (seq 0 n2)) (seq 0 n1).

Definition flatten2 {A : Type} (a : ndarray2 A) : list A :=
  map (fun p => cell2 a (fst p) (snd p)) (indices2 (rows a) (cols a)).

Definition map2d {A B : Type} (f : A -> B) (a : ndarray2 A) : ndarray2 B :=
  mk_ndarray2 (rows a) (cols a) (fun j k => f (cell2 a j k)).

(** [np.max(a)] over a whole rank-2 array. *)
Definition np_max2 (a : ndarray2 float) : result float :=
  np_reduce np_maximum (flatten2 a).

(* ================================================================== *)
(** ** calibration.py *)

Section Calibration.

(** Physical quantities (numbers with units) of the [.units] module. *)
Variable Quantity : Type.

(** [sobel_filter(box, data, weight=..., physical=...)] of [.filters]. *)
Variable sobel_filter :
  Box -> Field -> option (list Quantity) -> bool -> result GradientField.

(** [weighted_quartiles(values, weights)] of [.stats]: the five weighted
    order statistics. *)
Variable weighted_quartiles : list float -> list float -> result (list float).

(** The three ratio samples of one cell: [sbc[0]**2 / sbc[3]**2],
    [(sbc[1]**2 + sbc[2]**2) / sbc[3]**2] and [1.0 / sbc[3]]. *)
Definition var_t_at (sbc : GradientField) (v : voxel) : float :=
  (sq (at3 (channel sbc 0) v) / sq (at3 (channel sbc 3) v))%float.

Definition var_x_at (sbc : GradientField) (v : voxel) : float :=
  ((sq (at3 (channel sbc 1) v) + sq (at3 (channel sbc 2) v))
   / sq (at3 (channel sbc 3) v))%float.

Definition var_m_at (sbc : GradientField) (v : voxel) : float :=
  (1 / at3 (channel sbc 3) v)%float.

(** [np.repeat(box.relative_grid_area[None, :, :], box.shape[0], axis=0)] *)
Definition repeated_area (box : Box) : ndarray3 float :=
  let area := relative_grid_area box in
  mk_ndarray3 (fst (fst (box_shape box))) (rows area) (cols area)
              (fun _ j k => cell2 area j k).

(** The dictionary built by the [return] statement (lines 40-45). *)
Definition calibration_record (ft fx fm : list float) : result Calibration :=
  ratio <- np_zip PrimFloat.div ft fx ;;
  Ok (mkCalibration (map PrimFloat.sqrt ft) (map PrimFloat.sqrt fx) fm
                    (map PrimFloat.sqrt ratio)).

(** calibration.py, calibrate_sobel.  With a masked input the samples are the
    cells the Sobel arrays keep ([compressed()]) and the weights those where
    the data mask is false; indexing the repeated areas by a mask of another
    shape raises IndexError. *)
Definition calibrate_sobel (box : Box) (data : Field) (delta_t delta_d : Quantity)
  : result Calibration :=
  sbc <- sobel_filter box data (Some [delta_t; delta_d; delta_d]) true ;;
  let cells := indices3 (g_len0 sbc) (g_len1 sbc) (g_len2 sbc) in
  let area := repeated_area box in
  let area_cells := indices3 (len0 area) (len1 area) (len2 area) in
  '(samples, weights) <-
    match data with
    | Masked _ (Some dmask) =>
        if same_shape area dmask
        then Ok (filter (unmasked (g_mask sbc)) cells,
                 map (at3 area) (filter (unmasked (Some dmask)) area_cells))
        else Raise (IndexError "boolean index did not match indexed array")
    | _ => Ok (cells, map (at3 area) area_cells)
    end ;;
  let var_t := map (var_t_at sbc) samples in
  let var_x := map (var_x_at sbc) samples in
  let var_m := map (var_m_at sbc) samples in
  ft <- weighted_quartiles var_t weights ;;
  fx <- weighted_quartiles var_x weights ;;
  fm <- weighted_quartiles var_m weights ;;
  calibration_record ft fx fm.

(** *** Calling a Python function with positional arguments *)

(** The values [compute_calibration] passes around. *)
Inductive PyValue : Type :=
| VInt (z : Z)
| VBox (b : Box)
| VField (d : Field)
| VQuantity (q : Quantity).

Definition nat_to_string (n : nat) : string :=
  DecimalString.NilEmpty.string_of_uint (Nat.to_uint n).

(** Binding positional arguments to the parameters of a [def] that has no
    defaults and no [*args]: any other number of arguments is a TypeError,
    raised before the body runs. *)
Definition bind_positional (fname : string) (params : list string) (args : list PyValue)
  : result (list (string * PyValue)) :=
  let np := length params in
  let na := length args in
  if (np <? na)%nat
  then Raise (TypeError (fname ++ "() takes " ++ nat_to_string np
                         ++ " positional arguments but " ++ nat_to_string na
                         ++ " were given"))
  else if (na <? np)%nat
  then Raise (TypeError (fname ++ "() missing " ++ nat_to_string (np - na)
                         ++ " required positional arguments"))
  else Ok (combine params args).

Definition calibrate_sobel_params : list string := ["box"; "data"; "delta_t"; "delta_d"].

(** The function object [calibrate_sobel] applied to positional arguments.
    Python checks no types at the call; a value of another kind fails inside
    the Sobel filter. *)
Definition call_calibrate_sobel (args : list PyValue) : result Calibration :=
  env <- bind_positional "calibrate_sobel" calibrate_sobel_params args ;;
  match map snd env with
  | [VBox box; VField data; VQuantity delta_t; VQuantity delta_d] =>
      calibrate_sobel box data delta_t delta_d
  | _ => Raise (LibraryError "sobel_filter" "unsupported argument")
  end.

End Calibration.

(* ================================================================== *)
(** ** workflow.py: calibration and edge detection *)

(** A sample of a possibly masked series: the value and whether it is
    masked. *)
Definition Sample : Type := (float * bool)%type.

(** The result of [compute_canny_edges]. *)
Record Canny : Type := mkCanny {
  canny_sobel : GradientField;
  canny_edges : ndarray3 Z
}.

(** workflow.py, apply_mask_to_edges: [edges[:time_margin] = 0],
    [edges[-time_margin:] = 0], then [edges * ~mask].  Without a mask array
    ([nomask]) the product is by [True]; a mask of another shape does not
    broadcast (axes of length one apart, which are not modelled). *)
Definition zero_time_margins (edges : ndarray3 Z) (time_margin : Z) : ndarray3 Z :=
  let n := len0 edges in
  let head_end := slice_bound n time_margin in
  let tail_start := slice_bound n (- time_margin) in
  mk_ndarray3 n (len1 edges) (len2 edges)
    (fun i j k =>
       if (tail_start <=? i)%nat then 0%Z
       else if (i <? head_end)%nat then 0%Z
       else cell edges i j k).

Definition apply_mask_to_edges (edges : ndarray3 Z) (mask : option (ndarray3 bool))
           (time_margin : Z) : result (ndarray3 Z) :=
  let edges := zero_time_margins edges time_margin in
  match mask with
  | None => Ok edges
  | Some m =>
      if same_shape edges m
      then Ok (mk_ndarray3 (len0 edges) (len1 edges) (len2 edges)
                 (fun i j k => if cell m i j k then 0%Z else cell edges i j k))
      else Raise (ValueError "operands could not be broadcast together")
  end.

(** workflow.py, transfer_magnitudes: [x[3] = y[3]]. *)
Definition transfer_magnitudes (x y : GradientField) : result GradientField :=
  if Nat.eqb (g_len0 x) (g_len0 y) && Nat.eqb (g_len1 x) (g_len1 y)
     && Nat.eqb (g_len2 x) (g_len2 y)
  then Ok (mkGradientField (g_len0 x) (g_len1 x) (g_len2 x)
             (fun c => if Nat.eqb c 3 then g_cell y 3 else g_cell x c)
             (g_mask x))
  else Raise (ValueError "could not broadcast input array")%string.

Definition field_mask (d : Field) : option (ndarray3 bool) :=
  match d with Plain _ => None | Masked _ m => m end.

(** The TypeError of line 132: five arguments for four parameters. *)
Definition arity_error : exn :=
  TypeError "calibrate_sobel() takes 4 positional arguments but 5 were given".

Definition degenerate_signal : exn :=
  ValueError "Maximum signal below upper threshold, no need to continue.".

Section Workflow.

Variable Quantity : Type.
Variable py_float : string -> result float.

(** [unit(s)], [unit.year] and the products of the [.units] registry. *)
Variable unit : string -> result Quantity.
Variable unit_year : Quantity.
Variable q_scale : float -> Quantity -> Quantity.
Variable q_mul : Quantity -> Quantity -> Quantity.

(** [.filters]: tapering changes the data in place, the filters may reject
    their physical scales. *)
Variable taper_masked_area : Field -> list Z -> Z -> Field.
Variable gaussian_filter : Box -> Field -> list Quantity -> result Field.
Variable sobel_filter :
  Box -> Field -> option (list Quantity) -> bool -> result GradientField.
Variable weighted_quartiles : list float -> list float -> result (list float).

(** The compiled kernels of [hyper_canny], on the transposed layout. *)
Variable cp_edge_thinning : KernelField -> ndarray3 Z.
Variable cp_double_threshold : KernelField -> ndarray3 Z -> float -> float -> ndarray3 Z.

(** [float(l[0]) * unit(l[1])] *)
Definition parse_quantity (l : list string) : result Quantity :=
  s <- py_index l 0 ;;
  x <- py_float s ;;
  u <- py_index l 1 ;;
  q <- unit u ;;
  Ok (q_scale x q).

(** workflow.py, get_sigmas. *)
Definition get_sigmas (cfg : Config) : result (Quantity * Quantity) :=
  st <- parse_quantity (sigma_t cfg) ;;
  sx <- parse_quantity (sigma_x cfg) ;;
  Ok (st, sx).

(** workflow.py, get_sobel_weights. *)
Definition get_sobel_weights (cfg : Config) (cal : Calibration) : result (list Quantity) :=
  scale <- parse_quantity (sobel_scale cfg) ;;
  gamma <- get_calibration_factor cfg cal ;;
  let sobel_delta_t := q_scale 1 unit_year in
  let sobel_delta_x := q_scale gamma (q_mul sobel_delta_t scale) in
  Ok [sobel_delta_t; sobel_delta_x; sobel_delta_x].

(** The data after the optional in-place tapering. *)
Definition tapered (cfg : Config) (data : Field) : Field :=
  if taper cfg && is_masked_array data
  then taper_masked_area data [0; 5; 5]%Z 50%Z
  else data.

(** workflow.py, compute_calibration.  Line 132 calls [calibrate_sobel] with
    five positional arguments. *)
Definition compute_calibration (cfg : Config) (data_set : DataSet) : result Calibration :=
  quartile <- list_index (calibration_quartile cfg) quartile_names ;;
  '(sigma_t_q, sigma_x_q) <- get_sigmas cfg ;;
  scale <- parse_quantity (sobel_scale cfg) ;;
  let sobel_delta_t := q_scale 1 unit_year in
  let sobel_delta_x := q_mul sobel_delta_t scale in
  let box := ds_box data_set in
  let data := tapered cfg (ds_data data_set) in
  smooth_data <- gaussian_filter box data [sigma_t_q; sigma_x_q; sigma_x_q] ;;
  call_calibrate_sobel Quantity sobel_filter weighted_quartiles
    [VInt Quantity quartile; VBox Quantity box; VField Quantity smooth_data;
     VQuantity Quantity sobel_delta_t; VQuantity Quantity sobel_delta_x].

(** workflow.py, maximum_suppression. *)
Definition maximum_suppression (sobel_data : GradientField) : ndarray3 Z :=
  transpose3 (cp_edge_thinning (transpose4 sobel_data)).

(** workflow.py, hysteresis_thresholding. *)
Definition hysteresis_thresholding (cfg : Config) (sobel_data : GradientField)
           (mask : ndarray3 Z) (cal : Calibration) : result (ndarray3 Z) :=
  '(lower, upper) <- get_thresholds py_float cfg cal ;;
  let new_mask := cp_double_threshold (transpose4 sobel_data) (transpose3 mask)
                    (1 / upper)%float (1 / lower)%float in
  Ok (transpose3 new_mask).

(** workflow.py, max_signal and line 246: [1 / sobel_data[-1].min()]. *)
Definition max_signal (sobel_data : GradientField) : result float :=
  m <- channel_min (channel sobel_data 3) (g_mask sobel_data) ;;
  Ok (1 / m)%float.

(** Lines 259-268 of compute_canny_edges: what runs once the signal check
    has passed. *)
Definition detect_edges (cfg : Config) (box : Box) (data smooth_data : Field)
           (sobel_data : GradientField) (cal : Calibration) : result Canny :=
  pixel_sobel <- sobel_filter box smooth_data None false ;;
  pixel_sobel <- transfer_magnitudes pixel_sobel sobel_data ;;
  let sobel_maxima := maximum_suppression pixel_sobel in
  sobel_maxima <- (if is_masked_array data
                   then apply_mask_to_edges sobel_maxima (field_mask data) 10
                   else Ok sobel_maxima) ;;
  edges <- hysteresis_thresholding cfg sobel_data sobel_maxima cal ;;
  Ok (mkCanny sobel_data edges).

(** workflow.py, compute_canny_edges. *)
Definition compute_canny_edges (cfg : Config) (data_set : DataSet) (cal : Calibration)
  : result Canny :=
  let box := ds_box data_set in
  '(sigma_t_q, sigma_x_q) <- get_sigmas cfg ;;
  weights <- get_sobel_weights cfg cal ;;
  let data := tapered cfg (ds_data data_set) in
  smooth_data <- gaussian_filter box data [sigma_t_q; sigma_x_q; sigma_x_q] ;;
  sobel_data <- sobel_filter box smooth_data (Some weights) true ;;
  max_signal_value <- max_signal sobel_data ;;
  gamma <- get_calibration_factor cfg cal ;;
  mags <- mag_quartiles cal gamma ;;
  max_signal_value_piC <- py_index mags 4 ;;
  '(lower, upper) <- get_thresholds py_float cfg cal ;;
  if PrimFloat.ltb max_signal_value upper
  then Raise degenerate_signal
  else detect_edges cfg box data smooth_data sobel_data cal.

End Workflow.

(* ================================================================== *)
(** ** Region labelling *)

(** [ndimage.generate_binary_structure(3, connectivity)]: the 3x3x3 array
    that is true where the city-block distance to the centre is at most
    [connectivity]. *)
Definition dist1 (i : nat) : nat := if Nat.eqb i 1 then 0 else 1.

Definition generate_binary_structure3 (connectivity : nat) : ndarray3 bool :=
  mk_ndarray3 3 3 3 (fun i j k => (dist1 i + dist1 j + dist1 k <=? connectivity)%nat).

(** The index into a structuring element of the step from [a] to [b] along
    one axis, when the step is -1, 0 or 1. *)
Definition step_index (a b : nat) : option nat :=
  if Nat.eqb b a then Some 1
  else if Nat.eqb (S b) a then Some 0
  else if Nat.eqb b (S a) then Some 2
  else None.

(** Two distinct voxels are neighbours under a structuring element. *)
Definition adjacent (s : ndarray3 bool) (v w : voxel) : bool :=
  let '(i, j, k) := v in
  let '(i', j', k') := w in
  match step_index i i', step_index j j', step_index k k' with
  | Some a, Some b, Some c =>
      negb (Nat.eqb a 1 && Nat.eqb b 1 && Nat.eqb c 1) && cell s a b c
  | _, _, _ => false
  end.

Definition voxel_eqb (v w : voxel) : bool :=
  let '(i, j, k) := v in
  let '(i', j', k') := w in
  Nat.eqb i i' && Nat.eqb j j' && Nat.eqb k k'.

Definition mem_voxel (v : voxel) (l : list voxel) : bool := existsb (voxel_eqb v) l.

(** The foreground voxels not yet seen that touch a seen voxel. *)
Definition frontier (s : ndarray3 bool) (fg seen : list voxel) : list voxel :=
  filter (fun w => negb (mem_voxel w seen) && existsb (fun u => adjacent s u w) seen) fg.

(** Flood fill: grow the seen set by its frontier until nothing is added. *)
Fixpoint flood (fuel : nat) (s : ndarray3 bool) (fg seen : list voxel) : list voxel :=
  match fuel with
  | O => seen
  | S fuel' =>
      match frontier s fg seen with
      | [] => seen
      | new => flood fuel' s fg (seen ++ new)
      end
  end.

Definition component (s : ndarray3 bool) (fg : list voxel) (v : voxel) : list voxel :=
  flood (length fg) s fg [v].

(** One scan in C order: a foreground voxel without label opens the next
    label, which its whole component receives. *)
Fixpoint label_scan (s : ndarray3 bool) (fg todo : list voxel)
         (lab : voxel -> nat) (n : nat) : (voxel -> nat) * nat :=
  match todo with
  | [] => (lab, n)
  | v :: rest =>
      if Nat.eqb (lab v) 0
      then let c := component s fg v in
           label_scan s fg rest (fun w => if mem_voxel w c then S n else lab w) (S n)
      else label_scan s fg rest lab n
  end.

(** [scipy.ndimage.label(mask, structure)]: the label array (0 on the
    background, 1..n on the components) and the number [n] of components. *)
Definition ndimage_label (mask : ndarray3 Z) (s : ndarray3 bool) : ndarray3 nat * nat :=
  let fg := np_where mask in
  let '(lab, n) := label_scan s fg fg (fun _ => 0) 0 in
  (mk_ndarray3 (len0 mask) (len1 mask) (len2 mask) (fun i j k => lab (i, j, k)), n).

(** [(labels == x).sum()] *)
Definition label_count (labels : ndarray3 nat) (x : nat) : nat :=
  length (filter (fun l => Nat.eqb l x) (flatten labels)).

(** The dictionary returned by [label_regions]. *)
Record Regions : Type := mkRegions {
  n_features : nat;
  regions : ndarray3 nat;
  region_labels : list nat
}.

(** workflow.py, label_regions. *)
Definition label_regions (mask : ndarray3 Z) (min_size : Z) : Regions :=
  let '(labels, n) := ndimage_label mask (generate_binary_structure3 3) in
  let big_enough :=
    filter (fun x => (min_size <? Z.of_nat (label_count labels x))%Z) (seq 1 n) in
  mkRegions n
    (map3 (fun l => if existsb (Nat.eqb l) big_enough then l else 0) labels)
    big_enough.

(* ================================================================== *)
(** ** Abruptness ("measure 15j") *)

(** [a[:, j, k]] *)
Definition column {A : Type} (a : ndarray3 A) (j k : nat) : list A :=
  map (fun i => cell a i j k) (seq 0 (len0 a)).

Definition field_column (d : Field) (j k : nat) : list Sample :=
  map (fun i => (cell (field_values d) i j k, negb (unmasked (field_mask d) (i, j, k))))
      (seq 0 (len0 (field_values d))).

(** [np.size] of a sequence, as a Python integer. *)
Definition size {A : Type} (l : list A) : Z := Z.of_nat (length l).

(** [np.sum] of an integer sequence. *)
Definition np_sum (l : list Z) : Z := fold_left Z.add l 0%Z.

(** [np.where] on a one-dimensional integer array. *)
Definition nonzero_indices (l : list Z) : list Z :=
  map (fun p => Z.of_nat (fst p))
      (filter (fun p => negb (Z.eqb (snd p) 0)) (combine (seq 0 (length l)) l)).

(** [np.max] and [np.min] of an index array. *)
Definition reduce_Z (f : Z -> Z -> Z) (l : list Z) : result Z :=
  match l with
  | [] => Raise (ValueError "zero-size array to reduction operation which has no identity")
  | x :: l' => Ok (fold_left f l' x)
  end.

(** [mask * 0.0] on one integer cell: a zero with the sign of the cell. *)
Definition times_zero (z : Z) : float :=
  if (z <? 0)%Z then (-0)%float else 0%float.

(** The two clamps on the projection: NaN to 0, then values above 100 to 0. *)
Definition clamp_score (x : float) : float :=
  let y := if PrimFloat.is_nan x then 0%float else x in
  if PrimFloat.ltb 100 y then 0%float else y.

(** The sentinel written when the chunks have no variance but different means. *)
Definition sentinel : float := 9e99%float.

Record Measures : Type := mkMeasures {
  measure15j_3d : ndarray3 float;
  measure15j : ndarray2 float
}.

Section Abruptness.

(** [scipy.stats.linregress(x, y)]: slope and intercept. *)
Variable linregress : list Z -> list Sample -> result (float * float).
(** [np.nanstd] and [np.mean] of a chunk. *)
Variable np_nanstd : list Sample -> float.
Variable np_mean : list Sample -> float.

Variable mask : ndarray3 Z.
Variable years : list Z.
Variable data : Field.
Variable cutoff_length chunk_max_length chunk_min_length : Z.

(** Line 300: the voxel is far enough from both time boundaries. *)
Definition inside_time_window (index : Z) : bool :=
  ((0 <=? index - cutoff_length)
   && (index + cutoff_length + 1 <=? Z.of_nat (len0 (field_values data))))%Z.

(** Lines 333-341: cut chunk 1 after the last other edge it contains. *)
Definition trim_chunk1 (chunk_mask : list Z) (chunk_data : list Sample) (chunk_years : list Z)
  : result (list Sample * list Z) :=
  if (0 <? np_sum chunk_mask)%Z
  then index_edge <- reduce_Z Z.max (nonzero_indices chunk_mask) ;;
       if (size chunk_data <=? index_edge + cutoff_length)%Z
       then Ok ([], chunk_years)
       else Ok (py_slice chunk_data (Some (index_edge + cutoff_length)%Z) None,
                py_slice chunk_years (Some (index_edge + cutoff_length)%Z) None)
  else Ok (chunk_data, chunk_years).

(** Lines 343-351: cut chunk 2 before the first other edge it contains. *)
Definition trim_chunk2 (chunk_mask : list Z) (chunk_data : list Sample) (chunk_years : list Z)
  : result (list Sample * list Z) :=
  if (0 <? np_sum chunk_mask)%Z
  then index_edge <- reduce_Z Z.min (nonzero_indices chunk_mask) ;;
       if (index_edge - cutoff_length <? 0)%Z
       then Ok ([], chunk_years)
       else Ok (py_slice chunk_data (Some 0%Z) (Some (index_edge - cutoff_length)%Z),
                py_slice chunk_years (Some 0%Z) (Some (index_edge - cutoff_length)%Z))
  else Ok (chunk_data, chunk_years).

(** Lines 359-375: the score of a voxel whose chunks are long enough. *)
Definition chunk_score (years1 : list Z) (data1 : list Sample)
           (years2 : list Z) (data2 : list Sample) : result float :=
  '(slope_chunk1, intercept_chunk1) <- linregress years1 data1 ;;
  '(slope_chunk2, intercept_chunk2) <- linregress years2 data2 ;;
  let mean_std := ((np_nanstd data1 + np_nanstd data2) / 2)%float in
  if PrimFloat.eqb mean_std 0
  then if PrimFloat.eqb (np_mean data1) (np_mean data2)
       then Ok 0%float
       else Ok sentinel
  else Ok (PrimFloat.abs (intercept_chunk1 - intercept_chunk2) / mean_std)%float.

(** Lines 308-357: the two regression chunks of a voxel, after the cutoff,
    the maximum length and the neighbouring edges have been applied. *)
Definition voxel_chunks (v : voxel)
  : result ((list Z * list Sample) * (list Z * list Sample)) :=
  let '(dim0, dim1, dim2) := v in
  let index := Z.of_nat dim0 in
  if negb ((dim1 <? len1 (field_values data))%nat && (dim2 <? len2 (field_values data))%nat)
  then Raise (IndexError "index is out of bounds")
  else
    let data_column := field_column data dim1 dim2 in
    let mask_column := column mask dim1 dim2 in
    let before := Some (index - cutoff_length)%Z in
    let after := Some (index + cutoff_length + 1)%Z in
    let chunk1_data := py_slice data_column (Some 0%Z) before in
    let chunk2_data := py_slice data_column after None in
    let chunk1_years := py_slice years (Some 0%Z) before in
    let chunk2_years := py_slice years after None in
    let chunk1_mask := py_slice mask_column (Some 0%Z) before in
    let chunk2_mask := py_slice mask_column after None in
    let chunk1_start :=
      if (chunk_max_length <? size chunk1_data)%Z
      then (size chunk1_data - chunk_max_length)%Z else 0%Z in
    let chunk2_end :=
      if (chunk_max_length <? size chunk2_data)%Z
      then chunk_max_length else size chunk2_data in
    let chunk1_data_short := py_slice chunk1_data (Some chunk1_start) None in
    let chunk2_data_short := py_slice chunk2_data (Some 0%Z) (Some chunk2_end) in
    let chunk1_mask_short := py_slice chunk1_mask (Some chunk1_start) None in
    let chunk2_mask_short := py_slice chunk2_mask (Some 0%Z) (Some chunk2_end) in
    year0 <- py_index years index ;;
    let chunk1_years_short :=
      map (fun y => (y - year0)%Z) (py_slice chunk1_years (Some chunk1_start) None) in
    let chunk2_years_short :=
      map (fun y => (y - year0)%Z) (py_slice chunk2_years (Some 0%Z) (Some chunk2_end)) in
    '(data1, years1) <- trim_chunk1 chunk1_mask_short chunk1_data_short chunk1_years_short ;;
    '(data2, years2) <- trim_chunk2 chunk2_mask_short chunk2_data_short chunk2_years_short ;;
    Ok ((years1, data1), (years2, data2)).

(** Line 357: both chunks pass the minimum-length check. *)
Definition long_enough (data1 data2 : list Sample) : bool :=
  negb ((size data1 <? chunk_min_length)%Z || (size data2 <? chunk_min_length)%Z).

(** One iteration of the loop (lines 296-375): the score written at the
    voxel, if any. *)
Definition voxel_score (v : voxel) : result (option float) :=
  let '(dim0, dim1, dim2) := v in
  if Z.eqb (cell mask dim0 dim1 dim2) 1
  then if inside_time_window (Z.of_nat dim0)
       then '((years1, data1), (years2, data2)) <- voxel_chunks v ;;
            if long_enough data1 data2
            then score <- chunk_score years1 data1 years2 data2 ;;
                 Ok (Some score)
            else Ok None
       else Ok None
  else Ok None.

Definition write_score (m3d : ndarray3 float) (v : voxel) (s : option float)
  : ndarray3 float :=
  match s with
  | Some x => set3 m3d v x
  | None => m3d
  end.

(** The loop over [np.where(mask)], updating [measure15j_3d] in place. *)
Fixpoint measure_loop (todo : list voxel) (m3d : ndarray3 float)
  : result (ndarray3 float) :=
  match todo with
  | [] => Ok m3d
  | v :: rest =>
      s <- voxel_score v ;;
      measure_loop rest (write_score m3d v s)
  end.

(** workflow.py, compute_measure15j. *)
Definition compute_measure15j : result Measures :=
  let measure15j_3d_init := map3 times_zero mask in
  m3d <- measure_loop (np_where mask) measure15j_3d_init ;;
  projection <- max_axis0 m3d ;;
  Ok (mkMeasures m3d (map2d clamp_score projection)).

End Abruptness.

(* ================================================================== *)
(** ** Reporting *)

(** Files written by [savefig]: code that plots is a state transformer on
    the list of files written so far, and may raise. *)
Definition IO (A : Type) : Type := list string -> result A * list string.

Definition io_ret {A : Type} (a : A) : IO A := fun files => (Ok a, files).

Definition io_bind {A B : Type} (c : IO A) (k : A -> IO B) : IO B :=
  fun files =>
    match c files with
    | (Ok a, files') => k a files'
    | (Raise e, files') => (Raise e, files')
    end.

Definition io_lift {A : Type} (c : result A) : IO A := fun files => (c, files).

Definition savefig (filename : string) : IO unit :=
  fun files => (Ok tt, files ++ [filename]).

Notation "x <~ c ;; k" := (io_bind c (fun x => k))
  (at level 61, c at next level, right associativity).
Notation "' pat <~ c ;; k" := (io_bind c (fun x => match x with pat => k end))
  (at level 61, pat pattern, c at next level, right associativity).

(** [Path(folder) / name] *)
Definition path_join (folder name : string) : string := folder ++ "/" ++ name.

(** An integer cell as a float ([int64] to [float64]). *)
Definition float_of_Z (z : Z) : float :=
  if (z <? 0)%Z then (- PrimFloat.of_uint63 (Uint63.of_Z (- z)))%float
  else PrimFloat.of_uint63 (Uint63.of_Z z).

(** [a.max(axis=0)] and [a.sum(axis=0)] on an integer array. *)
Definition max_axis0_Z (a : ndarray3 Z) : result (ndarray2 Z) :=
  match len0 a with
  | O => if Nat.eqb (len1 a * len2 a) 0
         then Ok (mk_ndarray2 (len1 a) (len2 a) (fun _ _ => 0%Z))
         else Raise (ValueError "zero-size array to reduction operation maximum which has no identity")
  | S n => Ok (mk_ndarray2 (len1 a) (len2 a)
                 (fun j k => fold_left Z.max (map (fun i => cell a i j k) (seq 1 n))
                                       (cell a 0 j k)))
  end.

Definition sum_axis0_Z (a : ndarray3 Z) : ndarray2 Z :=
  mk_ndarray2 (len1 a) (len2 a) (fun j k => np_sum (column a j k)).

(** A one-dimensional array of length [n] broadcasts along an axis of
    length [m]. *)
Definition broadcasts (n m : nat) : bool := Nat.eqb n m || Nat.eqb n 1 || Nat.eqb m 1.

(** The length of the broadcast axis. *)
Definition broadcast_length (n m : nat) : nat := if Nat.eqb n 1 then m else n.

Definition check_broadcast (n m : nat) : result unit :=
  if broadcasts n m then Ok tt
  else Raise (ValueError "operands could not be broadcast together").

(** workflow.py, compute_years_maxabrupt. *)
Definition compute_years_maxabrupt (years : list Z) (mask : ndarray3 Z)
           (abruptness_3d : ndarray3 float) (abruptness : ndarray2 float)
  : result (ndarray2 Z) :=
  let mask_max :=
    fold_left (fun (m : ndarray3 Z) (v : voxel) =>
                 let '(dim0, dim1, dim2) := v in
                 if PrimFloat.eqb (at3 abruptness_3d v) (cell2 abruptness dim1 dim2)
                    && PrimFloat.ltb 0 (cell2 abruptness dim1 dim2)
                 then set3 m v 1%Z else m)
              (np_where mask) (map3 (fun z => (z * 0)%Z) mask) in
  _ <- check_broadcast (length years) (len0 mask) ;;
  Ok (mk_ndarray2 (len1 mask) (len2 mask)
        (fun j k => np_sum (map (fun i => (nth (if Nat.eqb (length years) 1 then 0 else i) years 0
                                           * cell mask_max (if Nat.eqb (len0 mask) 1 then 0 else i) j k)%Z)
                                (seq 0 (broadcast_length (length years) (len0 mask)))))).

(** The dictionary returned by [make_report]. *)
Record Report : Type := mkReport {
  report_calibration : Calibration;
  max_maxTgrad : float;
  max_abruptness : float;
  report_plots : list (string * option string)
}.

(** What [make_report] has computed when it reaches its check (lines
    729-750). *)
Record Prelude : Type := mkPrelude {
  pre_event_count : ndarray2 Z;
  pre_maxTgrad : ndarray2 float;
  pre_abruptness_3d : ndarray3 float;
  pre_abruptness : ndarray2 float
}.

Section Reporting.

Variable Quantity : Type.
Variable py_float : string -> result float.
Variable unit : string -> result Quantity.
Variable q_scale : float -> Quantity -> Quantity.
Variable taper_masked_area : Field -> list Z -> Z -> Field.
Variable gaussian_filter : Box -> Field -> list Quantity -> result Field.
Variable linregress : list Z -> list Sample -> result (float * float).
Variable np_nanstd : list Sample -> float.
Variable np_mean : list Sample -> float.

(** workflow.py, compute_maxTgrad. *)
Definition compute_maxTgrad (canny : Canny) : result (ndarray2 float) :=
  let sobel := canny_sobel canny in
  let tgrad := fun i j k => (g_cell sobel 0 i j k / g_cell sobel 3 i j k)%float in
  let column_mean := fun j k =>
    np_mean (map (fun i => (tgrad i j k, negb (unmasked (g_mask sobel) (i, j, k))))
                 (seq 0 (g_len0 sobel))) in
  let tgrad_residual := fun i j k => (tgrad i j k - column_mean j k)%float in
  maxm <- max_axis0_Z (canny_edges canny) ;;
  maxT <- max_axis0 (mk_ndarray3 (g_len0 sobel) (g_len1 sobel) (g_len2 sobel)
                       (fun i j k => PrimFloat.abs (tgrad_residual i j k))) ;;
  _ <- check_broadcast (rows maxT) (rows maxm) ;;
  _ <- check_broadcast (cols maxT) (cols maxm) ;;
  let product := mk_ndarray2 (broadcast_length (rows maxT) (rows maxm))
                             (broadcast_length (cols maxT) (cols maxm))
    (fun j k => (cell2 maxT (if Nat.eqb (rows maxT) 1 then 0 else j)
                            (if Nat.eqb (cols maxT) 1 then 0 else k)
                 * float_of_Z (cell2 maxm (if Nat.eqb (rows maxm) 1 then 0 else j)
                                          (if Nat.eqb (cols maxm) 1 then 0 else k)))%float) in
  let cleaned := map2d (fun x => if PrimFloat.is_nan x then 0%float else x) product in
  top <- np_max2 cleaned ;;
  Ok (map2d (fun x => if PrimFloat.ltb top x then 0%float else x) cleaned).

(** Lines 729-750 of make_report. *)
Definition report_prelude (cfg : Config) (data_set : DataSet) (cal : Calibration)
           (canny : Canny) : result Prelude :=
  gamma <- get_calibration_factor cfg cal ;;
  let box := ds_box data_set in
  let years := box_years box in
  let mask := canny_edges canny in
  let event_count := sum_axis0_Z mask in
  '(lower_threshold, upper_threshold) <- get_thresholds py_float cfg cal ;;
  _ <- check_broadcast (length years) (len0 mask) ;;
  _ <- check_broadcast (length (box_lat box)) (len1 mask) ;;
  _ <- check_broadcast (length (box_lon box)) (len2 mask) ;;
  maxTgrad <- compute_maxTgrad canny ;;
  measures <- compute_measure15j linregress np_nanstd np_mean mask years
                (ds_data data_set) 2 30 15 ;;
  Ok (mkPrelude event_count maxTgrad (measure15j_3d measures) (measure15j measures)).

(** workflow.py, generate_standard_map_plot: [np.max(abs(field))] needs a
    non-empty field; either branch draws the map and saves it. *)
Definition generate_standard_map_plot {A : Type} (field : ndarray2 A) (filename : string)
  : IO string :=
  if Nat.eqb (rows field * cols field) 0
  then io_lift (Raise (ValueError "zero-size array to reduction operation maximum which has no identity"))
  else _ <~ savefig filename ;; io_ret filename.

(** workflow.py, generate_signal_plot: the figure is saved, or a mock figure
    when saving raises ValueError. *)
Definition generate_signal_plot (cfg : Config) (cal : Calibration) (filename : string)
  : IO string :=
  thresholds <~ io_lift (get_thresholds py_float cfg cal) ;;
  _ <~ savefig filename ;;
  io_ret filename.

(** workflow.py, generate_region_plot. *)
Definition generate_region_plot (mask : ndarray3 Z) (filename : string)
  : IO (option string) :=
  let '(labels, n) := ndimage_label mask (generate_binary_structure3 3) in
  if (0 <? n)%nat
  then _ <~ savefig filename ;; io_ret (Some filename)
  else io_ret None.

(** workflow.py, generate_event_count_timeseries_plot. *)
Definition generate_event_count_timeseries_plot (filename : string) : IO string :=
  _ <~ savefig filename ;; io_ret filename.

(** workflow.py, generate_timeseries_plot: the series is plotted only when
    some abruptness is non-zero. *)
Definition generate_timeseries_plot (cfg : Config) (box : Box) (data : Field)
           (abruptness : ndarray2 float) (filename : string) : IO (option string) :=
  sigmas <~ io_lift (get_sigmas Quantity py_float unit q_scale cfg) ;;
  top <~ io_lift (np_max2 (map2d PrimFloat.abs abruptness)) ;;
  if PrimFloat.ltb 0 top
  then '(sigma_t_q, sigma_x_q) <~ io_lift (get_sigmas Quantity py_float unit q_scale cfg) ;;
       let data := if taper cfg && is_masked_array data
                   then taper_masked_area data [0; 5; 5]%Z 50%Z else data in
       smooth_data <~ io_lift (gaussian_filter box data [sigma_t_q; sigma_x_q; sigma_x_q]) ;;
       _ <~ savefig filename ;;
       io_ret (Some filename)
  else io_ret None.

(** workflow.py, generate_year_plot: the colour range is the largest and the
    smallest non-zero year. *)
Definition generate_year_plot (years_maxabrupt : ndarray2 Z) (filename : string)
  : IO string :=
  maxval <~ io_lift (reduce_Z Z.max (flatten2 years_maxabrupt)) ;;
  minval <~ io_lift (reduce_Z Z.min
                       (filter (fun y => negb (Z.eqb y 0)) (flatten2 years_maxabrupt))) ;;
  _ <~ savefig filename ;;
  io_ret filename.

(** workflow.py, make_report. *)
Definition make_report (cfg : Config) (data_set : DataSet) (cal : Calibration)
           (canny : Canny) : IO (option Report) :=
  let output_path := output_folder cfg in
  let box := ds_box data_set in
  let mask := canny_edges canny in
  pre <~ io_lift (report_prelude cfg data_set cal canny) ;;
  let abruptness := pre_abruptness pre in
  top <~ io_lift (np_max2 abruptness) ;;
  if PrimFloat.ltb top 2
  then io_ret None
  else
    years_maxabrupt <~ io_lift (compute_years_maxabrupt (box_years box) mask
                                  (pre_abruptness_3d pre) abruptness) ;;
    mask_plot <~ generate_standard_map_plot (sum_axis0_Z mask)
                   (path_join output_path "mask.png") ;;
    signal_plot <~ generate_signal_plot cfg cal (path_join output_path "signal.png") ;;
    region_plot <~ generate_region_plot mask (path_join output_path "regions.png") ;;
    event_count_timeseries_plot <~
      generate_event_count_timeseries_plot
        (path_join output_path "event_count_timeseries.png") ;;
    event_count_plot <~ generate_standard_map_plot (pre_event_count pre)
                          (path_join output_path "event_count.png") ;;
    abruptness_plot <~ generate_standard_map_plot abruptness
                         (path_join output_path "abruptness.png") ;;
    maxTgrad_plot <~ generate_standard_map_plot (pre_maxTgrad pre)
                       (path_join output_path "maxTgrad.png") ;;
    timeseries_plot <~ generate_timeseries_plot cfg box (ds_data data_set) abruptness
                         (path_join output_path "timeseries.png") ;;
    year_plot <~ generate_year_plot years_maxabrupt
                   (path_join output_path "years_maxabrupt.png") ;;
    _ <~ savefig (path_join output_path "map_plots.png") ;;
    _ <~ savefig (path_join output_path "timeseries_plots.png") ;;
    max_T <~ io_lift (np_max2 (pre_maxTgrad pre)) ;;
    max_a <~ io_lift (np_max2 abruptness) ;;
    io_ret (Some (mkReport cal max_T max_a
                    [("signal_plot", Some signal_plot);
                     ("region_plot", region_plot);
                     ("event_count_plot", Some event_count_plot);
                     ("event_count_timeseries_plot", Some event_count_timeseries_plot);
                     ("maxTgrad_plot", Some maxTgrad_plot);
                     ("abruptness_plot", Some abruptness_plot);
                     ("timeseries_plot", timeseries_plot);
                     ("year_plot", Some year_plot)])).

End Reporting.

(* ================================================================== *)
(** ** The report command *)

(** The namespace that [argparse] hands to [generate_report]: the fields of
    [Config] and those that locate the data.  [pi_control_folder] has no
    default and is [None] when the option is absent. *)
Record Args : Type := mkArgs {
  args_config : Config;
  data_folder : string;
  pi_control_folder : option string;
  model : string;
  variable : string;
  scenario : string;
  realization : string;
  frequency : string;
  extension : string;
  annual : bool;
  month : string
}.

(** The truth value of [config.pi_control_folder]: [None] and the empty
    string are false. *)
Definition truthy_folder (f : option string) : option string :=
  match f with
  | Some p => if String.eqb p "" then None else Some p
  | None => None
  end.

Section Report.

Variable Quantity : Type.
Variable py_float : string -> result float.
Variable unit : string -> result Quantity.
Variable unit_year : Quantity.
Variable q_scale : float -> Quantity -> Quantity.
Variable q_mul : Quantity -> Quantity -> Quantity.
Variable taper_masked_area : Field -> list Z -> Z -> Field.
Variable gaussian_filter : Box -> Field -> list Quantity -> result Field.
Variable sobel_filter :
  Box -> Field -> option (list Quantity) -> bool -> result GradientField.
Variable weighted_quartiles : list float -> list float -> result (list float).
Variable cp_edge_thinning : KernelField -> ndarray3 Z.
Variable cp_double_threshold : KernelField -> ndarray3 Z -> float -> float -> ndarray3 Z.
Variable linregress : list Z -> list Sample -> result (float * float).
Variable np_nanstd : list Sample -> float.
Variable np_mean : list Sample -> float.

(** [Path.mkdir(parents=True, exist_ok=True)]. *)
Variable mkdir : string -> result Datatypes.unit.
(** [.data.data_set]: [DataSet.cmip6] with its keywords in the order path,
    model, variable, scenario, realization, frequency, extension; the slice
    [data_set[start::step]]; [data_set.annual_mean()]. *)
Variable cmip6 :
  string -> string -> string -> string -> string -> string -> string -> result DataSet.
Variable ds_slice_from : DataSet -> Z -> Z -> result DataSet.
Variable ds_annual_mean : DataSet -> result DataSet.
(** [.units]: [month_index]. *)
Variable month_index : string -> result Z.

(** workflow.py, open_data_files. *)
Definition open_data_files (config : Args) : result DataSet :=
  cmip6 (data_folder config) (model config) (variable config) (scenario config)
        (realization config) (frequency config) (extension config).

(** workflow.py, open_pi_control. *)
Definition open_pi_control (config : Args) : result DataSet :=
  let pi_control_folder :=
    match truthy_folder (pi_control_folder config) with
    | Some p => p
    | None => data_folder config
    end in
  cmip6 pi_control_folder (model config) (variable config) "piControl"
        (realization config) (frequency config) (extension config).

(** workflow.py, select_month: [data_set[month::12]]. *)
Definition select_month (config : Args) (data_set : DataSet) : result DataSet :=
  month <- month_index (month config) ;;
  ds_slice_from data_set month 12.

(** workflow.py, annual_mean. *)
Definition annual_mean (data_set : DataSet) : result DataSet :=
  ds_annual_mean data_set.

(** workflow.py, generate_report. *)
Definition generate_report (config : Args) : IO (option Report) :=
  let cfg := args_config config in
  _ <~ io_lift (mkdir (output_folder cfg)) ;;
  data_set <~ io_lift (open_data_files config) ;;
  control_set <~ io_lift (open_pi_control config) ;;
  '(data_set, control_set) <~
    io_lift (if annual config
             then (d <- annual_mean data_set ;;
                   c <- annual_mean control_set ;;
                   Ok (d, c))
             else (d <- select_month config data_set ;;
                   c <- select_month config control_set ;;
                   Ok (d, c))) ;;
  calibration <~ io_lift (compute_calibration Quantity py_float unit unit_year q_scale q_mul
                            taper_masked_area gaussian_filter sobel_filter
                            weighted_quartiles cfg control_set) ;;
  canny_edges <~ io_lift (compute_canny_edges Quantity py_float unit unit_year q_scale q_mul
                            taper_masked_area gaussian_filter sobel_filter
                            cp_edge_thinning cp_double_threshold cfg data_set calibration) ;;
  make_report Quantity py_float unit q_scale taper_masked_area gaussian_filter
    linregress np_nanstd np_mean cfg data_set calibration canny_edges.

End Report.

(* ================================================================== *)
(** ** main.py: the month argument *)

(** ['{:02}'.format(n)] *)
Definition format_02 (n : nat) : string :=
  if (n <? 10)%nat then ("0" ++ nat_to_string n)%string else nat_to_string n.

(** The [choices] of [--month]: the month names, 1 to 12, and 01 to 09. *)
Definition month_choices (MONTHS : list string) : list string :=
  MONTHS ++ map nat_to_string (seq 1 12) ++ map format_02 (seq 1 9).

(** Lines 140-141: a month given as a number is replaced by its name. *)
Definition normalise_month (py_int : string -> result Z) (MONTHS : list string)
           (month : string) : result string :=
  if existsb (String.eqb month) MONTHS
  then Ok month
  else (n <- py_int month ;; py_index MONTHS (n - 1)%Z).

(* ================================================================== *)
(** ** The statements of the specification *)

(** The combined magnitude quartile of index [i] as the specification writes
    it: [sqrt((distance[i]*gamma)^2 + time[i]^2)]. *)
Definition spec_mag (cal : Calibration) (gamma : float) (i : nat) : float :=
  PrimFloat.sqrt (sq (nth i (cal_distance cal) 0 * gamma) + sq (nth i (cal_time cal) 0))%float.

(** The quartile a reference name stands for: 3 for "pi-control-3", 4 for
    "pi-control-max". *)
Definition spec_ref_index (ref : string) : nat :=
  if String.eqb ref "pi-control-3" then 3 else 4.


(** A time index lies in the margins of width [margin] of a series of
    length [n]. *)
Definition in_time_margin (n : nat) (margin : Z) (i : nat) : bool :=
  (i <? slice_bound n margin)%nat || (slice_bound n (- margin) <=? i)%nat.


(** Two voxels of a list are joined by a chain of neighbours inside it. *)
Inductive connected (s : ndarray3 bool) (fg : list voxel) : voxel -> voxel -> Prop :=
| connected_refl v : In v fg -> connected s fg v v
| connected_step v w u :
    connected s fg v w -> In u fg -> adjacent s w u = true -> connected s fg v u.

(** The voxels of [fg] outside [seen]: what a flood fill can still add. *)
Definition unseen (fg seen : list voxel) : list voxel :=
  filter (fun w => negb (mem_voxel w seen)) fg.

(** A labelling [lab] with labels [1..n] of the voxels of [fg], complete on
    [done]: labels are at most [n] and only on [fg], every voxel of [done] is
    labelled, the class of a labelled voxel is the set of voxels joined to it,
    and every label is used. *)
Definition labelling (s : ndarray3 bool) (fg done : list voxel)
           (lab : voxel -> nat) (n : nat) : Prop :=
  (forall v, (lab v <= n)%nat)
  /\ (forall v, lab v <> 0%nat -> In v fg)
  /\ (forall v, In v done -> lab v <> 0%nat)
  /\ (forall v w, lab v <> 0%nat -> (lab w = lab v <-> connected s fg v w))
  /\ (forall x, (1 <= x <= n)%nat -> exists v, lab v = x).

(** The number of labels whose class has more than [m] voxels. *)
Definition count_exceeding (labels : ndarray3 nat) (n : nat) (m : Z) : nat :=
  length (filter (fun x => (m <? Z.of_nat (label_count labels x))%Z) (seq 1 n)).

(** A float that is a zero of either sign, the two values of [mask * 0.0]. *)
Definition float_zero (x : float) : Prop := x = 0%float \/ x = (-0)%float.

(* ================================================================== *)
(** ** Instances of the library functions

    The sections above take the functions of Python, NumPy, SciPy and of the
    missing modules as variables.  The definitions below instantiate them so
    that the workflow can be run on concrete inputs. *)

(** *** [float] on strings *)

Definition is_digit (c : ascii) : bool :=
  (48 <=? nat_of_ascii c)%nat && (nat_of_ascii c <=? 57)%nat.

Definition digit_value (c : ascii) : Z := Z.of_nat (nat_of_ascii c - 48).

Definition digits_value (l : list ascii) : Z :=
  fold_left (fun acc c => (10 * acc + digit_value c)%Z) l 0%Z.

(** The characters that occur in some spelling [float] accepts: digits,
    signs, the point, the underscore, blanks and separators, the letters of
    the exponent mark, of "infinity" and of "nan"; bytes above 127 may belong
    to a Unicode digit or blank. *)
Definition may_occur_in_float (c : ascii) : bool :=
  let n := nat_of_ascii c in
  is_digit c
  || (127 <? n)%nat
  || existsb (Nat.eqb n)
       [43; 45; 46; 95; 32; 9; 10; 11; 12; 13; 28; 29; 30; 31;
        101; 69; 105; 73; 110; 78; 102; 70; 116; 84; 121; 89; 97; 65]%nat.

Fixpoint split_at_point (l : list ascii) : list ascii * option (list ascii) :=
  match l with
  | [] => ([], None)
  | c :: l' =>
      if Nat.eqb (nat_of_ascii c) 46 then ([], Some l')
      else let '(a, b) := split_at_point l' in (c :: a, b)
  end.

(** Python's [float(s)], on the part of its domain that is modelled:
    - a decimal literal [sign digits . digits] with at most 15 digits is the
      quotient of two exactly represented integers, hence correctly rounded;
    - a string with a character that no accepted spelling contains raises
      ValueError;
    - any other string is outside the model. *)
Definition float_of_string (s : string) : result float :=
  let chars := list_ascii_of_string s in
  let '(negative, body) :=
    match chars with
    | c :: r => if Nat.eqb (nat_of_ascii c) 45 then (true, r)
                else if Nat.eqb (nat_of_ascii c) 43 then (false, r)
                else (false, chars)
    | [] => (false, chars)
    end in
  let '(int_part, frac) := split_at_point body in
  let frac_part := match frac with Some f => f | None => [] end in
  let all_digits := int_part ++ frac_part in
  if forallb is_digit all_digits
     && negb (Nat.eqb (length all_digits) 0)
     && (length all_digits <=? 15)%nat
  then let x := (PrimFloat.of_uint63 (Uint63.of_Z (digits_value all_digits))
                 / PrimFloat.of_uint63 (Uint63.of_Z (10 ^ Z.of_nat (length frac_part))))%float in
       Ok (if negative then (- x)%float else x)
  else if forallb may_occur_in_float chars
  then Raise (LibraryError "float" "spelling outside the modelled literals")
  else Raise (ValueError ("could not convert string to float: " ++ s)%string).

(** Python's [int(s)] on a string of at most 15 decimal digits; any other
    string is outside the model. *)
Definition int_of_string (s : string) : result Z :=
  let chars := list_ascii_of_string s in
  if forallb is_digit chars && negb (Nat.eqb (length chars) 0)
     && (length chars <=? 15)%nat
  then Ok (digits_value chars)
  else Raise (LibraryError "int" "spelling outside the modelled literals").

(** *** Units *)

(** A quantity is a magnitude and the name of its unit. *)
Definition quantity : Type := (float * string)%type.

Definition known_units : list string := ["year"; "km"; "km/year"; "m"; "day"].

Definition unit_of_string (s : string) : result quantity :=
  if existsb (String.eqb s) known_units then Ok (1%float, s)
  else Raise (LibraryError "pint" ("UndefinedUnitError: " ++ s)%string).

Definition quantity_scale (x : float) (q : quantity) : quantity :=
  ((x * fst q)%float, snd q).

Definition quantity_mul (p q : quantity) : quantity :=
  ((fst p * fst q)%float, (snd p ++ "*" ++ snd q)%string).

Definition one_year : quantity := (1%float, "year").

(** *** The weighted quantile estimator *)

(** Insertion of a (value, weight) pair into a list sorted by value. *)
Fixpoint insert_sample (p : float * float) (l : list (float * float)) : list (float * float) :=
  match l with
  | [] => [p]
  | q :: l' => if PrimFloat.leb (fst p) (fst q) then p :: l else q :: insert_sample p l'
  end.

Definition sort_samples (l : list (float * float)) : list (float * float) :=
  fold_right insert_sample [] l.

(** Running sums of the weights. *)
Fixpoint cumulative (acc : float) (l : list float) : list float :=
  match l with
  | [] => []
  | w :: l' => let acc' := (acc + w)%float in acc' :: cumulative acc' l'
  end.

(** Linear interpolation of the points [(xp, fp)] at [x], constant outside
    the range of [xp]. *)
Fixpoint interpolate (x : float) (pts : list (float * float)) : float :=
  match pts with
  | [] => PrimFloat.nan
  | (x0, y0) :: rest =>
      if PrimFloat.leb x x0 then y0
      else match rest with
           | [] => y0
           | (x1, y1) :: _ =>
               if PrimFloat.ltb x x1
               then (y0 + (x - x0) * ((y1 - y0) / (x1 - x0)))%float
               else interpolate x rest
           end
  end.

(** Modelled from the spec: [weighted_quartiles] of the missing module
    [.stats] (section 4.1): sort the samples, form the cumulative weight
    fraction, interpolate the sample value at the fractions 0, 0.25, 0.5,
    0.75 and 1; empty input or zero total weight is an error. *)
Definition weighted_quartiles_model (values weights : list float) : result (list float) :=
  let sorted := sort_samples (combine values weights) in
  let sums := cumulative 0 (map snd sorted) in
  match rev sums with
  | [] => Raise (LibraryError "stats" "EmptyInputError")
  | total :: _ =>
      if PrimFloat.ltb 0 total
      then let pts := combine (map (fun c => (c / total)%float) sums) (map fst sorted) in
           Ok (map (fun q => interpolate q pts) [0; 0.25; 0.5; 0.75; 1]%float)
      else Raise (LibraryError "stats" "EmptyInputError")
  end.

(** *** Chunk statistics *)

(** The unmasked values of a chunk. *)
Definition valid_values (l : list Sample) : list float :=
  map fst (filter (fun p => negb (snd p)) l).

Definition float_sum (l : list float) : float := fold_left PrimFloat.add l 0%float.

(** The arithmetic mean by a left-to-right sum, NaN on an empty chunk.
    NumPy adds pairwise; the two agree whenever the partial sums are exact. *)
Definition mean_of (l : list float) : float :=
  (float_sum l / float_of_Z (size l))%float.

Definition mean_model (l : list Sample) : float := mean_of (valid_values l).

(** [np.nanstd]: the population standard deviation of the values that are
    not NaN. *)
Definition nanstd_model (l : list Sample) : float :=
  let xs := filter (fun x => negb (PrimFloat.is_nan x)) (valid_values l) in
  let m := mean_of xs in
  PrimFloat.sqrt (mean_of (map (fun x => sq (x - m)) xs)).

(** [scipy.stats.linregress]: least squares from the centred sums; empty
    input, inputs of different lengths and identical abscissae are errors. *)
Definition linregress_model (x : list Z) (y : list Sample) : result (float * float) :=
  let xs := map float_of_Z x in
  let ys := map fst y in
  if Nat.eqb (length xs) 0 || Nat.eqb (length ys) 0
  then Raise (ValueError "Inputs must not be empty.")
  else if negb (Nat.eqb (length xs) (length ys))
  then Raise (ValueError "all the input array dimensions must match")
  else
    let xmean := mean_of xs in
    let ymean := mean_of ys in
    let ssxm := mean_of (map (fun a => sq (a - xmean)) xs) in
    let ssxym := mean_of (map (fun p => ((fst p - xmean) * (snd p - ymean))%float)
                              (combine xs ys)) in
    if PrimFloat.eqb ssxm 0
    then Raise (ValueError "Cannot calculate a linear regression if all x values are identical")
    else let slope := (ssxym / ssxm)%float in
         Ok (slope, (ymean - slope * xmean)%float).

(** *** Filters and kernels *)

(** No tapering and no smoothing. *)
Definition taper_identity (d : Field) (margins : list Z) (blend : Z) : Field := d.

Definition gaussian_identity (box : Box) (d : Field) (sigmas : list quantity) : result Field :=
  Ok d.

(** A gradient field for the examples: channel 0 is the central difference
    in time (zero on the first and last step), the spatial channels vanish
    and the normalisation channel is one half everywhere. *)
Definition gradient_of (d : Field) : GradientField :=
  let a := field_values d in
  mkGradientField (len0 a) (len1 a) (len2 a)
    (fun c i j k =>
       match c with
       | 0 => if (0 <? i)%nat && (S i <? len0 a)%nat
              then ((cell a (S i) j k - cell a (pred i) j k) / 2)%float
              else 0%float
       | 3 => 0.5%float
       | _ => 0%float
       end)
    (field_mask d).

Definition sobel_example (box : Box) (d : Field) (weight : option (list quantity))
           (physical : bool) : result GradientField :=
  Ok (gradient_of d).


(** Modelled from the spec: the hysteresis kernel [cp_double_threshold] of
    the external [hyper_canny] module (section 4.7).  A candidate is strong
    when its normalisation value is below the first bound and weak when it is
    below the second; the result is every strong voxel and every weak voxel
    joined to a strong one by 26-connected weak voxels. *)
Definition hysteresis_model (s : KernelField) (m : ndarray3 Z) (hi lo : float)
  : ndarray3 Z :=
  let idx := indices3 (len0 m) (len1 m) (len2 m) in
  let norm := fun v : voxel => let '(x, y, t) := v in k_cell s x y t 3 in
  let candidate := fun v => negb (Z.eqb (at3 m v) 0) in
  let strong := filter (fun v => candidate v && PrimFloat.ltb (norm v) hi) idx in
  let weak := filter (fun v => candidate v
                               && (PrimFloat.ltb (norm v) lo || PrimFloat.ltb (norm v) hi)) idx in
  let kept := flood (length weak) (generate_binary_structure3 3) weak strong in
  mk_ndarray3 (len0 m) (len1 m) (len2 m)
    (fun x y t => if mem_voxel (x, y, t) kept then 1%Z else 0%Z).


(** *** Example inputs *)

(** A series over one grid cell. *)
Definition series {A : Type} (default : A) (l : list A) : ndarray3 A :=
  mk_ndarray3 (length l) 1 1 (fun i _ _ => nth i l default).

Definition example_box (n : nat) : Box :=
  mkBox (n, 1, 1) (mk_ndarray2 1 1 (fun _ _ => 1%float))
        (map Z.of_nat (seq 2000 n)) [0%float] [0%float].

(** A command line whose temporal smoothing scale is not a number:
    [--sigma-t fast year]. *)
Definition config_sigma_fast : Config :=
  mkConfig "3rd" ["200"; "km"] ["fast"; "year"] ["10"; "km/year"]
           "pi-control-max" "pi-control-3" ["1"] ["1"] true ".".


(** A step of height one after the fourth of seven time steps, over one grid
    cell, as a plain array and as a masked array whose last step is invalid. *)
Definition step_values : ndarray3 float := series 0%float [0; 0; 0; 0; 1; 1; 1]%float.

Definition step_plain : DataSet := mkDataSet (Plain step_values) (example_box 7).


(** Seven years, an edge mask with one edge at time index 3, one with a
    second edge on the first time step, and a series that jumps from about
    0.5 to about 5.5 at the edge. *)
Definition years7 : list Z := map Z.of_nat (seq 2000 7).

Definition edge_at_3 : ndarray3 Z := series 0%Z [0; 0; 0; 1; 0; 0; 0]%Z.

Definition edges_at_0_and_3 : ndarray3 Z := series 0%Z [1; 0; 0; 1; 0; 0; 0]%Z.

Definition jump_values : ndarray3 float := series 0%float [0; 1; 0; 3; 6; 6; 5]%float.

(** An edge mask over one grid cell with three regions: two voxels, one
    voxel and one voxel. *)
Definition three_regions : ndarray3 Z := series 0%Z [1; 1; 0; 1; 0; 0; 1]%Z.

(** A calibration record with four quartiles only, and a command line that
    names the third quartile for both references. *)
Definition four_quartiles : Calibration :=
  mkCalibration [0.25; 0.5; 0.75; 1]%float [0; 0; 0; 0]%float
                [1; 1; 1; 1]%float [1; 1; 1; 1]%float.

Definition config_both_third : Config :=
  mkConfig "3rd" ["200"; "km"] ["10"; "year"] ["10"; "km/year"]
           "pi-control-3" "pi-control-3" ["1"] ["1"] true ".".

(** A command line whose lower reference is not one of the two names. *)
Definition config_unknown_reference : Config :=
  mkConfig "3rd" ["200"; "km"] ["10"; "year"] ["10"; "km/year"]
           "pi-control-max" "pi-control-2" ["1"] ["1"] true ".".

(** An edge mask whose only non-zero entry is a 2, and one over two
    latitudes with an edge on the second, where the examples' data have a
    single latitude. *)
Definition edge_labelled_two : ndarray3 Z := series 0%Z [0; 0; 0; 2; 0; 0; 0]%Z.

Definition edge_off_grid : ndarray3 Z :=
  mk_ndarray3 7 2 1 (fun i j k => if Nat.eqb i 3 && Nat.eqb j 1 then 1%Z else 0%Z).

(** Two edges in one column with the same abruptness, which is therefore
    the column's maximum. *)
Definition edges_at_1_and_3 : ndarray3 Z := series 0%Z [0; 1; 0; 1; 0; 0; 0]%Z.

Definition tied_scores : ndarray3 float := series 0%float [0; 5; 0; 5; 0; 0; 0]%float.

Definition tied_maximum : ndarray2 float := mk_ndarray2 1 1 (fun _ _ => 5%float).

(** The abbreviated month names of an English locale. *)
Definition months_en : list string :=
  ["Jan"; "Feb"; "Mar"; "Apr"; "May"; "Jun"; "Jul"; "Aug"; "Sep"; "Oct"; "Nov"; "Dec"].

(** Forty years over one grid cell: the values alternate between 0 and 1 for
    twenty years and between 10 and 11 afterwards, with one edge at time
    index 19. *)
Definition wave (base : float) (n : nat) : list float :=
  map (fun i => if Nat.even i then base else (base + 1)%float) (seq 0 n).

Definition shift_values : ndarray3 float := series 0%float (wave 0 20 ++ wave 10 20).

Definition shift_edge : ndarray3 Z :=
  series 0%Z (map (fun i => if Nat.eqb i 19 then 1%Z else 0%Z) (seq 0 40)).

Definition shift_data : DataSet := mkDataSet (Plain shift_values) (example_box 40).

Definition shift_canny : Canny := mkCanny (gradient_of (Plain shift_values)) shift_edge.

(** A map of years over one grid cell that holds no year. *)
Definition no_year : ndarray2 Z := mk_ndarray2 1 1 (fun _ _ => 0%Z).

(** The command line defaults of main.py. *)
Definition default_config : Config :=
  mkConfig "3rd" ["200"; "km"] ["10"; "year"] ["10"; "km/year"]
           "pi-control-max" "pi-control-3" ["1"] ["1"] true ".".

Definition example_calibration : Calibration :=
  mkCalibration [0.25; 0.5; 0.75; 1; 1.5]%float [0; 0; 0; 0; 0]%float
                [1; 1; 1; 1; 1]%float [1; 1; 1; 1; 1]%float.

(* ================================================================== *)
(** * Properties *)

(** ** Sequences and the error monad *)

Lemma bind_ok {A B : Type} (c : result A) (k : A -> result B) (b : B) :
  bind c k = Ok b -> exists a, c = Ok a /\ k a = Ok b.
Proof.
  destruct c as [a | e]; simpl; intros H.
  - exists a. split; [reflexivity | exact H].
  - discriminate H.
Qed.

(** Inversion of one monadic step in a hypothesis [H : bind c k = Ok b]. *)
Tactic Notation "bind_step" hyp(H) "as" simple_intropattern(x) ident(Hx) :=
  apply bind_ok in H as (x & Hx & H).

Lemma py_index_nth {A : Type} (l : list A) (i : nat) (x : A) :
  nth_error l i = Some x -> py_index l (Z.of_nat i) = Ok x.
Proof.
  intros H. unfold py_index.
  assert (Hlt : (i < length l)%nat) by (apply nth_error_Some; congruence).
  destruct (Z.of_nat i <? 0)%Z eqn:Hneg; [apply Z.ltb_lt in Hneg; lia |].
  destruct ((Z.of_nat i <? 0)%Z || (Z.of_nat (length l) <=? Z.of_nat i)%Z) eqn:Hout.
  - apply orb_true_iff in Hout as [Hout | Hout].
    + congruence.
    + apply Z.leb_le in Hout. lia.
  - rewrite Nat2Z.id, H. reflexivity.
Qed.

Lemma list_index_quartile (name : string) (q : nat) :
  nth_error quartile_names q = Some name ->
  list_index name quartile_names = Ok (Z.of_nat q).
Proof.
  intros H.
  do 5 (destruct q as [| q]; [injection H as <-; reflexivity |]).
  destruct q; discriminate H.
Qed.


(** ** Arrays and voxels *)

Lemma voxel_eqb_eq (v w : voxel) : voxel_eqb v w = true <-> v = w.
Proof.
  destruct v as [[i j] k], w as [[i' j'] k']. unfold voxel_eqb.
  rewrite !andb_true_iff, !Nat.eqb_eq. split.
  - intros [[-> ->] ->]. reflexivity.
  - intros H. injection H as -> -> ->. auto.
Qed.

Lemma voxel_eq_dec (v w : voxel) : {v = w} + {v <> w}.
Proof.
  destruct (voxel_eqb v w) eqn:E.
  - left. apply voxel_eqb_eq. exact E.
  - right. intros H. apply voxel_eqb_eq in H. congruence.
Qed.

Lemma at3_set3_same {A : Type} (a : ndarray3 A) (v : voxel) (x : A) :
  at3 (set3 a v x) v = x.
Proof.
  destruct v as [[i j] k]. cbn [set3 at3 cell]. rewrite !Nat.eqb_refl. reflexivity.
Qed.

Lemma at3_set3_other {A : Type} (a : ndarray3 A) (v w : voxel) (x : A) :
  v <> w -> at3 (set3 a v x) w = at3 a w.
Proof.
  intros Hne. destruct v as [[i j] k], w as [[i' j'] k']. cbn [set3 at3 cell].
  destruct (Nat.eqb i' i && Nat.eqb j' j && Nat.eqb k' k) eqn:E; [| reflexivity].
  rewrite !andb_true_iff, !Nat.eqb_eq in E. destruct E as [[-> ->] ->].
  exfalso. apply Hne. reflexivity.
Qed.

Lemma in_indices3 (n0 n1 n2 : nat) (i j k : nat) :
  In (i, j, k) (indices3 n0 n1 n2) <-> (i < n0 /\ j < n1 /\ k < n2)%nat.
Proof.
  unfold indices3. rewrite in_flat_map. split.
  - intros (i' & Hi & H). apply in_flat_map in H as (j' & Hj & H).
    apply in_map_iff in H as (k' & E & Hk). injection E as -> -> ->.
    apply in_seq in Hi, Hj, Hk. lia.
  - intros (Hi & Hj & Hk). exists i. split; [apply in_seq; lia |].
    apply in_flat_map. exists j. split; [apply in_seq; lia |].
    apply in_map_iff. exists k. split; [reflexivity | apply in_seq; lia].
Qed.

Lemma in_np_where (mask : ndarray3 Z) (v : voxel) :
  In v (np_where mask) <-> in_shape mask v = true /\ at3 mask v <> 0%Z.
Proof.
  unfold np_where. rewrite filter_In. destruct v as [[i j] k].
  rewrite in_indices3. unfold in_shape.
  rewrite !andb_true_iff, !Nat.ltb_lt, negb_true_iff, Z.eqb_neq. tauto.
Qed.

(** ** Threshold derivation *)

Lemma np_zip_same_length (f : float -> float -> float) (a b : list float) :
  length a = length b ->
  np_zip f a b = Ok (map (fun p => f (fst p) (snd p)) (combine a b)).
Proof.
  intros H. unfold np_zip. rewrite H, Nat.eqb_refl. reflexivity.
Qed.

Lemma nth_combine_map (f : float -> float -> float) (a b : list float) (i : nat) (d : float) :
  (i < length a)%nat -> length a = length b ->
  nth_error (map (fun p => f (fst p) (snd p)) (combine a b)) i
  = Some (f (nth i a d) (nth i b d)).
Proof.
  revert b i. induction a as [| x a IH]; intros [| y b] [| i] Hi Hlen;
    simpl in *; try lia; try reflexivity.
  apply IH; lia.
Qed.

Lemma nth_map_in_range {A B : Type} (f : A -> B) (l : list A) (i : nat) (d : B) (d' : A) :
  (i < length l)%nat -> nth i (map f l) d = f (nth i l d').
Proof.
  revert i. induction l as [| a l IH]; intros [| i] H; simpl in *; try lia.
  - reflexivity.
  - apply IH. lia.
Qed.

(** The magnitude quartiles computed by the code are, index by index, the
    specification's formula. *)
Lemma mag_quartiles_spec (cal : Calibration) (gamma : float) (i : nat) :
  length (cal_distance cal) = length (cal_time cal) ->
  (i < length (cal_time cal))%nat ->
  exists mags, mag_quartiles cal gamma = Ok mags
               /\ nth_error mags i = Some (spec_mag cal gamma i)
               /\ length mags = length (cal_time cal).
Proof.
  intros Hlen Hi. unfold mag_quartiles.
  rewrite np_zip_same_length by (rewrite !length_map; exact Hlen).
  eexists. split; [reflexivity |]. split.
  - rewrite nth_error_map.
    rewrite (nth_combine_map _ _ _ i 0%float)
      by (rewrite !length_map; lia).
    simpl. unfold spec_mag. do 3 f_equal.
    + rewrite (nth_map_in_range sq _ _ _ 0%float) by (rewrite length_map; lia).
      rewrite (nth_map_in_range _ _ _ _ 0%float) by lia.
      reflexivity.
    + apply nth_map_in_range. exact Hi.
  - rewrite length_map, length_map, length_combine, !length_map. lia.
Qed.

Lemma dict_get_reference (m3 m4 : float) (ref : string) :
  In ref ["pi-control-3"; "pi-control-max"] ->
  dict_get [("pi-control-3", m3); ("pi-control-max", m4)] ref
  = Ok (if Nat.eqb (spec_ref_index ref) 3 then m3 else m4).
Proof.
  intros [<- | [<- | []]]; reflexivity.
Qed.

Lemma spec_ref_index_cases (ref : string) :
  spec_ref_index ref = 3 \/ spec_ref_index ref = 4.
Proof.
  unfold spec_ref_index. destruct (String.eqb ref "pi-control-3"); auto.
Qed.

Lemma py_index_head {A : Type} (l : list A) (x : A) :
  hd_error l = Some x -> py_index l 0 = Ok x.
Proof.
  destruct l as [| a l]; simpl; intros H; [discriminate |].
  injection H as ->. reflexivity.
Qed.

(** C1. For a calibration record with five quartiles, a configuration that
    selects quartile [q], lower and upper references among "pi-control-3" and
    "pi-control-max" and fractions that read as [f_lo] and [f_up],
    [get_thresholds] returns [(mag[j_lo] * f_lo, mag[j_up] * f_up)] with
    [mag[i] = sqrt((distance[i] * gamma)^2 + time[i]^2)], [gamma] the
    calibration's gamma at [q], and [j] 3 or 4 according to the reference.
    The two references are read independently, and equal references give
    equal values before scaling. *)
Theorem get_thresholds_formula
  (py_float : string -> result float) (cfg : Config) (cal : Calibration)
  (q : nat) (gamma f_lo f_up : float) (s_lo s_up : string) :
  length (cal_time cal) = 5 ->
  length (cal_distance cal) = 5 ->
  nth_error quartile_names q = Some (calibration_quartile cfg) ->
  nth_error (cal_gamma cal) q = Some gamma ->
  In (lower_threshold_ref cfg) ["pi-control-3"; "pi-control-max"] ->
  In (upper_threshold_ref cfg) ["pi-control-3"; "pi-control-max"] ->
  hd_error (lower_threshold_frac cfg) = Some s_lo -> py_float s_lo = Ok f_lo ->
  hd_error (upper_threshold_frac cfg) = Some s_up -> py_float s_up = Ok f_up ->
  get_thresholds py_float cfg cal
  = Ok ((spec_mag cal gamma (spec_ref_index (lower_threshold_ref cfg)) * f_lo)%float,
        (spec_mag cal gamma (spec_ref_index (upper_threshold_ref cfg)) * f_up)%float)
  /\ (lower_threshold_ref cfg = upper_threshold_ref cfg ->
      spec_mag cal gamma (spec_ref_index (lower_threshold_ref cfg))
      = spec_mag cal gamma (spec_ref_index (upper_threshold_ref cfg))).
Proof.
  intros Ht Hd Hq Hg Hlo Hup Hslo Hflo Hsup Hfup.
  split; [| intros ->; reflexivity].
  unfold get_thresholds, get_calibration_factor.
  rewrite (list_index_quartile _ _ Hq). cbn [bind].
  rewrite (py_index_nth _ _ _ Hg). cbn [bind].
  destruct (mag_quartiles_spec cal gamma 3) as (mags & Hmags & H3 & Hlen);
    [congruence | lia |].
  destruct (mag_quartiles_spec cal gamma 4) as (mags' & Hmags' & H4 & _);
    [congruence | lia |].
  rewrite Hmags in Hmags'. injection Hmags' as <-.
  rewrite Hmags. cbn [bind].
  pose proof (py_index_nth mags 3 _ H3) as P3.
  pose proof (py_index_nth mags 4 _ H4) as P4.
  change (Z.of_nat 3) with 3%Z in P3. change (Z.of_nat 4) with 4%Z in P4.
  rewrite P3. cbn [bind]. rewrite P4. cbn [bind]. cbv zeta.
  rewrite (dict_get_reference _ _ _ Hlo). cbn [bind].
  rewrite (dict_get_reference _ _ _ Hup). cbn [bind].
  rewrite (py_index_head _ _ Hslo). cbn [bind]. rewrite Hflo. cbn [bind].
  rewrite (py_index_head _ _ Hsup). cbn [bind]. rewrite Hfup. cbn [bind].
  destruct (spec_ref_index_cases (lower_threshold_ref cfg)) as [-> | ->];
    destruct (spec_ref_index_cases (upper_threshold_ref cfg)) as [-> | ->];
    reflexivity.
Qed.

Lemma get_thresholds_formula_witness :
  get_thresholds float_of_string default_config example_calibration
  = Ok ((spec_mag example_calibration 1 3 * 1)%float,
        (spec_mag example_calibration 1 4 * 1)%float).
Proof.
  apply (get_thresholds_formula float_of_string default_config example_calibration
           3 1%float 1%float 1%float "1" "1");
    try reflexivity; simpl; auto.
Defined.

(** A configuration that argparse accepts meets the conditions on the
    references, the quartile name and the fractions; its upper reference is
    "pi-control-max", the only value main.py offers for it. *)
Lemma parser_accepts_references (cfg : Config) :
  parser_accepts cfg = true ->
  upper_threshold_ref cfg = "pi-control-max"
  /\ In (lower_threshold_ref cfg) ["pi-control-3"; "pi-control-max"]
  /\ In (upper_threshold_ref cfg) ["pi-control-3"; "pi-control-max"]
  /\ (exists q, nth_error quartile_names q = Some (calibration_quartile cfg))
  /\ (exists s_lo, hd_error (lower_threshold_frac cfg) = Some s_lo)
  /\ (exists s_up, hd_error (upper_threshold_frac cfg) = Some s_up).
Proof.
  unfold parser_accepts, choice_ok. rewrite !andb_true_iff, !Nat.eqb_eq.
  intros ((((Hq & Hup) & Hlo) & Hfu) & Hfl).
  apply existsb_exists in Hq as (name & Hname & Eq). apply String.eqb_eq in Eq.
  apply existsb_exists in Hup as (up & Hup & Eup). apply String.eqb_eq in Eup.
  apply existsb_exists in Hlo as (lo & Hlo & Elo). apply String.eqb_eq in Elo.
  subst name up lo.
  assert (Eu : upper_threshold_ref cfg = "pi-control-max")
    by (destruct Hup as [E | []]; symmetry; exact E).
  split; [exact Eu |]. split; [exact Hlo |].
  split; [rewrite Eu; right; left; reflexivity |].
  split; [apply In_nth_error; exact Hname |].
  split.
  - destruct (lower_threshold_frac cfg) as [| x l]; [discriminate Hfl | exists x; reflexivity].
  - destruct (upper_threshold_frac cfg) as [| x l]; [discriminate Hfu | exists x; reflexivity].
Qed.

(** ** Calibration record *)







(** ** The calibration stage *)

(** A call of [calibrate_sobel] with five positional arguments fails while
    the arguments are bound, whatever they are. *)
Lemma call_calibrate_sobel_five
  (Quantity : Type)
  (sobel_filter : Box -> Field -> option (list Quantity) -> bool -> result GradientField)
  (weighted_quartiles : list float -> list float -> result (list float))
  (a b c d e : PyValue Quantity) :
  call_calibrate_sobel Quantity sobel_filter weighted_quartiles [a; b; c; d; e]
  = Raise arity_error.
Proof.
  reflexivity.
Qed.

Section CalibrationStage.

Variable Quantity : Type.
Variable py_float : string -> result float.
Variable unit : string -> result Quantity.
Variable unit_year : Quantity.
Variable q_scale : float -> Quantity -> Quantity.
Variable q_mul : Quantity -> Quantity -> Quantity.
Variable taper_masked_area : Field -> list Z -> Z -> Field.
Variable gaussian_filter : Box -> Field -> list Quantity -> result Field.
Variable sobel_filter :
  Box -> Field -> option (list Quantity) -> bool -> result GradientField.
Variable weighted_quartiles : list float -> list float -> result (list float).

Let run_calibration :=
  compute_calibration Quantity py_float unit unit_year q_scale q_mul
    taper_masked_area gaussian_filter sobel_filter weighted_quartiles.

(** C2 (amended). [compute_calibration] never returns a calibration record.
    It runs the steps before line 132 in order (the quartile name, the
    smoothing scales, the Sobel scale, the smoothing filter), a step that
    fails raising its own exception, and when they all succeed the call of
    [calibrate_sobel] with five positional arguments raises the TypeError of
    a function that takes four. *)
Theorem compute_calibration_never_completes (cfg : Config) (data_set : DataSet) :
  run_calibration cfg data_set
  = (quartile <- list_index (calibration_quartile cfg) quartile_names ;;
     sigmas <- get_sigmas Quantity py_float unit q_scale cfg ;;
     scale <- parse_quantity Quantity py_float unit q_scale (sobel_scale cfg) ;;
     smooth_data <- gaussian_filter (ds_box data_set)
                      (tapered taper_masked_area cfg (ds_data data_set))
                      [fst sigmas; snd sigmas; snd sigmas] ;;
     Raise arity_error)
  /\ is_ok (run_calibration cfg data_set) = false
  /\ forall quartile sigmas scale smooth_data,
       list_index (calibration_quartile cfg) quartile_names = Ok quartile ->
       get_sigmas Quantity py_float unit q_scale cfg = Ok sigmas ->
       parse_quantity Quantity py_float unit q_scale (sobel_scale cfg) = Ok scale ->
       gaussian_filter (ds_box data_set)
         (tapered taper_masked_area cfg (ds_data data_set))
         [fst sigmas; snd sigmas; snd sigmas] = Ok smooth_data ->
       run_calibration cfg data_set = Raise arity_error.
Proof.
  assert (Hchain :
    run_calibration cfg data_set
    = (quartile <- list_index (calibration_quartile cfg) quartile_names ;;
       sigmas <- get_sigmas Quantity py_float unit q_scale cfg ;;
       scale <- parse_quantity Quantity py_float unit q_scale (sobel_scale cfg) ;;
       smooth_data <- gaussian_filter (ds_box data_set)
                        (tapered taper_masked_area cfg (ds_data data_set))
                        [fst sigmas; snd sigmas; snd sigmas] ;;
       Raise arity_error)).
  { unfold run_calibration, compute_calibration.
    destruct (list_index _ _) as [quartile |]; cbn [bind]; [| reflexivity].
    destruct (get_sigmas _ _ _ _ _) as [[st sx] |]; cbn [bind fst snd]; [| reflexivity].
    destruct (parse_quantity _ _ _ _ _) as [scale |]; cbn [bind]; [| reflexivity].
    destruct (gaussian_filter _ _ _) as [smooth |]; cbn [bind]; [| reflexivity].
    apply call_calibrate_sobel_five. }
  split; [exact Hchain |]. rewrite Hchain. split.
  - destruct (list_index _ _) as [quartile |]; cbn [bind]; [| reflexivity].
    destruct (get_sigmas _ _ _ _ _) as [sigmas |]; cbn [bind]; [| reflexivity].
    destruct (parse_quantity _ _ _ _ _) as [scale |]; cbn [bind]; [| reflexivity].
    destruct (gaussian_filter _ _ _) as [smooth |]; reflexivity.
  - intros quartile sigmas scale smooth Hq Hs Hscale Hsmooth.
    rewrite Hq. cbn [bind]. rewrite Hs. cbn [bind]. rewrite Hscale. cbn [bind].
    rewrite Hsmooth. reflexivity.
Qed.

End CalibrationStage.

Lemma compute_calibration_never_completes_witness :
  compute_calibration quantity float_of_string unit_of_string one_year quantity_scale
    quantity_mul taper_identity gaussian_identity sobel_example weighted_quartiles_model
    default_config
    step_plain
  = Raise arity_error.
Proof.
  eapply (proj2 (proj2 (compute_calibration_never_completes quantity float_of_string
                          unit_of_string one_year quantity_scale quantity_mul
                          taper_identity gaussian_identity sobel_example
                          weighted_quartiles_model default_config _)));
    vm_compute; reflexivity.
Defined.

(** C2, counterexample.  With [--sigma-t fast year] the run stops at line 113,
    in [get_sigmas]: [float('fast')] raises ValueError, and the call of
    [calibrate_sobel] is never reached. *)
Lemma compute_calibration_counterexample :
  compute_calibration quantity float_of_string unit_of_string one_year quantity_scale
    quantity_mul taper_identity gaussian_identity sobel_example weighted_quartiles_model
    config_sigma_fast
    step_plain
  = Raise (ValueError "could not convert string to float: fast").
Proof.
  vm_compute. reflexivity.
Qed.

(** ** Region labelling *)

Lemma mem_voxel_In (v : voxel) (l : list voxel) : mem_voxel v l = true <-> In v l.
Proof.
  unfold mem_voxel. rewrite existsb_exists. split.
  - intros (w & Hw & E). apply voxel_eqb_eq in E. subst. exact Hw.
  - intros H. exists v. split; [exact H | apply voxel_eqb_eq; reflexivity].
Qed.

Lemma mem_voxel_not_In (v : voxel) (l : list voxel) : mem_voxel v l = false <-> ~ In v l.
Proof.
  rewrite <- mem_voxel_In. destruct (mem_voxel v l); split; congruence.
Qed.

Section Flood.

Variable s : ndarray3 bool.
Variable fg : list voxel.

Lemma connected_in_left (v w : voxel) : connected s fg v w -> In v fg.
Proof. induction 1; assumption. Qed.

Lemma connected_in_right (v w : voxel) : connected s fg v w -> In w fg.
Proof. induction 1; assumption. Qed.

Lemma connected_trans (v w u : voxel) :
  connected s fg v w -> connected s fg w u -> connected s fg v u.
Proof.
  intros Hvw Hwu. induction Hwu as [w Hw | w x u Hwx IH Hu Hadj].
  - exact Hvw.
  - eapply connected_step; [apply IH; exact Hvw | exact Hu | exact Hadj].
Qed.

Lemma in_frontier (seen : list voxel) (w : voxel) :
  In w (frontier s fg seen)
  <-> In w fg /\ ~ In w seen /\ exists u, In u seen /\ adjacent s u w = true.
Proof.
  unfold frontier. rewrite filter_In, andb_true_iff, negb_true_iff,
    mem_voxel_not_In, existsb_exists. tauto.
Qed.

Lemma filter_length_lt {A : Type} (p q : A -> bool) (l : list A) (a : A) :
  (forall x, p x = true -> q x = true) ->
  In a l -> q a = true -> p a = false ->
  (length (filter p l) < length (filter q l))%nat.
Proof.
  intros Hpq. induction l as [| x l IH]; intros Hin Hq Hp; [destruct Hin |].
  assert (Hle : forall l', (length (filter p l') <= length (filter q l'))%nat).
  { induction l' as [| y l' IH']; [apply Nat.le_refl |]. simpl.
    destruct (p y) eqn:Epy.
    - rewrite (Hpq y Epy). simpl. lia.
    - destruct (q y); simpl; lia. }
  simpl. destruct Hin as [-> | Hin].
  - rewrite Hp, Hq. simpl. specialize (Hle l). lia.
  - specialize (IH Hin Hq Hp). destruct (p x) eqn:Epx.
    + rewrite (Hpq x Epx). simpl. lia.
    + destruct (q x); simpl; lia.
Qed.

Lemma unseen_shrinks (seen : list voxel) (w : voxel) (new : list voxel) :
  frontier s fg seen = w :: new ->
  (length (unseen fg (seen ++ w :: new)) < length (unseen fg seen))%nat.
Proof.
  intros Hf.
  assert (Hw : In w (frontier s fg seen)) by (rewrite Hf; left; reflexivity).
  apply in_frontier in Hw as (Hfg & Hnot & _).
  unfold unseen. apply filter_length_lt with (a := w).
  - intros x Hx. apply negb_true_iff in Hx. apply negb_true_iff.
    apply mem_voxel_not_In. apply mem_voxel_not_In in Hx.
    intros Hin. apply Hx. apply in_or_app. left. exact Hin.
  - exact Hfg.
  - apply negb_true_iff, mem_voxel_not_In. exact Hnot.
  - apply negb_false_iff, mem_voxel_In. apply in_or_app. right. left. reflexivity.
Qed.

Lemma frontier_nil_of_unseen_nil (seen : list voxel) :
  length (unseen fg seen) = 0%nat -> frontier s fg seen = [].
Proof.
  intros H. destruct (frontier s fg seen) as [| w new] eqn:Hf; [reflexivity |].
  assert (Hw : In w (frontier s fg seen)) by (rewrite Hf; left; reflexivity).
  apply in_frontier in Hw as (Hfg & Hnot & _).
  assert (Hin : In w (unseen fg seen)).
  { unfold unseen. apply filter_In. split; [exact Hfg |].
    apply negb_true_iff, mem_voxel_not_In. exact Hnot. }
  destruct (unseen fg seen); [destruct Hin | discriminate H].
Qed.

(** With enough fuel the flood stops on a set that has no frontier. *)
Lemma flood_closed (fuel : nat) (seen : list voxel) :
  (length (unseen fg seen) <= fuel)%nat ->
  frontier s fg (flood fuel s fg seen) = [].
Proof.
  revert seen. induction fuel as [| fuel IH]; intros seen Hfuel.
  - cbn [flood]. apply frontier_nil_of_unseen_nil. lia.
  - cbn [flood]. destruct (frontier s fg seen) as [| w new] eqn:Hf; [exact Hf |].
    apply IH. pose proof (unseen_shrinks seen w new Hf). lia.
Qed.

Lemma flood_extends (fuel : nat) (seen : list voxel) (v : voxel) :
  In v seen -> In v (flood fuel s fg seen).
Proof.
  revert seen. induction fuel as [| fuel IH]; intros seen Hin; cbn [flood]; [exact Hin |].
  destruct (frontier s fg seen) as [| w new]; [exact Hin |].
  apply IH. apply in_or_app. left. exact Hin.
Qed.

(** Every voxel of the flood is reached from a voxel seen at the start. *)
Lemma flood_sound (fuel : nat) (seen : list voxel) (w : voxel) :
  incl seen fg ->
  In w (flood fuel s fg seen) ->
  exists v, In v seen /\ connected s fg v w.
Proof.
  revert seen. induction fuel as [| fuel IH]; intros seen Hincl Hin; cbn [flood] in Hin.
  - exists w. split; [exact Hin | apply connected_refl, Hincl, Hin].
  - destruct (frontier s fg seen) as [| x new] eqn:Hf.
    + exists w. split; [exact Hin | apply connected_refl, Hincl, Hin].
    + assert (Hincl' : incl (seen ++ x :: new) fg).
      { intros y Hy. apply in_app_or in Hy as [Hy | Hy]; [apply Hincl, Hy |].
        rewrite <- Hf in Hy. apply in_frontier in Hy. tauto. }
      destruct (IH _ Hincl' Hin) as (v & Hv & Hvw).
      apply in_app_or in Hv as [Hv | Hv]; [exists v; split; assumption |].
      rewrite <- Hf in Hv. apply in_frontier in Hv as (Hvfg & _ & u & Hu & Hadj).
      exists u. split; [exact Hu |].
      apply connected_trans with (w := v); [| exact Hvw].
      eapply connected_step; [apply connected_refl, Hincl, Hu | exact Hvfg | exact Hadj].
Qed.

(** The component computed for a voxel of [fg] is the set of voxels joined
    to it. *)
Lemma component_spec (v w : voxel) :
  In v fg -> (In w (component s fg v) <-> connected s fg v w).
Proof.
  intros Hv. unfold component. split.
  - intros Hin. apply flood_sound in Hin as (v' & [<- | []] & Hc); [exact Hc |].
    intros y [<- | []]. exact Hv.
  - intros Hc. induction Hc as [v Hvfg | v w u Hvw IH Hu Hadj].
    + apply flood_extends. left. reflexivity.
    + specialize (IH Hv).
      destruct (in_dec voxel_eq_dec u (flood (length fg) s fg [v])) as [Hin | Hout];
        [exact Hin |].
      assert (Hfr : In u (frontier s fg (flood (length fg) s fg [v]))).
      { apply in_frontier. split; [exact Hu |]. split; [exact Hout |].
        exists w. split; [exact IH | exact Hadj]. }
      rewrite flood_closed in Hfr; [destruct Hfr |].
      unfold unseen. apply (Nat.le_trans _ _ _ (filter_length_le _ _)). apply Nat.le_refl.
Qed.


End Flood.

(** *** Full connectivity *)

(** [generate_binary_structure(3, 3)] is the full 3x3x3 neighbourhood. *)
Lemma full_structure (a b c : nat) : cell (generate_binary_structure3 3) a b c = true.
Proof.
  unfold generate_binary_structure3, dist1. cbn [cell].
  destruct (Nat.eqb a 1), (Nat.eqb b 1), (Nat.eqb c 1); reflexivity.
Qed.

(** Under the full structure two voxels are neighbours exactly when they
    differ and every coordinate differs by at most one: the 26 neighbours. *)
Lemma adjacent_full (v w : voxel) :
  adjacent (generate_binary_structure3 3) v w = true
  <-> v <> w
      /\ (fst (fst v) <= S (fst (fst w)) /\ fst (fst w) <= S (fst (fst v)))%nat
      /\ (snd (fst v) <= S (snd (fst w)) /\ snd (fst w) <= S (snd (fst v)))%nat
      /\ (snd v <= S (snd w) /\ snd w <= S (snd v))%nat.
Proof.
  destruct v as [[i j] k], w as [[i' j'] k']. cbn [fst snd].
  unfold adjacent. 
  assert (Hstep : forall a b, match step_index a b with
                              | Some x => (a <= S b /\ b <= S a)%nat
                                          /\ (Nat.eqb x 1 = true <-> a = b)
                              | None => ~ (a <= S b /\ b <= S a)%nat
                              end).
  { intros a b. unfold step_index.
    repeat match goal with
           | |- context [Nat.eqb ?x ?y] => destruct (Nat.eqb_spec x y)
           end; simpl; repeat split; try lia; try discriminate; auto. }
  pose proof (Hstep i i') as Hi. pose proof (Hstep j j') as Hj. pose proof (Hstep k k') as Hk.
  destruct (step_index i i') as [a |]; [| split; [discriminate | tauto]].
  destruct (step_index j j') as [b |]; [| split; [discriminate | tauto]].
  destruct (step_index k k') as [c |]; [| split; [discriminate | tauto]].
  rewrite full_structure, andb_true_r, negb_true_iff.
  destruct Hi as [Hi Ei], Hj as [Hj Ej], Hk as [Hk Ek].
  split.
  - intros Hcentre. split; [| tauto].
    intros E. injection E as -> -> ->.
    rewrite (proj2 Ei eq_refl), (proj2 Ej eq_refl), (proj2 Ek eq_refl) in Hcentre.
    discriminate Hcentre.
  - intros [Hne _]. apply not_true_is_false. intros Hcentre.
    apply andb_true_iff in Hcentre as [Hcentre Hc].
    apply andb_true_iff in Hcentre as [Ha Hb].
    apply Hne. f_equal; [f_equal |]; tauto.
Qed.

Lemma adjacent_full_sym (v w : voxel) :
  adjacent (generate_binary_structure3 3) v w = adjacent (generate_binary_structure3 3) w v.
Proof.
  destruct (adjacent (generate_binary_structure3 3) v w) eqn:E1,
           (adjacent (generate_binary_structure3 3) w v) eqn:E2; try reflexivity.
  - apply adjacent_full in E1. apply not_true_iff_false in E2. exfalso. apply E2.
    apply adjacent_full. intuition auto.
  - apply adjacent_full in E2. apply not_true_iff_false in E1. exfalso. apply E1.
    apply adjacent_full. intuition auto.
Qed.

(** *** The scan assigns one label per component *)

Section Labelling.

Variable s : ndarray3 bool.
Variable fg : list voxel.
Hypothesis adjacent_sym : forall v w, adjacent s v w = adjacent s w v.

Lemma connected_sym (v w : voxel) : connected s fg v w -> connected s fg w v.
Proof.
  induction 1 as [v Hv | v w u Hvw IH Hu Hadj].
  - apply connected_refl. exact Hv.
  - apply connected_trans with (w := w); [| exact IH].
    eapply connected_step.
    + apply connected_refl. exact Hu.
    + eapply connected_in_right. exact Hvw.
    + rewrite adjacent_sym. exact Hadj.
Qed.

(** Opening a new label on an unlabelled voxel keeps the labelling. *)
Lemma labelling_open (done : list voxel) (lab : voxel -> nat) (n : nat) (v : voxel) :
  labelling s fg done lab n ->
  In v fg -> lab v = 0%nat ->
  labelling s fg (done ++ [v])
    (fun w => if mem_voxel w (component s fg v) then S n else lab w) (S n).
Proof.
  intros (Hle & Hfg & Hdone & Hclass & Hused) Hv Hzero.
  assert (Hcomp : forall w, mem_voxel w (component s fg v) = true <-> connected s fg v w).
  { intros w. rewrite mem_voxel_In. apply component_spec. exact Hv. }
  assert (Hfresh : forall u, lab u <> 0%nat -> mem_voxel u (component s fg v) = false).
  { intros u Hu. apply not_true_is_false. intros Hin. apply Hcomp in Hin.
    apply connected_sym in Hin. apply (Hclass u v Hu) in Hin. congruence. }
  split; [| split; [| split; [| split]]].
  - intros w. destruct (mem_voxel w (component s fg v)); [apply Nat.le_refl |].
    specialize (Hle w). lia.
  - intros w. destruct (mem_voxel w (component s fg v)) eqn:E.
    + intros _. apply Hcomp in E. eapply connected_in_right. exact E.
    + apply Hfg.
  - intros w Hw. apply in_app_or in Hw as [Hw | [<- | []]].
    + destruct (mem_voxel w (component s fg v)); [discriminate | apply Hdone, Hw].
    + rewrite (proj2 (Hcomp v) (connected_refl s fg v Hv)). discriminate.
  - intros u w Hu. destruct (mem_voxel u (component s fg v)) eqn:Eu.
    + apply Hcomp in Eu. destruct (mem_voxel w (component s fg v)) eqn:Ew.
      * apply Hcomp in Ew. split; [intros _ | reflexivity].
        apply connected_trans with (w := v); [apply connected_sym, Eu | exact Ew].
      * split.
        -- intros E. specialize (Hle w). lia.
        -- intros Hc. apply mem_voxel_not_In in Ew. exfalso. apply Ew.
           apply mem_voxel_In, Hcomp. apply connected_trans with (w := u); assumption.
    + destruct (mem_voxel w (component s fg v)) eqn:Ew.
      * apply Hcomp in Ew. split.
        -- intros E. specialize (Hle u). lia.
        -- intros Hc. exfalso.
           assert (Hvu : connected s fg v u)
             by (apply connected_trans with (w := w); [exact Ew | apply connected_sym, Hc]).
           apply Hcomp in Hvu. congruence.
      * apply (Hclass u w Hu).
  - intros x Hx. destruct (Nat.eq_dec x (S n)) as [-> | Hne].
    + exists v. rewrite (proj2 (Hcomp v) (connected_refl s fg v Hv)). reflexivity.
    + destruct (Hused x ltac:(lia)) as (u & Hu). exists u.
      rewrite Hfresh by lia. exact Hu.
Qed.

Lemma labelling_skip (done : list voxel) (lab : voxel -> nat) (n : nat) (v : voxel) :
  labelling s fg done lab n -> lab v <> 0%nat -> labelling s fg (done ++ [v]) lab n.
Proof.
  intros (Hle & Hfg & Hdone & Hclass & Hused) Hv.
  split; [exact Hle |]. split; [exact Hfg |]. split; [| split; [exact Hclass | exact Hused]].
  intros w Hw. apply in_app_or in Hw as [Hw | [<- | []]]; [apply Hdone, Hw | exact Hv].
Qed.

Lemma label_scan_labelling (todo done : list voxel) (lab : voxel -> nat) (n : nat) :
  incl todo fg ->
  labelling s fg done lab n ->
  labelling s fg (done ++ todo)
    (fst (label_scan s fg todo lab n)) (snd (label_scan s fg todo lab n)).
Proof.
  revert done lab n. induction todo as [| v rest IH]; intros done lab n Hincl Hinv.
  - rewrite app_nil_r. exact Hinv.
  - cbn [label_scan].
    replace (done ++ v :: rest) with ((done ++ [v]) ++ rest)
      by (rewrite <- app_assoc; reflexivity).
    assert (Hrest : incl rest fg) by (intros x Hx; apply Hincl; right; exact Hx).
    destruct (Nat.eqb_spec (lab v) 0) as [Hzero | Hlab].
    + apply IH; [exact Hrest |].
      apply labelling_open; [exact Hinv | apply Hincl; left; reflexivity | exact Hzero].
    + apply IH; [exact Hrest |]. apply labelling_skip; assumption.
Qed.

End Labelling.

Lemma labelling_start (s : ndarray3 bool) (fg : list voxel) :
  labelling s fg [] (fun _ => 0%nat) 0.
Proof.
  repeat split; intros; try lia; try contradiction.
Qed.

Lemma labelling_ext (s : ndarray3 bool) (fg done : list voxel)
      (lab lab' : voxel -> nat) (n : nat) :
  (forall v, lab' v = lab v) -> labelling s fg done lab n -> labelling s fg done lab' n.
Proof.
  intros E (H1 & H2 & H3 & H4 & H5).
  split; [intros v; rewrite E; apply H1 |].
  split; [intros v; rewrite E; apply H2 |].
  split; [intros v Hv; rewrite E; apply H3, Hv |].
  split; [intros v w Hv; rewrite !E; apply H4; rewrite <- E; exact Hv |].
  intros x Hx. destruct (H5 x Hx) as (v & Hv). exists v. rewrite E. exact Hv.
Qed.

(** [ndimage.label] under the full structure labels the foreground by its
    26-connected components. *)
Lemma ndimage_label_labelling (mask : ndarray3 Z) :
  let s := generate_binary_structure3 3 in
  let labels := fst (ndimage_label mask s) in
  let n := snd (ndimage_label mask s) in
  labelling s (np_where mask) (np_where mask) (at3 labels) n.
Proof.
  intros s labels n.
  pose proof (label_scan_labelling s (np_where mask) adjacent_full_sym
                (np_where mask) [] (fun _ => 0%nat) 0
                (fun x Hx => Hx) (labelling_start s (np_where mask))) as Hinv.
  cbn [app] in Hinv. subst labels n. unfold ndimage_label.
  fold s. destruct (label_scan s (np_where mask) (np_where mask) (fun _ => 0%nat) 0)
    as [lab n']. cbn [fst snd] in *.
  apply labelling_ext with (lab := lab); [| exact Hinv].
  intros [[i j] k]. reflexivity.
Qed.

(** C3 (amended). [label_regions] labels the edge mask by its components
    under full 26-connectivity: two voxels are neighbours when they differ
    and each coordinate differs by at most one; a voxel has a non-zero label
    exactly when it is an edge voxel, two edge voxels share a label exactly
    when a chain of neighbouring edge voxels joins them, and the labels in
    use are 1 to [n_features], so [n_features] is the number of all
    components.  The [labels] entry lists the components with more than [m]
    voxels, and in [regions] those keep their label while every other voxel
    is zero. *)
Theorem label_regions_components (mask : ndarray3 Z) (m : Z) :
  let s := generate_binary_structure3 3 in
  let fg := np_where mask in
  let labels := fst (ndimage_label mask s) in
  let r := label_regions mask m in
  (forall i j k i' j' k',
      adjacent s (i, j, k) (i', j', k') = true
      <-> (i, j, k) <> (i', j', k')
          /\ (i <= S i' /\ i' <= S i)%nat /\ (j <= S j' /\ j' <= S j)%nat
          /\ (k <= S k' /\ k' <= S k)%nat)
  /\ (forall v, at3 labels v <> 0%nat <-> In v fg)
  /\ (forall v w, In v fg -> (at3 labels w = at3 labels v <-> connected s fg v w))
  /\ (forall x, (1 <= x <= n_features r)%nat <-> exists v, In v fg /\ at3 labels v = x)
  /\ region_labels r
     = filter (fun x => (m <? Z.of_nat (label_count labels x))%Z) (seq 1 (n_features r))
  /\ length (region_labels r) = count_exceeding labels (n_features r) m
  /\ (forall v, at3 (regions r) v
                = if (m <? Z.of_nat (label_count labels (at3 labels v)))%Z
                  then at3 labels v else 0%nat).
Proof.
  intros s fg labels r.
  pose proof (ndimage_label_labelling mask) as Hinv. cbv zeta in Hinv.
  fold s labels fg in Hinv.
  assert (Hr : r = mkRegions (snd (ndimage_label mask s))
                 (map3 (fun l => if existsb (Nat.eqb l)
                                      (filter (fun x => (m <? Z.of_nat (label_count labels x))%Z)
                                              (seq 1 (snd (ndimage_label mask s))))
                                 then l else 0%nat) labels)
                 (filter (fun x => (m <? Z.of_nat (label_count labels x))%Z)
                         (seq 1 (snd (ndimage_label mask s))))).
  { subst r labels. unfold label_regions. fold s.
    destruct (ndimage_label mask s) as [labels' n']. reflexivity. }
  destruct Hinv as (Hle & Hfg & Hdone & Hclass & Hused).
  split; [intros i j k i' j' k'; apply (adjacent_full (i, j, k) (i', j', k')) |].
  split; [intros v; split; [apply Hfg | apply Hdone] |].
  split; [intros v w Hv; apply Hclass, Hdone, Hv |].
  rewrite Hr. cbn [n_features region_labels regions].
  split; [| split; [reflexivity | split; [reflexivity |]]].
  - intros x. split.
    + intros Hx. destruct (Hused x Hx) as (v & Hv). exists v. split; [| exact Hv].
      apply Hfg. lia.
    + intros (v & Hv & <-). split; [| apply Hle].
      specialize (Hdone v Hv). lia.
  - intros [[i j] k]. cbn [at3 map3 cell].
    set (l := cell labels i j k).
    assert (Hl : (l <= snd (ndimage_label mask s))%nat) by apply (Hle (i, j, k)).
    destruct (m <? Z.of_nat (label_count labels l))%Z eqn:Hbig.
    + destruct (existsb _ _) eqn:E; [reflexivity |].
      destruct (Nat.eq_dec l 0) as [-> | Hnz]; [reflexivity |].
      exfalso. apply not_true_iff_false in E. apply E.
      apply existsb_exists. exists l. split; [| apply Nat.eqb_refl].
      apply filter_In. split; [apply in_seq; lia | exact Hbig].
    + destruct (existsb _ _) eqn:E; [| reflexivity].
      apply existsb_exists in E as (x & Hx & Ex). apply Nat.eqb_eq in Ex. subst x.
      apply filter_In in Hx as [_ Hx]. congruence.
Qed.

(** C3, counterexample.  The mask [1 1 0 1 0 0 1] over one grid cell has
    three components, of two, one and one voxel.  With [m = 1] one component
    has more than [m] voxels, yet [n_features] is 3. *)
Lemma label_regions_counterexample :
  n_features (label_regions three_regions 1) = 3%nat
  /\ count_exceeding (fst (ndimage_label three_regions (generate_binary_structure3 3))) 3 1
     = 1%nat
  /\ region_labels (label_regions three_regions 1) = [1%nat].
Proof.
  repeat split; vm_compute; reflexivity.
Qed.


(** ** Edge detection *)

Section Detection.

Variable Quantity : Type.
Variable py_float : string -> result float.
Variable unit : string -> result Quantity.
Variable unit_year : Quantity.
Variable q_scale : float -> Quantity -> Quantity.
Variable q_mul : Quantity -> Quantity -> Quantity.
Variable taper_masked_area : Field -> list Z -> Z -> Field.
Variable gaussian_filter : Box -> Field -> list Quantity -> result Field.
Variable sobel_filter :
  Box -> Field -> option (list Quantity) -> bool -> result GradientField.
Variable cp_edge_thinning : KernelField -> ndarray3 Z.
Variable cp_double_threshold : KernelField -> ndarray3 Z -> float -> float -> ndarray3 Z.

Let hysteresis := hysteresis_thresholding py_float cp_double_threshold.

(** C9. Once the physical thresholds [(lower, upper)] are derived,
    [hysteresis_thresholding] hands the kernel the transposed gradient field,
    the transposed candidate mask and the reciprocals [1 / upper] and
    [1 / lower], in this order, and transposes the kernel's answer back. *)
Theorem hysteresis_thresholding_reciprocals
  (cfg : Config) (sobel_data : GradientField) (mask : ndarray3 Z) (cal : Calibration)
  (lower upper : float) :
  get_thresholds py_float cfg cal = Ok (lower, upper) ->
  hysteresis cfg sobel_data mask cal
  = Ok (transpose3 (cp_double_threshold (transpose4 sobel_data) (transpose3 mask)
                      (1 / upper)%float (1 / lower)%float)).
Proof.
  intros H. unfold hysteresis, hysteresis_thresholding.
  rewrite H. cbn [bind]. reflexivity.
Qed.



(** What [apply_mask_to_edges] zeroes: the time margins and the masked
    cells. *)
Lemma apply_mask_to_edges_zero
  (edges : ndarray3 Z) (mask : option (ndarray3 bool)) (margin : Z) (out : ndarray3 Z) :
  apply_mask_to_edges edges mask margin = Ok out ->
  (forall i j k, in_time_margin (len0 out) margin i = true -> cell out i j k = 0%Z)
  /\ (forall m i j k, mask = Some m -> cell m i j k = true -> cell out i j k = 0%Z).
Proof.
  unfold apply_mask_to_edges. intros H.
  assert (Hmargin : forall i j k,
             in_time_margin (len0 edges) margin i = true ->
             cell (zero_time_margins edges margin) i j k = 0%Z).
  { intros i j k Hin. unfold in_time_margin in Hin. cbn [zero_time_margins cell].
    destruct (slice_bound (len0 edges) (- margin) <=? i)%nat; [reflexivity |].
    rewrite orb_false_r in Hin. rewrite Hin. reflexivity. }
  destruct mask as [m |].
  - destruct (same_shape (zero_time_margins edges margin) m); [| discriminate].
    injection H as <-. cbn [len0 cell]. split.
    + intros i j k Hin. destruct (cell m i j k); [reflexivity |].
      apply Hmargin. exact Hin.
    + intros m' i j k Hm' Hcell. injection Hm' as <-. rewrite Hcell. reflexivity.
  - injection H as <-. split.
    + intros i j k Hin. apply Hmargin. exact Hin.
    + intros m' i j k Hm'. discriminate Hm'.
Qed.


End Detection.

Lemma hysteresis_thresholding_reciprocals_witness :
  hysteresis_thresholding float_of_string hysteresis_model default_config
    (gradient_of (Plain step_values)) (series 0%Z [0; 0; 0; 1; 1; 0; 0]%Z)
    example_calibration
  = Ok (transpose3 (hysteresis_model (transpose4 (gradient_of (Plain step_values)))
                      (transpose3 (series 0%Z [0; 0; 0; 1; 1; 0; 0]%Z))
                      (1 / 1.5)%float (1 / 1)%float)).
Proof.
  apply (hysteresis_thresholding_reciprocals float_of_string hysteresis_model
           default_config _ _ example_calibration 1%float 1.5%float).
  vm_compute. reflexivity.
Defined.




(** ** Abruptness *)

(** A clamped score is neither NaN nor above 100. *)
Lemma clamp_score_bounded (x : float) :
  PrimFloat.is_nan (clamp_score x) = false
  /\ PrimFloat.ltb 100 (clamp_score x) = false.
Proof.
  assert (Hzero : PrimFloat.is_nan 0 = false /\ PrimFloat.ltb 100 0 = false)
    by (split; reflexivity).
  unfold clamp_score. destruct (PrimFloat.is_nan x) eqn:Hnan.
  - replace (PrimFloat.ltb 100 0) with false by (symmetry; apply Hzero). exact Hzero.
  - destruct (PrimFloat.ltb 100 x) eqn:Hbig; [exact Hzero | split; assumption].
Qed.

Section AbruptnessFacts.

Variable linregress : list Z -> list Sample -> result (float * float).
Variable np_nanstd : list Sample -> float.
Variable np_mean : list Sample -> float.
Variable mask : ndarray3 Z.
Variable years : list Z.
Variable data : Field.
Variable cutoff_length chunk_max_length chunk_min_length : Z.

Let score :=
  voxel_score linregress np_nanstd np_mean mask years data
    cutoff_length chunk_max_length chunk_min_length.
Let loop :=
  measure_loop linregress np_nanstd np_mean mask years data
    cutoff_length chunk_max_length chunk_min_length.
Let measure :=
  compute_measure15j linregress np_nanstd np_mean mask years data
    cutoff_length chunk_max_length chunk_min_length.

(** The loop writes a voxel only in that voxel's own iterations, and what it
    writes depends on the inputs alone. *)
Lemma measure_loop_cell (todo : list voxel) (m3d out : ndarray3 float) (v : voxel) :
  loop todo m3d = Ok out ->
  (In v todo ->
   exists s, score v = Ok s
             /\ at3 out v = match s with Some x => x | None => at3 m3d v end)
  /\ (~ In v todo -> at3 out v = at3 m3d v).
Proof.
  revert m3d. induction todo as [| w rest IH]; intros m3d H.
  - cbn in H. injection H as <-. split; [intros [] | reflexivity].
  - cbn [loop measure_loop] in H. fold loop in H. fold score in H.
    bind_step H as s Hs.
    destruct (IH _ H) as [IHin IHout]. clear IH.
    assert (Hwrite : at3 (write_score m3d w s) v
                     = if voxel_eq_dec w v
                       then match s with Some x => x | None => at3 m3d v end
                       else at3 m3d v).
    { destruct (voxel_eq_dec w v) as [-> | Hne]; destruct s as [x |]; cbn [write_score];
        auto using at3_set3_same, at3_set3_other. }
    split.
    + intros Hin. destruct (in_dec voxel_eq_dec v rest) as [Hrest | Hrest].
      * destruct (IHin Hrest) as (s' & Hs' & Hout). exists s'. split; [exact Hs' |].
        rewrite Hout. destruct s' as [x |]; [reflexivity |].
        rewrite Hwrite. destruct (voxel_eq_dec w v) as [-> | Hne]; [| reflexivity].
        rewrite Hs in Hs'. injection Hs' as ->. reflexivity.
      * destruct Hin as [-> | Hin]; [| contradiction].
        exists s. split; [exact Hs |].
        rewrite (IHout Hrest), Hwrite.
        destruct (voxel_eq_dec v v); [reflexivity | contradiction].
    + intros Hnot. rewrite IHout by (intros Hin; apply Hnot; right; exact Hin).
      rewrite Hwrite. destruct (voxel_eq_dec w v) as [-> | Hne]; [| reflexivity].
      exfalso. apply Hnot. left. reflexivity.
Qed.

(** The three-dimensional field returned by [compute_measure15j], cell by
    cell: the score of a mask voxel that receives one, the initial zero
    elsewhere. *)
Lemma measure15j_3d_cell (out : Measures) (v : voxel) :
  measure = Ok out ->
  exists s,
    (In v (np_where mask) -> score v = Ok s)
    /\ at3 (measure15j_3d out) v
       = match s with Some x => x | None => times_zero (at3 mask v) end.
Proof.
  intros H. unfold measure, compute_measure15j in H.
  bind_step H as m3d Hloop. bind_step H as projection Hproj.
  injection H as <-. cbn [measure15j_3d].
  destruct (measure_loop_cell _ _ _ v Hloop) as [Hin Hout].
  assert (Hinit : at3 (map3 times_zero mask) v = times_zero (at3 mask v))
    by (destruct v as [[i j] k]; reflexivity).
  destruct (in_dec voxel_eq_dec v (np_where mask)) as [Hv | Hv].
  - destruct (Hin Hv) as (s & Hs & Hcell). exists s. split; [intros _; exact Hs |].
    rewrite Hcell, Hinit. reflexivity.
  - exists None. split; [intros Hv'; contradiction |].
    rewrite (Hout Hv). exact Hinit.
Qed.

(** C8. A mask voxel whose time index lies closer than [cutoff_length] to
    either time boundary has the score 0 in the field that
    [compute_measure15j] returns. *)
Theorem measure15j_boundary_voxel_zero (out : Measures) (i j k : nat) :
  measure = Ok out ->
  in_shape mask (i, j, k) = true ->
  cell mask i j k <> 0%Z ->
  (Z.of_nat i - cutoff_length < 0
   \/ Z.of_nat i + cutoff_length + 1 > Z.of_nat (len0 (field_values data)))%Z ->
  PrimFloat.eqb (cell (measure15j_3d out) i j k) 0 = true.
Proof.
  intros H Hshape Hmask Hboundary.
  destruct (measure15j_3d_cell out (i, j, k) H) as (s & Hs & Hcell).
  cbn [at3] in Hcell. rewrite Hcell.
  assert (Hscore : score (i, j, k) = Ok None).
  { unfold score, voxel_score.
    destruct (Z.eqb (cell mask i j k) 1); [| reflexivity].
    replace (inside_time_window data cutoff_length (Z.of_nat i)) with false;
      [reflexivity |].
    symmetry. unfold inside_time_window. apply andb_false_iff.
    destruct Hboundary as [Hb | Hb]; [left | right]; apply Z.leb_gt; lia. }
  rewrite Hs in Hscore by (apply in_np_where; split; assumption).
  injection Hscore as ->.
  unfold times_zero. destruct (cell mask i j k <? 0)%Z; reflexivity.
Qed.

(** The projection returned by [compute_measure15j] is the clamped
    column-wise maximum of the three-dimensional field. *)
Lemma measure15j_projection (out : Measures) :
  measure = Ok out ->
  exists projection,
    max_axis0 (measure15j_3d out) = Ok projection
    /\ measure15j out = map2d clamp_score projection.
Proof.
  intros H. unfold measure, compute_measure15j in H.
  bind_step H as m3d Hloop. bind_step H as projection Hproj.
  injection H as <-. exists projection. split; [exact Hproj | reflexivity].
Qed.

(** C7 (amended). For an edge voxel that [compute_measure15j] processes (mask
    value 1, inside the time window) and whose two chunks pass the
    minimum-length check, both regressions have returned and the voxel's
    entry of the three-dimensional field is: 0 when the mean of the two
    chunks' standard deviations is 0 and the chunk means are equal, the
    sentinel 9e99 when it is 0 and the means differ, and
    [|intercept1 - intercept2| / mean_std] otherwise.  The two-dimensional
    projection is the column-wise maximum of that field with every NaN and
    then every value above 100 replaced by 0; the three-dimensional field is
    returned as it was written. *)
Theorem measure15j_voxel_score
  (out : Measures) (v : voxel)
  (years1 : list Z) (data1 : list Sample) (years2 : list Z) (data2 : list Sample) :
  measure = Ok out ->
  in_shape mask v = true ->
  at3 mask v = 1%Z ->
  inside_time_window data cutoff_length (Z.of_nat (fst (fst v))) = true ->
  voxel_chunks mask years data cutoff_length chunk_max_length v
  = Ok ((years1, data1), (years2, data2)) ->
  long_enough chunk_min_length data1 data2 = true ->
  let mean_std := ((np_nanstd data1 + np_nanstd data2) / 2)%float in
  (exists slope1 intercept1 slope2 intercept2,
      linregress years1 data1 = Ok (slope1, intercept1)
      /\ linregress years2 data2 = Ok (slope2, intercept2)
      /\ at3 (measure15j_3d out) v
         = if PrimFloat.eqb mean_std 0
           then if PrimFloat.eqb (np_mean data1) (np_mean data2) then 0%float else sentinel
           else (PrimFloat.abs (intercept1 - intercept2) / mean_std)%float)
  /\ (exists projection,
         max_axis0 (measure15j_3d out) = Ok projection
         /\ forall j k, cell2 (measure15j out) j k = clamp_score (cell2 projection j k))
  /\ (forall j k, PrimFloat.is_nan (cell2 (measure15j out) j k) = false
                  /\ PrimFloat.ltb 100 (cell2 (measure15j out) j k) = false).
Proof.
  intros H Hshape Hmask Hwindow Hchunks Hlong mean_std.
  destruct (measure15j_projection out H) as (projection & Hproj & Hclamp).
  split; [| split].
  - destruct (measure15j_3d_cell out v H) as (s & Hs & Hcell).
    assert (Hin : In v (np_where mask))
      by (apply in_np_where; split; [exact Hshape | rewrite Hmask; discriminate]).
    specialize (Hs Hin). unfold score, voxel_score in Hs.
    destruct v as [[i j] k]. cbn [at3] in Hmask. cbn [fst] in Hwindow.
    rewrite Hmask, Hwindow, Hchunks in Hs. cbn [bind Z.eqb Pos.eqb] in Hs.
    rewrite Hlong in Hs.
    bind_step Hs as x Hscore. injection Hs as <-. rewrite Hcell.
    unfold chunk_score in Hscore.
    bind_step Hscore as [slope1 intercept1] Hreg1.
    bind_step Hscore as [slope2 intercept2] Hreg2.
    exists slope1, intercept1, slope2, intercept2.
    split; [exact Hreg1 |]. split; [exact Hreg2 |].
    fold mean_std in Hscore.
    destruct (PrimFloat.eqb mean_std 0);
      [destruct (PrimFloat.eqb (np_mean data1) (np_mean data2)) |];
      injection Hscore as <-; reflexivity.
  - exists projection. split; [exact Hproj |]. intros j k. rewrite Hclamp. reflexivity.
  - intros j k. rewrite Hclamp. cbn [map2d cell2]. apply clamp_score_bounded.
Qed.

End AbruptnessFacts.

Lemma measure15j_boundary_voxel_zero_witness :
  exists out,
    compute_measure15j linregress_model nanstd_model mean_model edges_at_0_and_3 years7
      (Plain jump_values) 1 3 2 = Ok out
    /\ PrimFloat.eqb (cell (measure15j_3d out) 0 0 0) 0 = true.
Proof.
  assert (E : is_ok (compute_measure15j linregress_model nanstd_model mean_model
                       edges_at_0_and_3 years7 (Plain jump_values) 1 3 2) = true)
    by (vm_compute; reflexivity).
  destruct (compute_measure15j linregress_model nanstd_model mean_model
              edges_at_0_and_3 years7 (Plain jump_values) 1 3 2) as [out |] eqn:Hrun;
    [| discriminate E].
  exists out. split; [reflexivity |].
  apply (measure15j_boundary_voxel_zero linregress_model nanstd_model mean_model
           edges_at_0_and_3 years7 (Plain jump_values) 1 3 2 out 0 0 0 Hrun).
  - reflexivity.
  - vm_compute. discriminate.
  - left. vm_compute. reflexivity.
Defined.

Lemma measure15j_voxel_score_witness :
  exists out,
    compute_measure15j linregress_model nanstd_model mean_model edge_at_3 years7
      (Plain jump_values) 1 3 2 = Ok out
    /\ cell (measure15j_3d out) 3 0 0 = 10%float
    /\ PrimFloat.ltb 100 (cell2 (measure15j out) 0 0) = false.
Proof.
  assert (E : is_ok (compute_measure15j linregress_model nanstd_model mean_model
                       edge_at_3 years7 (Plain jump_values) 1 3 2) = true)
    by (vm_compute; reflexivity).
  destruct (compute_measure15j linregress_model nanstd_model mean_model
              edge_at_3 years7 (Plain jump_values) 1 3 2) as [out |] eqn:Hrun;
    [| discriminate E].
  exists out. split; [reflexivity |].
  destruct (measure15j_voxel_score linregress_model nanstd_model mean_model
              edge_at_3 years7 (Plain jump_values) 1 3 2 out (3, 0, 0)
              [-3; -2]%Z [(0, false); (1, false)]%float
              [2; 3]%Z [(6, false); (5, false)]%float
              Hrun eq_refl eq_refl eq_refl eq_refl eq_refl)
    as ((s1 & i1 & s2 & i2 & Hreg1 & Hreg2 & Hscore) & _ & Hclamp).
  split; [| apply Hclamp].
  vm_compute in Hreg1. vm_compute in Hreg2.
  injection Hreg1 as <- <-. injection Hreg2 as <- <-.
  cbn [at3] in Hscore. rewrite Hscore. vm_compute. reflexivity.
Defined.

(** C7, counterexample.  A series that is 0 before and 1 after the edge: both
    chunks have standard deviation 0 and different means, the voxel receives
    the sentinel, and the three-dimensional field of the returned dictionary
    still holds it, a value above 100; only the projection is zero. *)
Lemma measure15j_clamp_counterexample :
  match compute_measure15j linregress_model nanstd_model mean_model edge_at_3 years7
          (Plain step_values) 1 3 2 with
  | Ok out => PrimFloat.ltb 100 (cell (measure15j_3d out) 3 0 0)
              && PrimFloat.eqb (cell (measure15j_3d out) 3 0 0) sentinel
              && PrimFloat.eqb (cell2 (measure15j out) 0 0) 0
  | Raise _ => false
  end = true.
Proof.
  vm_compute. reflexivity.
Qed.

(** ** Reporting *)

Section ReportFacts.

Variable Quantity : Type.
Variable py_float : string -> result float.
Variable unit : string -> result Quantity.
Variable q_scale : float -> Quantity -> Quantity.
Variable taper_masked_area : Field -> list Z -> Z -> Field.
Variable gaussian_filter : Box -> Field -> list Quantity -> result Field.
Variable linregress : list Z -> list Sample -> result (float * float).
Variable np_nanstd : list Sample -> float.
Variable np_mean : list Sample -> float.

Let prelude := report_prelude py_float linregress np_nanstd np_mean.
Let report :=
  make_report Quantity py_float unit q_scale taper_masked_area gaussian_filter
    linregress np_nanstd np_mean.

(** The abruptness that [make_report] tests is the projection computed with
    [cutoff_length = 2], [chunk_max_length = 30] and [chunk_min_length = 15]
    on the edge mask, the years of the grid and the data of the data set. *)
Lemma report_prelude_abruptness
  (cfg : Config) (data_set : DataSet) (cal : Calibration) (canny : Canny) (pre : Prelude) :
  prelude cfg data_set cal canny = Ok pre ->
  exists measures,
    compute_measure15j linregress np_nanstd np_mean (canny_edges canny)
      (box_years (ds_box data_set)) (ds_data data_set) 2 30 15 = Ok measures
    /\ pre_abruptness pre = measure15j measures.
Proof.
  intros H. unfold prelude, report_prelude in H.
  bind_step H as gamma Hgamma.
  bind_step H as [lower upper] Hthr.
  bind_step H as u1 Hb1. bind_step H as u2 Hb2. bind_step H as u3 Hb3.
  bind_step H as maxTgrad HmaxT.
  bind_step H as measures Hmeasures.
  injection H as <-. exists measures. split; [exact Hmeasures | reflexivity].
Qed.

(** C10. When [make_report] has computed its quantities (lines 729-750) and
    the maximum [top] of the clamped abruptness projection, computed with the
    parameters 2, 30 and 15, is strictly below 2, it returns [None] and has
    written no file. *)
Theorem make_report_suppressed
  (cfg : Config) (data_set : DataSet) (cal : Calibration) (canny : Canny)
  (pre : Prelude) (measures : Measures) (top : float) (files : list string) :
  prelude cfg data_set cal canny = Ok pre ->
  compute_measure15j linregress np_nanstd np_mean (canny_edges canny)
    (box_years (ds_box data_set)) (ds_data data_set) 2 30 15 = Ok measures ->
  np_max2 (measure15j measures) = Ok top ->
  PrimFloat.ltb top 2 = true ->
  report cfg data_set cal canny files = (Ok None, files).
Proof.
  intros Hpre Hmeasures Htop Hlow.
  destruct (report_prelude_abruptness _ _ _ _ _ Hpre) as (measures' & Hm' & Habr).
  rewrite Hmeasures in Hm'. injection Hm' as <-.
  unfold report, make_report, io_bind, io_lift.
  fold prelude. rewrite Hpre, Habr, Htop, Hlow. reflexivity.
Qed.

End ReportFacts.

Lemma make_report_suppressed_witness :
  make_report quantity float_of_string unit_of_string quantity_scale taper_identity
    gaussian_identity linregress_model nanstd_model mean_model
    default_config step_plain example_calibration
    (mkCanny (gradient_of (Plain step_values)) edge_at_3) []
  = (Ok None, []).
Proof.
  assert (E : is_ok (report_prelude float_of_string linregress_model nanstd_model
                       mean_model default_config step_plain example_calibration
                       (mkCanny (gradient_of (Plain step_values)) edge_at_3)) = true)
    by (vm_compute; reflexivity).
  destruct (report_prelude float_of_string linregress_model nanstd_model mean_model
              default_config step_plain example_calibration
              (mkCanny (gradient_of (Plain step_values)) edge_at_3))
    as [pre |] eqn:Hpre; [| discriminate E].
  assert (E' : is_ok (compute_measure15j linregress_model nanstd_model mean_model
                        edge_at_3 (box_years (ds_box step_plain)) (ds_data step_plain)
                        2 30 15) = true)
    by (vm_compute; reflexivity).
  destruct (compute_measure15j linregress_model nanstd_model mean_model
              edge_at_3 (box_years (ds_box step_plain)) (ds_data step_plain) 2 30 15)
    as [measures |] eqn:Hm; [| discriminate E'].
  apply (make_report_suppressed quantity float_of_string unit_of_string quantity_scale
           taper_identity gaussian_identity linregress_model nanstd_model mean_model
           default_config step_plain example_calibration
           (mkCanny (gradient_of (Plain step_values)) edge_at_3)
           pre measures 0%float [] Hpre Hm).
  - pose proof Hm as Hm0. vm_compute in Hm0. injection Hm0 as <-. vm_compute. reflexivity.
  - reflexivity.
Defined.


(* ================================================================== *)
(** * Further properties *)

(** ** Lookups of the threshold derivation *)

Lemma py_index_nonneg_ok {A : Type} (l : list A) (i : Z) (x : A) :
  (0 <= i)%Z -> py_index l i = Ok x -> nth_error l (Z.to_nat i) = Some x.
Proof.
  intros Hi. unfold py_index.
  destruct (i <? 0)%Z eqn:Hneg; [apply Z.ltb_lt in Hneg; lia |].
  destruct ((i <? 0)%Z || (Z.of_nat (length l) <=? i)%Z); [discriminate |].
  destruct (nth_error l (Z.to_nat i)); [congruence | discriminate].
Qed.

Lemma py_index_beyond {A : Type} (l : list A) (i : nat) :
  (length l <= i)%nat ->
  py_index l (Z.of_nat i) = Raise (IndexError "index out of range").
Proof.
  intros H. unfold py_index.
  destruct (Z.of_nat i <? 0)%Z eqn:Hneg; [apply Z.ltb_lt in Hneg; lia |].
  replace (Z.of_nat (length l) <=? Z.of_nat i)%Z with true
    by (symmetry; apply Z.leb_le; lia).
  rewrite orb_true_r. reflexivity.
Qed.

Lemma list_index_ok (x : string) (l : list string) (z : Z) :
  list_index x l = Ok z -> (0 <= z)%Z /\ nth_error l (Z.to_nat z) = Some x.
Proof.
  revert z. induction l as [| y l IH]; intros z H; cbn [list_index] in H; [discriminate |].
  destruct (String.eqb_spec x y) as [-> | Hne].
  - injection H as <-. split; [lia | reflexivity].
  - bind_step H as i Hi. injection H as <-. destruct (IH i Hi) as [Hpos Hnth].
    split; [lia |].
    replace (Z.to_nat (i + 1)) with (S (Z.to_nat i)) by lia. exact Hnth.
Qed.

Lemma list_index_absent (x : string) (l : list string) :
  ~ In x l -> list_index x l = Raise (ValueError "x is not in list").
Proof.
  induction l as [| y l IH]; intros Hnot; cbn [list_index]; [reflexivity |].
  destruct (String.eqb_spec x y) as [-> | Hne].
  - exfalso. apply Hnot. left. reflexivity.
  - rewrite IH by (intros Hin; apply Hnot; right; exact Hin). reflexivity.
Qed.

(** X1. [get_calibration_factor] returns the entry of [gamma] at the position
    of the configured quartile name among min, 1st, median, 3rd, max, and
    nothing else; a name outside the five raises ValueError and a [gamma]
    with no entry at that position raises IndexError. *)
Theorem get_calibration_factor_lookup (cfg : Config) (cal : Calibration) :
  (forall g, get_calibration_factor cfg cal = Ok g
             <-> exists q, nth_error quartile_names q = Some (calibration_quartile cfg)
                           /\ nth_error (cal_gamma cal) q = Some g)
  /\ (~ In (calibration_quartile cfg) quartile_names ->
      get_calibration_factor cfg cal = Raise (ValueError "x is not in list"))
  /\ (forall q, nth_error quartile_names q = Some (calibration_quartile cfg) ->
                (length (cal_gamma cal) <= q)%nat ->
                get_calibration_factor cfg cal = Raise (IndexError "index out of range")).
Proof.
  unfold get_calibration_factor. split; [| split].
  - intros g. split.
    + intros H. bind_step H as z Hz. destruct (list_index_ok _ _ _ Hz) as [Hpos Hname].
      exists (Z.to_nat z). split; [exact Hname |].
      apply py_index_nonneg_ok; assumption.
    + intros (q & Hname & Hg). rewrite (list_index_quartile _ _ Hname). cbn [bind].
      apply py_index_nth. exact Hg.
  - intros Hnot. rewrite (list_index_absent _ _ Hnot). reflexivity.
  - intros q Hname Hshort. rewrite (list_index_quartile _ _ Hname). cbn [bind].
    apply py_index_beyond. exact Hshort.
Qed.

Lemma mag_quartiles_length (cal : Calibration) (gamma : float) :
  length (cal_distance cal) = length (cal_time cal) ->
  exists mags, mag_quartiles cal gamma = Ok mags
               /\ length mags = length (cal_time cal).
Proof.
  intros Hlen. unfold mag_quartiles.
  rewrite np_zip_same_length by (rewrite !length_map; exact Hlen).
  eexists. split; [reflexivity |].
  rewrite length_map, length_map, length_combine, !length_map. lia.
Qed.

(** X2. [get_thresholds] builds the dictionary of both references before it
    reads one: with fewer than five quartiles it raises IndexError whichever
    references the configuration names, even when both are "pi-control-3". *)
Theorem get_thresholds_needs_five_quartiles
  (py_float : string -> result float) (cfg : Config) (cal : Calibration) (gamma : float) :
  get_calibration_factor cfg cal = Ok gamma ->
  length (cal_distance cal) = length (cal_time cal) ->
  (length (cal_time cal) < 5)%nat ->
  get_thresholds py_float cfg cal = Raise (IndexError "index out of range").
Proof.
  intros Hg Hlen Hshort. unfold get_thresholds. rewrite Hg. cbn [bind].
  destruct (mag_quartiles_length cal gamma Hlen) as (mags & Hmags & Hl).
  rewrite Hmags. cbn [bind].
  destruct (Nat.le_gt_cases (length mags) 3) as [H3 | H3].
  - pose proof (py_index_beyond mags 3 H3) as P. change (Z.of_nat 3) with 3%Z in P.
    rewrite P. reflexivity.
  - destruct (py_index mags 3) as [m3 | e] eqn:E3.
    + cbn [bind]. pose proof (py_index_beyond mags 4 ltac:(lia)) as P.
      change (Z.of_nat 4) with 4%Z in P. rewrite P. reflexivity.
    + exfalso. destruct (nth_error mags 3) as [m |] eqn:En.
      * pose proof (py_index_nth mags 3 m En) as P. change (Z.of_nat 3) with 3%Z in P.
        congruence.
      * apply nth_error_None in En. lia.
Qed.

Lemma get_thresholds_needs_five_quartiles_witness :
  get_thresholds float_of_string config_both_third four_quartiles
  = Raise (IndexError "index out of range").
Proof.
  apply (get_thresholds_needs_five_quartiles float_of_string config_both_third
           four_quartiles 1%float); [reflexivity | reflexivity | simpl; lia].
Defined.

Lemma dict_get_unknown (m3 m4 : float) (ref : string) :
  ~ In ref ["pi-control-3"; "pi-control-max"] ->
  dict_get [("pi-control-3", m3); ("pi-control-max", m4)] ref = Raise (KeyError ref).
Proof.
  intros Hnot. cbn [dict_get].
  destruct (String.eqb_spec ref "pi-control-3") as [-> | H3];
    [exfalso; apply Hnot; left; reflexivity |].
  destruct (String.eqb_spec ref "pi-control-max") as [-> | H4];
    [exfalso; apply Hnot; right; left; reflexivity |].
  reflexivity.
Qed.

(** X3. With a five-quartile calibration, a reference name other than
    "pi-control-3" and "pi-control-max" makes [get_thresholds] raise KeyError
    with that name; the lower reference is looked up first, and the fractions
    are not read before both references are found. *)
Theorem get_thresholds_unknown_reference
  (py_float : string -> result float) (cfg : Config) (cal : Calibration) (gamma : float) :
  get_calibration_factor cfg cal = Ok gamma ->
  length (cal_distance cal) = 5%nat ->
  length (cal_time cal) = 5%nat ->
  (~ In (lower_threshold_ref cfg) ["pi-control-3"; "pi-control-max"] ->
   get_thresholds py_float cfg cal = Raise (KeyError (lower_threshold_ref cfg)))
  /\ (In (lower_threshold_ref cfg) ["pi-control-3"; "pi-control-max"] ->
      ~ In (upper_threshold_ref cfg) ["pi-control-3"; "pi-control-max"] ->
      get_thresholds py_float cfg cal = Raise (KeyError (upper_threshold_ref cfg))).
Proof.
  intros Hg Hd Ht. unfold get_thresholds. rewrite Hg. cbn [bind].
  destruct (mag_quartiles_spec cal gamma 3) as (mags & Hmags & H3 & _);
    [congruence | lia |].
  destruct (mag_quartiles_spec cal gamma 4) as (mags' & Hmags' & H4 & _);
    [congruence | lia |].
  rewrite Hmags in Hmags'. injection Hmags' as <-. rewrite Hmags. cbn [bind].
  pose proof (py_index_nth mags 3 _ H3) as P3.
  pose proof (py_index_nth mags 4 _ H4) as P4.
  change (Z.of_nat 3) with 3%Z in P3. change (Z.of_nat 4) with 4%Z in P4.
  rewrite P3. cbn [bind]. rewrite P4. cbn [bind]. cbv zeta.
  split.
  - intros Hlo. rewrite (dict_get_unknown _ _ _ Hlo). reflexivity.
  - intros Hlo Hup. rewrite (dict_get_reference _ _ _ Hlo). cbn [bind].
    rewrite (dict_get_unknown _ _ _ Hup). reflexivity.
Qed.

Lemma get_thresholds_unknown_reference_witness :
  get_thresholds float_of_string config_unknown_reference example_calibration
  = Raise (KeyError "pi-control-2").
Proof.
  apply (proj1 (get_thresholds_unknown_reference float_of_string
                  config_unknown_reference example_calibration 1%float
                  eq_refl eq_refl eq_refl)).
  simpl. intros [H | [H | []]]; discriminate H.
Defined.

(** ** The time margin of the edge mask *)

Lemma apply_mask_to_edges_shape
  (edges : ndarray3 Z) (mask : option (ndarray3 bool)) (margin : Z) (out : ndarray3 Z) :
  apply_mask_to_edges edges mask margin = Ok out ->
  len0 out = len0 edges /\ len1 out = len1 edges /\ len2 out = len2 edges.
Proof.
  unfold apply_mask_to_edges. intros H. destruct mask as [m |].
  - destruct (same_shape (zero_time_margins edges margin) m); [| discriminate].
    injection H as <-. repeat split.
  - injection H as <-. repeat split.
Qed.

(** X4. A time margin of zero does not switch the trimming off: [edges[-0:]]
    is the whole array, so [apply_mask_to_edges] with margin 0 returns an
    array of zeros, whatever the edges and the mask. *)
Theorem apply_mask_to_edges_margin_zero
  (edges : ndarray3 Z) (mask : option (ndarray3 bool)) (out : ndarray3 Z) :
  apply_mask_to_edges edges mask 0 = Ok out ->
  forall i j k, cell out i j k = 0%Z.
Proof.
  intros H i j k.
  apply (proj1 (apply_mask_to_edges_zero edges mask 0 out H)).
  unfold in_time_margin, slice_bound. cbn [Z.ltb Z.compare Z.opp].
  replace (Z.to_nat (Z.min 0 (Z.of_nat (len0 out)))) with 0%nat by lia.
  rewrite orb_true_r. reflexivity.
Qed.

Lemma apply_mask_to_edges_margin_zero_witness :
  apply_mask_to_edges edges_at_0_and_3 None 0 = Ok (zero_time_margins edges_at_0_and_3 0)
  /\ cell (zero_time_margins edges_at_0_and_3 0) 3 0 0 = 0%Z
  /\ cell edges_at_0_and_3 3 0 0 = 1%Z.
Proof.
  split; [reflexivity |]. split; [| reflexivity].
  apply (apply_mask_to_edges_margin_zero edges_at_0_and_3 None _ eq_refl).
Defined.

(** X5. With a positive margin [apply_mask_to_edges] keeps the shape and
    leaves every cell as it was whose time index lies at least [time_margin]
    steps from both ends and which the mask does not cover. *)
Theorem apply_mask_to_edges_interior
  (edges : ndarray3 Z) (mask : option (ndarray3 bool)) (margin : Z) (out : ndarray3 Z) :
  apply_mask_to_edges edges mask margin = Ok out ->
  (0 < margin)%Z ->
  (len0 out = len0 edges /\ len1 out = len1 edges /\ len2 out = len2 edges)
  /\ forall i j k,
       (margin <= Z.of_nat i < Z.of_nat (len0 edges) - margin)%Z ->
       (forall m, mask = Some m -> cell m i j k = false) ->
       cell out i j k = cell edges i j k.
Proof.
  intros H Hpos. split; [exact (apply_mask_to_edges_shape _ _ _ _ H) |].
  intros i j k Hi Hm.
  assert (Hkeep : cell (zero_time_margins edges margin) i j k = cell edges i j k).
  { cbn [zero_time_margins cell]. unfold slice_bound.
    destruct (margin <? 0)%Z eqn:E1; [apply Z.ltb_lt in E1; lia |].
    destruct (- margin <? 0)%Z eqn:E2; [| apply Z.ltb_ge in E2; lia].
    destruct (Nat.leb_spec (Z.to_nat (Z.max 0 (- margin + Z.of_nat (len0 edges)))) i);
      [lia |].
    destruct (Nat.ltb_spec i (Z.to_nat (Z.min margin (Z.of_nat (len0 edges)))));
      [lia | reflexivity]. }
  unfold apply_mask_to_edges in H. destruct mask as [m |].
  - destruct (same_shape (zero_time_margins edges margin) m); [| discriminate].
    injection H as <-. cbn [cell]. rewrite (Hm m eq_refl). exact Hkeep.
  - injection H as <-. exact Hkeep.
Qed.

Lemma apply_mask_to_edges_interior_witness :
  apply_mask_to_edges edges_at_0_and_3 None 2 = Ok (zero_time_margins edges_at_0_and_3 2)
  /\ cell (zero_time_margins edges_at_0_and_3 2) 3 0 0 = cell edges_at_0_and_3 3 0 0
  /\ cell (zero_time_margins edges_at_0_and_3 2) 0 0 0 = 0%Z.
Proof.
  split; [reflexivity |]. split; [| reflexivity].
  apply (proj2 (apply_mask_to_edges_interior edges_at_0_and_3 None 2 _ eq_refl eq_refl)).
  - simpl. lia.
  - intros m Hm. discriminate Hm.
Defined.

(** ** Slices *)

Lemma py_slice_length_le {A : Type} (l : list A) (lo hi : option Z) :
  (length (py_slice l lo hi) <= length l)%nat.
Proof.
  unfold py_slice. rewrite length_firstn, length_skipn. lia.
Qed.

Lemma py_slice_prefix_length {A : Type} (l : list A) (b : Z) :
  (0 <= b)%Z -> (Z.of_nat (length (py_slice l (Some 0%Z) (Some b))) <= b)%Z.
Proof.
  intros Hb. unfold py_slice, slice_bound. rewrite length_firstn, length_skipn.
  destruct (b <? 0)%Z eqn:E; [apply Z.ltb_lt in E; lia |].
  cbn [Z.ltb Z.compare]. lia.
Qed.

Lemma py_slice_suffix_length {A : Type} (l : list A) (a : Z) :
  (0 <= a <= Z.of_nat (length l))%Z ->
  Z.of_nat (length (py_slice l (Some a) None)) = (Z.of_nat (length l) - a)%Z.
Proof.
  intros Ha. unfold py_slice, slice_bound. rewrite length_firstn, length_skipn.
  destruct (a <? 0)%Z eqn:E; [apply Z.ltb_lt in E; lia |]. lia.
Qed.

Lemma field_column_length (d : Field) (j k : nat) :
  length (field_column d j k) = len0 (field_values d).
Proof.
  unfold field_column. rewrite length_map, length_seq. reflexivity.
Qed.

(** ** Zeros in the abruptness field *)

Lemma float_zero_times_zero (z : Z) : float_zero (times_zero z).
Proof.
  unfold times_zero, float_zero. destruct (z <? 0)%Z; [right | left]; reflexivity.
Qed.

Lemma float_zero_clamp_score (x : float) : float_zero x -> float_zero (clamp_score x).
Proof.
  intros [-> | ->]; [left | right]; reflexivity.
Qed.


Lemma fold_np_maximum_In (l : list float) (x : float) :
  In (fold_left np_maximum l x) (x :: l).
Proof.
  revert x. induction l as [| y l IH]; intros x; cbn [fold_left].
  - left. reflexivity.
  - destruct (IH (np_maximum x y)) as [H | H].
    + rewrite <- H. unfold np_maximum.
      destruct (PrimFloat.leb y x || PrimFloat.is_nan x); [left | right; left]; reflexivity.
    + right. right. exact H.
Qed.

Lemma max_axis0_float_zero (a : ndarray3 float) (p : ndarray2 float) (j k : nat) :
  max_axis0 a = Ok p ->
  (forall i, float_zero (cell a i j k)) ->
  float_zero (cell2 p j k).
Proof.
  unfold max_axis0. intros H Hz. destruct (len0 a) as [| n].
  - destruct (Nat.eqb (len1 a * len2 a) 0); [| discriminate].
    injection H as <-. left. reflexivity.
  - injection H as <-. cbn [cell2].
    destruct (fold_np_maximum_In (map (fun i => cell a i j k) (seq 1 n)) (cell a 0 j k))
      as [<- | Hin]; [apply Hz |].
    apply in_map_iff in Hin as (i & <- & _). apply Hz.
Qed.

Lemma trim_chunk1_length (cutoff : Z) (m : list Z) (d d' : list Sample) (y y' : list Z) :
  trim_chunk1 cutoff m d y = Ok (d', y') -> (length d' <= length d)%nat.
Proof.
  unfold trim_chunk1. intros H. destruct (0 <? np_sum m)%Z.
  - bind_step H as e He.
    destruct (size d <=? e + cutoff)%Z; injection H as <- <-.
    + cbn [length]. lia.
    + apply py_slice_length_le.
  - injection H as <- <-. lia.
Qed.

Lemma trim_chunk2_length (cutoff : Z) (m : list Z) (d d' : list Sample) (y y' : list Z) :
  trim_chunk2 cutoff m d y = Ok (d', y') -> (length d' <= length d)%nat.
Proof.
  unfold trim_chunk2. intros H. destruct (0 <? np_sum m)%Z.
  - bind_step H as e He.
    destruct (e - cutoff <? 0)%Z; injection H as <- <-.
    + cbn [length]. lia.
    + apply py_slice_length_le.
  - injection H as <- <-. lia.
Qed.

Lemma capped_suffix_size {A : Type} (c : list A) (cmax : Z) :
  (0 <= cmax)%Z ->
  (size (py_slice c (Some (if (cmax <? size c)%Z then (size c - cmax)%Z else 0%Z)) None)
   <= cmax)%Z.
Proof.
  intros Hc. unfold size.
  destruct (Z.ltb_spec cmax (Z.of_nat (length c))).
  - rewrite py_slice_suffix_length; lia.
  - rewrite py_slice_suffix_length; lia.
Qed.

Lemma capped_prefix_size {A : Type} (c : list A) (cmax : Z) :
  (0 <= cmax)%Z ->
  (size (py_slice c (Some 0%Z) (Some (if (cmax <? size c)%Z then cmax else size c)))
   <= cmax)%Z.
Proof.
  intros Hc. unfold size.
  destruct (Z.ltb_spec cmax (Z.of_nat (length c))) as [Hlt | Hge].
  - apply py_slice_prefix_length. exact Hc.
  - pose proof (py_slice_prefix_length c (Z.of_nat (length c)) ltac:(lia)). lia.
Qed.

Section AbruptnessEdges.

Variable linregress : list Z -> list Sample -> result (float * float).
Variable np_nanstd : list Sample -> float.
Variable np_mean : list Sample -> float.
Variable mask : ndarray3 Z.
Variable years : list Z.
Variable data : Field.
Variable cutoff_length chunk_max_length chunk_min_length : Z.

Let chunks := voxel_chunks mask years data cutoff_length chunk_max_length.
Let score :=
  voxel_score linregress np_nanstd np_mean mask years data
    cutoff_length chunk_max_length chunk_min_length.
Let measure :=
  compute_measure15j linregress np_nanstd np_mean mask years data
    cutoff_length chunk_max_length chunk_min_length.
Let steps := Z.of_nat (len0 (field_values data)).

Lemma voxel_chunks_capped
  (v : voxel) (years1 : list Z) (data1 : list Sample) (years2 : list Z) (data2 : list Sample) :
  chunks v = Ok ((years1, data1), (years2, data2)) ->
  (0 <= chunk_max_length)%Z ->
  (size data1 <= chunk_max_length)%Z /\ (size data2 <= chunk_max_length)%Z.
Proof.
  destruct v as [[i j] k]. unfold chunks, voxel_chunks.
  destruct (negb ((j <? len1 (field_values data))%nat && (k <? len2 (field_values data))%nat));
    [discriminate |].
  cbv zeta. intros H Hc.
  bind_step H as year0 Hyear.
  bind_step H as [d1 y1] Ht1. bind_step H as [d2 y2] Ht2.
  injection H as <- <- <- <-.
  apply trim_chunk1_length in Ht1. apply trim_chunk2_length in Ht2.
  unfold size at 1 2.
  pose proof (capped_suffix_size
                (py_slice (field_column data j k) (Some 0%Z)
                          (Some (Z.of_nat i - cutoff_length)%Z))
                chunk_max_length Hc) as C1.
  pose proof (capped_prefix_size
                (py_slice (field_column data j k)
                          (Some (Z.of_nat i + cutoff_length + 1)%Z) None)
                chunk_max_length Hc) as C2.
  unfold size at 1 in C1. unfold size at 1 in C2. lia.
Qed.

Lemma voxel_chunks_window
  (v : voxel) (years1 : list Z) (data1 : list Sample) (years2 : list Z) (data2 : list Sample) :
  chunks v = Ok ((years1, data1), (years2, data2)) ->
  (0 <= cutoff_length)%Z ->
  inside_time_window data cutoff_length (Z.of_nat (fst (fst v))) = true ->
  (size data1 <= Z.of_nat (fst (fst v)) - cutoff_length)%Z
  /\ (size data2 <= steps - Z.of_nat (fst (fst v)) - cutoff_length - 1)%Z.
Proof.
  destruct v as [[i j] k]. unfold chunks, voxel_chunks. cbn [fst].
  destruct (negb ((j <? len1 (field_values data))%nat && (k <? len2 (field_values data))%nat));
    [discriminate |].
  cbv zeta. intros H Hcut Hwin.
  bind_step H as year0 Hyear.
  bind_step H as [d1 y1] Ht1. bind_step H as [d2 y2] Ht2.
  injection H as <- <- <- <-.
  apply trim_chunk1_length in Ht1. apply trim_chunk2_length in Ht2.
  unfold size at 1 2.
  unfold inside_time_window in Hwin.
  apply andb_true_iff in Hwin as [Hlo Hhi].
  apply Z.leb_le in Hlo. apply Z.leb_le in Hhi.
  pose proof (py_slice_length_le
                (py_slice (field_column data j k) (Some 0%Z)
                          (Some (Z.of_nat i - cutoff_length)%Z))
                (Some (if (chunk_max_length
                           <? size (py_slice (field_column data j k) (Some 0%Z)
                                             (Some (Z.of_nat i - cutoff_length)%Z)))%Z
                       then (size (py_slice (field_column data j k) (Some 0%Z)
                                            (Some (Z.of_nat i - cutoff_length)%Z))
                             - chunk_max_length)%Z
                       else 0%Z)) None) as L1.
  pose proof (py_slice_prefix_length (field_column data j k)
                (Z.of_nat i - cutoff_length) Hlo) as P1.
  pose proof (py_slice_length_le
                (py_slice (field_column data j k)
                          (Some (Z.of_nat i + cutoff_length + 1)%Z) None)
                (Some 0%Z)
                (Some (if (chunk_max_length
                           <? size (py_slice (field_column data j k)
                                             (Some (Z.of_nat i + cutoff_length + 1)%Z)
                                             None))%Z
                       then chunk_max_length
                       else size (py_slice (field_column data j k)
                                           (Some (Z.of_nat i + cutoff_length + 1)%Z)
                                           None)))) as L2.
  pose proof (py_slice_suffix_length (field_column data j k)
                (Z.of_nat i + cutoff_length + 1)) as P2.
  rewrite field_column_length in P2. unfold steps. lia.
Qed.

(** X6. The regression chunks of a voxel never hold more than
    [chunk_max_length] samples each, and for a voxel inside the time window
    chunk 1 has at most [index - cutoff_length] samples and chunk 2 at most
    [T - index - cutoff_length - 1]: the samples within [cutoff_length] of the
    edge enter neither regression. *)
Theorem voxel_chunks_sizes
  (v : voxel) (years1 : list Z) (data1 : list Sample) (years2 : list Z) (data2 : list Sample) :
  chunks v = Ok ((years1, data1), (years2, data2)) ->
  ((0 <= chunk_max_length)%Z ->
   (size data1 <= chunk_max_length)%Z /\ (size data2 <= chunk_max_length)%Z)
  /\ ((0 <= cutoff_length)%Z ->
      inside_time_window data cutoff_length (Z.of_nat (fst (fst v))) = true ->
      (size data1 <= Z.of_nat (fst (fst v)) - cutoff_length)%Z
      /\ (size data2 <= steps - Z.of_nat (fst (fst v)) - cutoff_length - 1)%Z).
Proof.
  intros H. split.
  - apply (voxel_chunks_capped _ _ _ _ _ H).
  - apply (voxel_chunks_window _ _ _ _ _ H).
Qed.

(** A voxel that the loop scores with nothing keeps its initial zero. *)
Lemma measure15j_3d_unscored (out : Measures) (v : voxel) :
  measure = Ok out ->
  (forall s, score v = Ok s -> s = None) ->
  at3 (measure15j_3d out) v = times_zero (at3 mask v).
Proof.
  intros H Hnone. unfold measure, compute_measure15j in H.
  bind_step H as m3d Hloop. bind_step H as projection Hproj.
  injection H as <-. cbn [measure15j_3d].
  destruct (measure_loop_cell _ _ _ _ _ _ _ _ _ _ _ _ v Hloop) as [Hin Hout].
  assert (Hinit : at3 (map3 times_zero mask) v = times_zero (at3 mask v))
    by (destruct v as [[i j] k]; reflexivity).
  destruct (in_dec voxel_eq_dec v (np_where mask)) as [Hv | Hv].
  - destruct (Hin Hv) as (s & Hs & Hcell). fold score in Hs.
    rewrite (Hnone s Hs) in Hcell. rewrite Hcell. exact Hinit.
  - rewrite (Hout Hv). exact Hinit.
Qed.

Lemma measure15j_column_zero (out : Measures) (j k : nat) :
  measure = Ok out ->
  (forall i, float_zero (cell (measure15j_3d out) i j k)) ->
  float_zero (cell2 (measure15j out) j k).
Proof.
  intros H Hz. unfold measure, compute_measure15j in H.
  bind_step H as m3d Hloop. bind_step H as projection Hproj.
  injection H as <-. cbn [measure15j measure15j_3d map2d cell2] in *.
  apply float_zero_clamp_score.
  apply (max_axis0_float_zero _ _ _ _ Hproj). exact Hz.
Qed.

Lemma voxel_score_unmarked (v : voxel) (s : option float) :
  at3 mask v <> 1%Z -> score v = Ok s -> s = None.
Proof.
  destruct v as [[i j] k]. cbn [at3]. unfold score, voxel_score. intros Hne.
  destruct (Z.eqb_spec (cell mask i j k) 1) as [E | _]; [contradiction |].
  intros H. injection H as <-. reflexivity.
Qed.

(** X7. [compute_measure15j] scores a voxel only where the mask holds exactly
    1: wherever the mask holds another value the returned field holds a zero,
    and a column of the mask without a 1 has a zero in the projection. *)
Theorem measure15j_scores_only_ones (out : Measures) :
  measure = Ok out ->
  (forall v, at3 mask v <> 1%Z -> float_zero (at3 (measure15j_3d out) v))
  /\ (forall j k, (forall i, cell mask i j k <> 1%Z) ->
                  float_zero (cell2 (measure15j out) j k)).
Proof.
  intros H.
  assert (H3 : forall v, at3 mask v <> 1%Z -> float_zero (at3 (measure15j_3d out) v)).
  { intros v Hv. rewrite (measure15j_3d_unscored out v H).
    - apply float_zero_times_zero.
    - intros s. apply voxel_score_unmarked. exact Hv. }
  split; [exact H3 |].
  intros j k Hcol. apply (measure15j_column_zero out j k H).
  intros i. apply (H3 (i, j, k)). apply Hcol.
Qed.

Lemma voxel_score_short (v : voxel) (s : option float) :
  (0 <= cutoff_length)%Z ->
  (steps < 2 * chunk_min_length + 2 * cutoff_length + 1)%Z ->
  score v = Ok s -> s = None.
Proof.
  intros Hcut Hshort. unfold score, voxel_score. destruct v as [[i j] k].
  destruct (Z.eqb (cell mask i j k) 1); [| intros H; injection H as <-; reflexivity].
  destruct (inside_time_window data cutoff_length (Z.of_nat i)) eqn:Hwin;
    [| intros H; injection H as <-; reflexivity].
  intros H. bind_step H as [[y1 d1] [y2 d2]] Hchunks.
  destruct (voxel_chunks_window (i, j, k) _ _ _ _ Hchunks Hcut Hwin) as [B1 B2].
  cbn [fst] in B1, B2.
  destruct (long_enough chunk_min_length d1 d2) eqn:Hlong;
    [| injection H as <-; reflexivity].
  exfalso. unfold long_enough in Hlong.
  apply negb_true_iff, orb_false_iff in Hlong as [L1 L2].
  apply Z.ltb_ge in L1. apply Z.ltb_ge in L2. lia.
Qed.

Lemma measure15j_3d_short (out : Measures) (v : voxel) :
  measure = Ok out ->
  (0 <= cutoff_length)%Z ->
  (steps < 2 * chunk_min_length + 2 * cutoff_length + 1)%Z ->
  float_zero (at3 (measure15j_3d out) v).
Proof.
  intros H Hcut Hshort. rewrite (measure15j_3d_unscored out v H).
  - apply float_zero_times_zero.
  - intros s. apply voxel_score_short; assumption.
Qed.

Lemma measure15j_short (out : Measures) (j k : nat) :
  measure = Ok out ->
  (0 <= cutoff_length)%Z ->
  (steps < 2 * chunk_min_length + 2 * cutoff_length + 1)%Z ->
  float_zero (cell2 (measure15j out) j k).
Proof.
  intros H Hcut Hshort. apply (measure15j_column_zero out j k H).
  intros i. apply (measure15j_3d_short out (i, j, k) H Hcut Hshort).
Qed.

(** X8. A series too short for two chunks gets no score at all: when the data
    have fewer than [2 * chunk_min_length + 2 * cutoff_length + 1] time steps
    (and [cutoff_length] is not negative) every entry of the field and of the
    projection that [compute_measure15j] returns is a zero. *)
Theorem measure15j_short_series (out : Measures) :
  measure = Ok out ->
  (0 <= cutoff_length)%Z ->
  (steps < 2 * chunk_min_length + 2 * cutoff_length + 1)%Z ->
  (forall v, float_zero (at3 (measure15j_3d out) v))
  /\ (forall j k, float_zero (cell2 (measure15j out) j k)).
Proof.
  intros H Hcut Hshort. split.
  - intros v. apply measure15j_3d_short; assumption.
  - intros j k. apply measure15j_short; assumption.
Qed.

(** X9. The loop reads the data at the mask's indices: one voxel that it
    processes (mask value 1, inside the time window) whose latitude or
    longitude index lies outside the data makes the whole call raise, so
    [compute_measure15j] returns no field at all. *)
Theorem measure15j_outside_data (i j k : nat) :
  in_shape mask (i, j, k) = true ->
  cell mask i j k = 1%Z ->
  inside_time_window data cutoff_length (Z.of_nat i) = true ->
  (len1 (field_values data) <= j \/ len2 (field_values data) <= k)%nat ->
  exists e, measure = Raise e.
Proof.
  intros Hshape Hone Hwin Hout.
  destruct measure as [out | e] eqn:Hrun; [| exists e; reflexivity].
  exfalso. unfold measure, compute_measure15j in Hrun.
  bind_step Hrun as m3d Hloop.
  destruct (measure_loop_cell _ _ _ _ _ _ _ _ _ _ _ _ (i, j, k) Hloop) as [Hin _].
  destruct Hin as (s & Hs & _).
  { apply in_np_where. split; [exact Hshape |]. cbn [at3]. lia. }
  unfold voxel_score in Hs. rewrite Hone, Hwin in Hs. cbn [Z.eqb Pos.eqb] in Hs.
  unfold voxel_chunks in Hs.
  replace ((j <? len1 (field_values data))%nat && (k <? len2 (field_values data))%nat)
    with false in Hs; [discriminate Hs |].
  symmetry. apply andb_false_iff.
  destruct Hout as [Hj | Hk]; [left | right]; apply Nat.ltb_ge; assumption.
Qed.

End AbruptnessEdges.

Lemma voxel_chunks_sizes_witness :
  voxel_chunks edge_at_3 years7 (Plain jump_values) 1 3 (3, 0, 0)%nat
  = Ok (([-3; -2]%Z, [(0, false); (1, false)]%float),
        ([2; 3]%Z, [(6, false); (5, false)]%float))
  /\ ((size [(0, false); (1, false)]%float <= 3)%Z
      /\ (size [(6, false); (5, false)]%float <= 3)%Z)
  /\ ((size [(0, false); (1, false)]%float <= 3 - 1)%Z
      /\ (size [(6, false); (5, false)]%float <= 7 - 3 - 1 - 1)%Z).
Proof.
  split; [reflexivity |].
  destruct (voxel_chunks_sizes edge_at_3 years7 (Plain jump_values) 1 3 (3, 0, 0)%nat
              [-3; -2]%Z [(0, false); (1, false)]%float
              [2; 3]%Z [(6, false); (5, false)]%float eq_refl) as [Hcap Hwin].
  split; [apply Hcap; lia | apply Hwin; [lia | reflexivity]].
Defined.

Lemma measure15j_scores_only_ones_witness :
  exists out,
    compute_measure15j linregress_model nanstd_model mean_model edge_labelled_two years7
      (Plain jump_values) 1 3 2 = Ok out
    /\ float_zero (cell (measure15j_3d out) 3 0 0)
    /\ float_zero (cell2 (measure15j out) 0 0).
Proof.
  assert (E : is_ok (compute_measure15j linregress_model nanstd_model mean_model
                       edge_labelled_two years7 (Plain jump_values) 1 3 2) = true)
    by (vm_compute; reflexivity).
  destruct (compute_measure15j linregress_model nanstd_model mean_model
              edge_labelled_two years7 (Plain jump_values) 1 3 2) as [out |] eqn:Hrun;
    [| discriminate E].
  exists out. split; [reflexivity |].
  destruct (measure15j_scores_only_ones linregress_model nanstd_model mean_model
              edge_labelled_two years7 (Plain jump_values) 1 3 2 out Hrun) as [H3 H2].
  split.
  - apply (H3 (3, 0, 0)%nat). vm_compute. discriminate.
  - apply H2. intros i.
    destruct i as [| [| [| [| [| [| [| [| i]]]]]]]]; vm_compute; discriminate.
Defined.

Lemma measure15j_short_series_witness :
  exists out,
    compute_measure15j linregress_model nanstd_model mean_model edge_at_3 years7
      (Plain jump_values) 2 30 15 = Ok out
    /\ float_zero (cell (measure15j_3d out) 3 0 0)
    /\ float_zero (cell2 (measure15j out) 0 0).
Proof.
  assert (E : is_ok (compute_measure15j linregress_model nanstd_model mean_model
                       edge_at_3 years7 (Plain jump_values) 2 30 15) = true)
    by (vm_compute; reflexivity).
  destruct (compute_measure15j linregress_model nanstd_model mean_model
              edge_at_3 years7 (Plain jump_values) 2 30 15) as [out |] eqn:Hrun;
    [| discriminate E].
  exists out. split; [reflexivity |].
  destruct (measure15j_short_series linregress_model nanstd_model mean_model
              edge_at_3 years7 (Plain jump_values) 2 30 15 out Hrun) as [H3 H2].
  - lia.
  - simpl. lia.
  - split; [apply (H3 (3, 0, 0)%nat) | apply H2].
Defined.

Lemma measure15j_outside_data_witness :
  exists e,
    compute_measure15j linregress_model nanstd_model mean_model edge_off_grid years7
      (Plain jump_values) 1 3 2 = Raise e.
Proof.
  apply (measure15j_outside_data linregress_model nanstd_model mean_model
           edge_off_grid years7 (Plain jump_values) 1 3 2 3 1 0).
  - reflexivity.
  - reflexivity.
  - reflexivity.
  - left. simpl. lia.
Defined.

(** ** Reports on short series *)

Lemma indices2_length (n1 n2 : nat) : length (indices2 n1 n2) = (n1 * n2)%nat.
Proof.
  unfold indices2. generalize 0%nat at 2.
  induction n1 as [| n1 IH]; intros s; cbn [seq flat_map]; [reflexivity |].
  rewrite length_app, length_map, length_seq, IH. lia.
Qed.


Section ReportEdges.

Variable Quantity : Type.
Variable py_float : string -> result float.
Variable unit : string -> result Quantity.
Variable q_scale : float -> Quantity -> Quantity.
Variable taper_masked_area : Field -> list Z -> Z -> Field.
Variable gaussian_filter : Box -> Field -> list Quantity -> result Field.
Variable linregress : list Z -> list Sample -> result (float * float).
Variable np_nanstd : list Sample -> float.
Variable np_mean : list Sample -> float.

Let prelude := report_prelude py_float linregress np_nanstd np_mean.
Let report :=
  make_report Quantity py_float unit q_scale taper_masked_area gaussian_filter
    linregress np_nanstd np_mean.


End ReportEdges.


(** ** Regions and the size filter *)

Lemma label_regions_unfold (mask : ndarray3 Z) (m : Z) :
  let s := generate_binary_structure3 3 in
  let labels := fst (ndimage_label mask s) in
  let n := snd (ndimage_label mask s) in
  let big_enough := filter (fun x => (m <? Z.of_nat (label_count labels x))%Z) (seq 1 n) in
  label_regions mask m
  = mkRegions n (map3 (fun l => if existsb (Nat.eqb l) big_enough then l else 0%nat) labels)
              big_enough.
Proof.
  cbv zeta. unfold label_regions.
  destruct (ndimage_label mask (generate_binary_structure3 3)) as [labels n]. reflexivity.
Qed.

Lemma ndimage_label_shape (mask : ndarray3 Z) (s : ndarray3 bool) :
  len0 (fst (ndimage_label mask s)) = len0 mask
  /\ len1 (fst (ndimage_label mask s)) = len1 mask
  /\ len2 (fst (ndimage_label mask s)) = len2 mask.
Proof.
  unfold ndimage_label.
  destruct (label_scan s (np_where mask) (np_where mask) (fun _ => 0%nat) 0) as [lab n].
  repeat split.
Qed.

Lemma filter_length_pos {A : Type} (f : A -> bool) (l : list A) (a : A) :
  In a l -> f a = true -> (1 <= length (filter f l))%nat.
Proof.
  intros Hin Hf. assert (H : In a (filter f l)) by (apply filter_In; split; assumption).
  destruct (filter f l); [contradiction | cbn [length]; lia].
Qed.

Lemma filter_all {A : Type} (f : A -> bool) (l : list A) :
  (forall a, In a l -> f a = true) -> filter f l = l.
Proof.
  induction l as [| a l IH]; intros H; cbn [filter]; [reflexivity |].
  rewrite (H a (or_introl eq_refl)), IH; [reflexivity |].
  intros b Hb. apply H. right. exact Hb.
Qed.

(** Every label in use marks at least one cell of the label array. *)
Lemma label_count_used (mask : ndarray3 Z) (x : nat) :
  let s := generate_binary_structure3 3 in
  (1 <= x <= snd (ndimage_label mask s))%nat ->
  (1 <= label_count (fst (ndimage_label mask s)) x)%nat.
Proof.
  intros s Hx.
  pose proof (ndimage_label_labelling mask) as Hinv. cbv zeta in Hinv. fold s in Hinv.
  destruct Hinv as (Hle & Hfg & Hdone & Hclass & Hused).
  destruct (Hused x Hx) as (v & Hv).
  assert (Hin : In v (np_where mask)) by (apply Hfg; lia).
  apply in_np_where in Hin as [Hshape _].
  destruct (ndimage_label_shape mask s) as (S0 & S1 & S2).
  unfold label_count, flatten. rewrite S0, S1, S2.
  apply filter_length_pos with (a := at3 (fst (ndimage_label mask s)) v).
  - apply in_map. destruct v as [[i j] k]. apply in_indices3.
    unfold in_shape in Hshape.
    rewrite !andb_true_iff, !Nat.ltb_lt in Hshape. tauto.
  - apply Nat.eqb_eq. exact Hv.
Qed.

(** X11. With a minimum size of zero or less (zero is the default)
    [label_regions] filters nothing: [labels] lists 1 to [n_features] and
    [regions] is the label array of the mask. *)
Theorem label_regions_keeps_all (mask : ndarray3 Z) (m : Z) :
  (m <= 0)%Z ->
  region_labels (label_regions mask m) = seq 1 (n_features (label_regions mask m))
  /\ forall v, at3 (regions (label_regions mask m)) v
               = at3 (fst (ndimage_label mask (generate_binary_structure3 3))) v.
Proof.
  intros Hm. rewrite label_regions_unfold. cbn [region_labels n_features regions].
  set (s := generate_binary_structure3 3).
  set (labels := fst (ndimage_label mask s)). set (n := snd (ndimage_label mask s)).
  assert (Hall : filter (fun x => (m <? Z.of_nat (label_count labels x))%Z) (seq 1 n)
                 = seq 1 n).
  { apply filter_all. intros x Hx. apply in_seq in Hx. apply Z.ltb_lt.
    pose proof (label_count_used mask x ltac:(fold s; fold n; lia)) as Hc.
    fold s labels in Hc. lia. }
  rewrite Hall. split; [reflexivity |].
  intros [[i j] k]. cbn [at3 map3 cell].
  destruct (existsb (Nat.eqb (cell labels i j k)) (seq 1 n)) eqn:E; [reflexivity |].
  pose proof (ndimage_label_labelling mask) as Hinv. cbv zeta in Hinv.
  fold s labels n in Hinv. destruct Hinv as (Hle & _).
  specialize (Hle (i, j, k)). cbn [at3] in Hle.
  destruct (Nat.eq_dec (cell labels i j k) 0) as [H0 | Hnz]; [congruence |].
  exfalso. apply not_true_iff_false in E. apply E.
  apply existsb_exists. exists (cell labels i j k).
  split; [apply in_seq; lia | apply Nat.eqb_refl].
Qed.

Lemma label_regions_keeps_all_witness :
  region_labels (label_regions three_regions 0) = [1; 2; 3]%nat
  /\ n_features (label_regions three_regions 0) = 3%nat
  /\ at3 (regions (label_regions three_regions 0)) (3, 0, 0)%nat = 2%nat.
Proof.
  destruct (label_regions_keeps_all three_regions 0 ltac:(lia)) as [Hl Hr].
  split; [rewrite Hl; reflexivity |]. split; [reflexivity |].
  rewrite Hr. reflexivity.
Defined.

(** X12. Raising the minimum size only removes regions: the labels kept for
    the larger bound are kept for the smaller one, and every voxel that is
    non-zero in [regions] for the larger bound has the same label for the
    smaller one. *)
Theorem label_regions_monotone (mask : ndarray3 Z) (m m' : Z) :
  (m <= m')%Z ->
  incl (region_labels (label_regions mask m')) (region_labels (label_regions mask m))
  /\ forall v, at3 (regions (label_regions mask m')) v <> 0%nat ->
               at3 (regions (label_regions mask m)) v
               = at3 (regions (label_regions mask m')) v.
Proof.
  intros Hm. rewrite !label_regions_unfold. cbn [region_labels regions].
  set (s := generate_binary_structure3 3).
  set (labels := fst (ndimage_label mask s)). set (n := snd (ndimage_label mask s)).
  assert (Hincl : incl (filter (fun x => (m' <? Z.of_nat (label_count labels x))%Z) (seq 1 n))
                       (filter (fun x => (m <? Z.of_nat (label_count labels x))%Z) (seq 1 n))).
  { intros x Hx. apply filter_In in Hx as [Hx Hbig]. apply filter_In. split; [exact Hx |].
    apply Z.ltb_lt in Hbig. apply Z.ltb_lt. lia. }
  split; [exact Hincl |].
  intros [[i j] k]. cbn [at3 map3 cell]. intros Hnz.
  destruct (existsb (Nat.eqb (cell labels i j k))
              (filter (fun x => (m' <? Z.of_nat (label_count labels x))%Z) (seq 1 n)))
    eqn:E'; [| contradiction].
  apply existsb_exists in E' as (x & Hx & Ex).
  replace (existsb (Nat.eqb (cell labels i j k))
             (filter (fun x => (m <? Z.of_nat (label_count labels x))%Z) (seq 1 n)))
    with true; [reflexivity |].
  symmetry. apply existsb_exists. exists x. split; [apply Hincl, Hx | exact Ex].
Qed.

Lemma label_regions_monotone_witness :
  incl (region_labels (label_regions three_regions 1))
       (region_labels (label_regions three_regions 0))
  /\ at3 (regions (label_regions three_regions 0)) (0, 0, 0)%nat = 1%nat
  /\ region_labels (label_regions three_regions 1) = [1%nat].
Proof.
  destruct (label_regions_monotone three_regions 0 1 ltac:(lia)) as [Hl Hr].
  split; [exact Hl |]. split; [| reflexivity].
  rewrite Hr; [reflexivity | vm_compute; discriminate].
Defined.

(** X13. [generate_region_plot] saves its figure exactly when the mask has a
    non-zero voxel; on an empty mask it writes nothing and returns [None]. *)
Theorem generate_region_plot_written (mask : ndarray3 Z) (filename : string)
        (files : list string) :
  (np_where mask = [] ->
   generate_region_plot mask filename files = (Ok None, files))
  /\ (np_where mask <> [] ->
      generate_region_plot mask filename files
      = (Ok (Some filename), files ++ [filename])).
Proof.
  pose proof (ndimage_label_labelling mask) as Hinv. cbv zeta in Hinv.
  destruct Hinv as (Hle & Hfg & Hdone & Hclass & Hused).
  unfold generate_region_plot.
  destruct (ndimage_label mask (generate_binary_structure3 3)) as [labels n].
  cbn [fst snd] in *. split.
  - intros Hempty. destruct n as [| n]; [reflexivity |].
    exfalso. destruct (Hused 1%nat ltac:(lia)) as (v & Hv).
    assert (Hin : In v (np_where mask)) by (apply Hfg; lia).
    rewrite Hempty in Hin. destruct Hin.
  - intros Hne. destruct (np_where mask) as [| v fg] eqn:Efg; [contradiction |].
    assert (Hv : at3 labels v <> 0%nat) by (apply Hdone; left; reflexivity).
    specialize (Hle v).
    destruct n as [| n]; [lia |]. reflexivity.
Qed.

(** ** The year of the largest abruptness *)

Lemma np_sum_from (l : list Z) (a : Z) : fold_left Z.add l a = (a + np_sum l)%Z.
Proof.
  unfold np_sum. revert a. induction l as [| x l IH]; intros a; cbn [fold_left]; [lia |].
  rewrite IH, (IH (0 + x)%Z). lia.
Qed.

(** The cells that the loop of [compute_years_maxabrupt] sets to one. *)
Lemma mask_max_cell (abruptness_3d : ndarray3 float) (abruptness : ndarray2 float)
      (todo : list voxel) (m0 : ndarray3 Z) (i j k : nat) :
  let attains := PrimFloat.eqb (cell abruptness_3d i j k) (cell2 abruptness j k)
                 && PrimFloat.ltb 0 (cell2 abruptness j k) in
  cell (fold_left (fun (m : ndarray3 Z) (v : voxel) =>
                     let '(dim0, dim1, dim2) := v in
                     if PrimFloat.eqb (at3 abruptness_3d v) (cell2 abruptness dim1 dim2)
                        && PrimFloat.ltb 0 (cell2 abruptness dim1 dim2)
                     then set3 m v 1%Z else m) todo m0) i j k
  = if mem_voxel (i, j, k) todo && attains then 1%Z else cell m0 i j k.
Proof.
  cbv zeta. revert m0. induction todo as [| w todo IH]; intros m0; [reflexivity |].
  cbn [fold_left]. rewrite IH. clear IH.
  destruct (mem_voxel (i, j, k) todo) eqn:Hrest.
  - replace (mem_voxel (i, j, k) (w :: todo)) with true.
    + cbn [andb].
      destruct (PrimFloat.eqb (cell abruptness_3d i j k) (cell2 abruptness j k)
                && PrimFloat.ltb 0 (cell2 abruptness j k)) eqn:Hatt; [reflexivity |].
      destruct w as [[i' j'] k'].
      destruct (PrimFloat.eqb (at3 abruptness_3d (i', j', k')) (cell2 abruptness j' k')
                && PrimFloat.ltb 0 (cell2 abruptness j' k')) eqn:Hw; [| reflexivity].
      destruct (voxel_eq_dec (i', j', k') (i, j, k)) as [E | Hne].
      * injection E as -> -> ->. cbn [at3] in Hw. congruence.
      * apply (at3_set3_other m0 (i', j', k') (i, j, k) 1%Z Hne).
    + symmetry. apply mem_voxel_In. right. apply mem_voxel_In. exact Hrest.
  - cbn [andb]. destruct (voxel_eq_dec w (i, j, k)) as [E | Hne].
    + rewrite (proj2 (mem_voxel_In (i, j, k) (w :: todo)) (or_introl E)).
      subst w. cbn [andb at3].
      destruct (PrimFloat.eqb (cell abruptness_3d i j k) (cell2 abruptness j k)
                && PrimFloat.ltb 0 (cell2 abruptness j k)); [| reflexivity].
      apply (at3_set3_same m0 (i, j, k) 1%Z).
    + replace (mem_voxel (i, j, k) (w :: todo)) with false.
      * cbn [andb]. destruct w as [[i' j'] k'].
        destruct (PrimFloat.eqb (at3 abruptness_3d (i', j', k')) (cell2 abruptness j' k')
                  && PrimFloat.ltb 0 (cell2 abruptness j' k')); [| reflexivity].
        apply (at3_set3_other m0 (i', j', k') (i, j, k) 1%Z Hne).
      * symmetry. apply not_true_iff_false. intros Hin. apply mem_voxel_In in Hin.
        destruct Hin as [E | Hin]; [contradiction |].
        apply mem_voxel_In in Hin. congruence.
Qed.

Lemma np_sum_zeros {A : Type} (l : list A) : np_sum (map (fun _ => 0%Z) l) = 0%Z.
Proof.
  induction l as [| x l IH]; [reflexivity |].
  unfold np_sum. cbn [map fold_left]. rewrite np_sum_from, IH. reflexivity.
Qed.

(** X14. For abruptness arrays of the mask's shape and one year per time
    step, [compute_years_maxabrupt] returns in each column the sum of the
    years of the edge voxels whose abruptness equals the column's positive
    maximum: one such voxel gives its year, several give the sum of their
    years, and a column whose abruptness is not positive gives 0. *)
Theorem compute_years_maxabrupt_sum
  (years : list Z) (mask : ndarray3 Z) (abruptness_3d : ndarray3 float)
  (abruptness : ndarray2 float) (out : ndarray2 Z) (j k : nat) :
  compute_years_maxabrupt years mask abruptness_3d abruptness = Ok out ->
  same_shape mask abruptness_3d = true ->
  rows abruptness = len1 mask -> cols abruptness = len2 mask ->
  length years = len0 mask ->
  (j < len1 mask)%nat -> (k < len2 mask)%nat ->
  cell2 out j k
  = np_sum (map (fun i => if negb (Z.eqb (cell mask i j k) 0)
                             && PrimFloat.eqb (cell abruptness_3d i j k) (cell2 abruptness j k)
                             && PrimFloat.ltb 0 (cell2 abruptness j k)
                          then nth i years 0%Z else 0%Z)
                (seq 0 (len0 mask)))
  /\ (PrimFloat.ltb 0 (cell2 abruptness j k) = false -> cell2 out j k = 0%Z).
Proof.
  intros H _ _ _ Hlen Hj Hk. unfold compute_years_maxabrupt in H.
  bind_step H as u Hb. injection H as <-. cbn [cell2].
  assert (Hsum : forall i, In i (seq 0 (len0 mask)) ->
            (nth (if Nat.eqb (length years) 1 then 0%nat else i) years 0
             * cell (fold_left
                       (fun (m : ndarray3 Z) (v : voxel) =>
                          let '(dim0, dim1, dim2) := v in
                          if PrimFloat.eqb (at3 abruptness_3d v) (cell2 abruptness dim1 dim2)
                             && PrimFloat.ltb 0 (cell2 abruptness dim1 dim2)
                          then set3 m v 1%Z else m)
                       (np_where mask) (map3 (fun z => (z * 0)%Z) mask))
                    (if Nat.eqb (len0 mask) 1 then 0%nat else i) j k)%Z
            = if negb (Z.eqb (cell mask i j k) 0)
                 && PrimFloat.eqb (cell abruptness_3d i j k) (cell2 abruptness j k)
                 && PrimFloat.ltb 0 (cell2 abruptness j k)
              then nth i years 0%Z else 0%Z).
  { intros i Hi. apply in_seq in Hi. rewrite Hlen.
    assert (Ei : (if Nat.eqb (len0 mask) 1 then 0%nat else i) = i).
    { destruct (Nat.eqb_spec (len0 mask) 1); [lia | reflexivity]. }
    rewrite Ei, mask_max_cell. cbn [map3 cell].
    assert (Hmem : mem_voxel (i, j, k) (np_where mask) = negb (Z.eqb (cell mask i j k) 0)).
    { destruct (Z.eqb_spec (cell mask i j k) 0) as [E0 | Hne]; cbn [negb].
      - apply mem_voxel_not_In. intros Hin. apply in_np_where in Hin as [_ Hnz].
        cbn [at3] in Hnz. contradiction.
      - apply mem_voxel_In, in_np_where. split; [| exact Hne].
        unfold in_shape. rewrite !andb_true_iff, !Nat.ltb_lt. lia. }
    rewrite Hmem, <- andb_assoc.
    destruct (negb (Z.eqb (cell mask i j k) 0)
              && (PrimFloat.eqb (cell abruptness_3d i j k) (cell2 abruptness j k)
                  && PrimFloat.ltb 0 (cell2 abruptness j k))); lia. }
  assert (Hbl : broadcast_length (length years) (len0 mask) = len0 mask).
  { unfold broadcast_length. rewrite Hlen. destruct (Nat.eqb (len0 mask) 1); reflexivity. }
  rewrite Hbl, (map_ext_in _ _ _ Hsum). split; [reflexivity |].
  intros Hlow. rewrite Hlow.
  rewrite (map_ext _ (fun _ => 0%Z)); [apply np_sum_zeros |].
  intros i. rewrite andb_false_r. reflexivity.
Qed.

Lemma compute_years_maxabrupt_sum_witness :
  exists out,
    compute_years_maxabrupt years7 edges_at_1_and_3 tied_scores tied_maximum = Ok out
    /\ cell2 out 0 0 = (2001 + 2003)%Z.
Proof.
  eexists. split; [reflexivity |].
  rewrite (proj1 (compute_years_maxabrupt_sum years7 edges_at_1_and_3 tied_scores
                    tied_maximum _ 0 0 eq_refl eq_refl eq_refl eq_refl eq_refl
                    ltac:(simpl; lia) ltac:(simpl; lia))).
  vm_compute. reflexivity.
Defined.

(** ** What a detection result certifies *)

Section DetectionResult.

Variable Quantity : Type.
Variable py_float : string -> result float.
Variable unit : string -> result Quantity.
Variable unit_year : Quantity.
Variable q_scale : float -> Quantity -> Quantity.
Variable q_mul : Quantity -> Quantity -> Quantity.
Variable taper_masked_area : Field -> list Z -> Z -> Field.
Variable gaussian_filter : Box -> Field -> list Quantity -> result Field.
Variable sobel_filter :
  Box -> Field -> option (list Quantity) -> bool -> result GradientField.
Variable cp_edge_thinning : KernelField -> ndarray3 Z.
Variable cp_double_threshold : KernelField -> ndarray3 Z -> float -> float -> ndarray3 Z.

Let sigmas := get_sigmas Quantity py_float unit q_scale.


End DetectionResult.


(** ** The map of the largest time gradient *)

(** X16. Whatever the gradients and the mean are, [compute_maxTgrad] returns
    a map without NaN: every NaN of the product is replaced by 0 before the
    maximum is taken. *)
Theorem compute_maxTgrad_no_nan
  (np_mean : list Sample -> float) (canny : Canny) (out : ndarray2 float) :
  compute_maxTgrad np_mean canny = Ok out ->
  forall j k, PrimFloat.is_nan (cell2 out j k) = false.
Proof.
  intros H j k. unfold compute_maxTgrad in H. cbv zeta in H.
  bind_step H as maxm Hmaxm. bind_step H as maxT HmaxT.
  bind_step H as u1 Hb1. bind_step H as u2 Hb2. bind_step H as top Htop.
  injection H as <-. cbn [map2d cell2].
  match goal with
  | |- PrimFloat.is_nan (if PrimFloat.ltb top (if PrimFloat.is_nan ?p then _ else _)
                         then _ else _) = false =>
      destruct (PrimFloat.is_nan p) eqn:Hp
  end.
  - destruct (PrimFloat.ltb top 0); reflexivity.
  - match goal with
    | |- PrimFloat.is_nan (if ?c then _ else _) = false => destruct c
    end; [reflexivity | exact Hp].
Qed.

Lemma compute_maxTgrad_no_nan_witness :
  exists out,
    compute_maxTgrad mean_model (mkCanny (gradient_of (Plain step_values)) edge_at_3)
    = Ok out
    /\ PrimFloat.is_nan (cell2 out 0 0) = false.
Proof.
  eexists. split; [reflexivity |].
  apply (compute_maxTgrad_no_nan mean_model
           (mkCanny (gradient_of (Plain step_values)) edge_at_3) _ eq_refl).
Defined.

(** ** The report command *)

Section ReportCommand.

Variable Quantity : Type.
Variable py_float : string -> result float.
Variable unit : string -> result Quantity.
Variable unit_year : Quantity.
Variable q_scale : float -> Quantity -> Quantity.
Variable q_mul : Quantity -> Quantity -> Quantity.
Variable taper_masked_area : Field -> list Z -> Z -> Field.
Variable gaussian_filter : Box -> Field -> list Quantity -> result Field.
Variable sobel_filter :
  Box -> Field -> option (list Quantity) -> bool -> result GradientField.
Variable weighted_quartiles : list float -> list float -> result (list float).
Variable cp_edge_thinning : KernelField -> ndarray3 Z.
Variable cp_double_threshold : KernelField -> ndarray3 Z -> float -> float -> ndarray3 Z.
Variable linregress : list Z -> list Sample -> result (float * float).
Variable np_nanstd : list Sample -> float.
Variable np_mean : list Sample -> float.
Variable mkdir : string -> result Datatypes.unit.
Variable cmip6 :
  string -> string -> string -> string -> string -> string -> string -> result DataSet.
Variable ds_slice_from : DataSet -> Z -> Z -> result DataSet.
Variable ds_annual_mean : DataSet -> result DataSet.
Variable month_index : string -> result Z.

Let calibration_of :=
  compute_calibration Quantity py_float unit unit_year q_scale q_mul
    taper_masked_area gaussian_filter sobel_filter weighted_quartiles.
Let generate :=
  generate_report Quantity py_float unit unit_year q_scale q_mul taper_masked_area
    gaussian_filter sobel_filter weighted_quartiles cp_edge_thinning cp_double_threshold
    linregress np_nanstd np_mean mkdir cmip6 ds_slice_from ds_annual_mean month_index.

Lemma compute_calibration_raises (cfg : Config) (data_set : DataSet) :
  exists e, calibration_of cfg data_set = Raise e.
Proof.
  unfold calibration_of, compute_calibration.
  destruct (list_index _ _) as [quartile | e]; cbn [bind]; [| exists e; reflexivity].
  destruct (get_sigmas _ _ _ _ _) as [[st sx] | e]; cbn [bind]; [| exists e; reflexivity].
  destruct (parse_quantity _ _ _ _ _) as [scale | e]; cbn [bind]; [| exists e; reflexivity].
  destruct (gaussian_filter _ _ _) as [smooth | e]; cbn [bind]; [| exists e; reflexivity].
  exists arity_error. apply call_calibrate_sobel_five.
Qed.

(** X17. The report command never produces a report: whatever the arguments,
    the data files and the library functions, [generate_report] ends in an
    exception, at the latest in the calibration of the control run, and no
    figure has been written when it does. *)
Theorem generate_report_never_completes (config : Args) (files : list string) :
  exists e, generate config files = (Raise e, files).
Proof.
  unfold generate, generate_report, io_bind, io_lift. cbv zeta.
  destruct (mkdir _) as [u | e]; [| exists e; reflexivity].
  destruct (open_data_files cmip6 config) as [data_set | e]; [| exists e; reflexivity].
  destruct (open_pi_control cmip6 config) as [control_set | e]; [| exists e; reflexivity].
  match goal with
  | |- context [match (if annual config then ?a else ?b) with _ => _ end] =>
      destruct (if annual config then a else b) as [[d c] | e]
  end; [| exists e; reflexivity].
  destruct (compute_calibration_raises (args_config config) c) as (e & He).
  unfold calibration_of in He. rewrite He. exists e. reflexivity.
Qed.

End ReportCommand.

(** ** The month argument *)

Section MonthArgument.

Variable py_int : string -> result Z.
Variable MONTHS : list string.

(** X18. With twelve month names and an [int] that reads the decimal
    spellings, every value that the parser accepts for [--month] is replaced
    by a month name: a name stays as it is, and a number 1..12, written with
    or without a leading zero, becomes the name at that position. *)
Theorem normalise_month_accepted (s : string) :
  length MONTHS = 12%nat ->
  (forall n, (1 <= n <= 12)%nat -> py_int (nat_to_string n) = Ok (Z.of_nat n)) ->
  (forall n, (1 <= n <= 9)%nat -> py_int (format_02 n) = Ok (Z.of_nat n)) ->
  In s (month_choices MONTHS) ->
  exists m,
    normalise_month py_int MONTHS s = Ok m
    /\ In m MONTHS
    /\ ((In s MONTHS /\ m = s)
        \/ exists n, (1 <= n <= 12)%nat
                     /\ (s = nat_to_string n \/ s = format_02 n)
                     /\ nth_error MONTHS (n - 1) = Some m).
Proof.
  intros Hlen Hint Hpad Hs. unfold normalise_month.
  destruct (existsb (String.eqb s) MONTHS) eqn:E.
  - apply existsb_exists in E as (x & Hx & Ex). apply String.eqb_eq in Ex. subst x.
    exists s. split; [reflexivity |]. split; [exact Hx |]. left. split; [exact Hx | reflexivity].
  - assert (Hnum : exists n, (1 <= n <= 12)%nat
                             /\ (s = nat_to_string n \/ s = format_02 n)
                             /\ py_int s = Ok (Z.of_nat n)).
    { unfold month_choices in Hs. apply in_app_or in Hs as [Hs | Hs].
      - exfalso. apply not_true_iff_false in E. apply E.
        apply existsb_exists. exists s. split; [exact Hs | apply String.eqb_refl].
      - apply in_app_or in Hs as [Hs | Hs]; apply in_map_iff in Hs as (n & <- & Hn);
          apply in_seq in Hn; exists n.
        + split; [lia |]. split; [left; reflexivity | apply Hint; lia].
        + split; [lia |]. split; [right; reflexivity | apply Hpad; lia]. }
    destruct Hnum as (n & Hn & Hspell & Hread). rewrite Hread. cbn [bind].
    destruct (nth_error MONTHS (n - 1)) as [m |] eqn:Hm;
      [| apply nth_error_None in Hm; lia].
    exists m. replace (Z.of_nat n - 1)%Z with (Z.of_nat (n - 1)) by lia.
    split; [apply py_index_nth; exact Hm |].
    split; [apply (nth_error_In _ _ Hm) |].
    right. exists n. repeat split; try lia; assumption.
Qed.

End MonthArgument.

Lemma normalise_month_accepted_witness :
  normalise_month int_of_string months_en "03" = Ok "Mar"
  /\ normalise_month int_of_string months_en "12" = Ok "Dec"
  /\ exists m, normalise_month int_of_string months_en "7" = Ok m /\ In m months_en.
Proof.
  split; [reflexivity |]. split; [reflexivity |].
  destruct (normalise_month_accepted int_of_string months_en "7") as (m & Hm & Hin & _).
  - reflexivity.
  - intros n Hn. do 13 (destruct n as [| n]; [try lia; reflexivity |]). lia.
  - intros n Hn. do 10 (destruct n as [| n]; [try lia; reflexivity |]). lia.
  - unfold month_choices. apply in_or_app. right. apply in_or_app. left.
    apply in_map_iff. exists 7%nat. split; [reflexivity | apply in_seq; lia].
  - exists m. split; assumption.
Defined.

(** ** What a report certifies *)

Lemma io_bind_ok {A B : Type} (c : IO A) (k : A -> IO B) (files files' : list string)
      (b : B) :
  io_bind c k files = (Ok b, files') ->
  exists a files1, c files = (Ok a, files1) /\ k a files1 = (Ok b, files').
Proof.
  unfold io_bind. destruct (c files) as [[a | e] files1]; intros H.
  - exists a, files1. split; [reflexivity | exact H].
  - discriminate H.
Qed.

Tactic Notation "io_step" hyp(H) "as" simple_intropattern(a) ident(f) ident(Ha) :=
  apply io_bind_ok in H; destruct H as (a & f & Ha & H).

Section ReportResult.

Variable Quantity : Type.
Variable py_float : string -> result float.
Variable unit : string -> result Quantity.
Variable q_scale : float -> Quantity -> Quantity.
Variable taper_masked_area : Field -> list Z -> Z -> Field.
Variable gaussian_filter : Box -> Field -> list Quantity -> result Field.
Variable linregress : list Z -> list Sample -> result (float * float).
Variable np_nanstd : list Sample -> float.
Variable np_mean : list Sample -> float.

Let prelude := report_prelude py_float linregress np_nanstd np_mean.
Let report :=
  make_report Quantity py_float unit q_scale taper_masked_area gaussian_filter
    linregress np_nanstd np_mean.

(** X19. A report that [make_report] returns carries the calibration it was
    given, the maximum of the [maxTgrad] map and the maximum of the abruptness
    projection, and that maximum is not below 2: no report is returned for a
    smaller abruptness. *)
Theorem make_report_result
  (cfg : Config) (data_set : DataSet) (cal : Calibration) (canny : Canny)
  (files files' : list string) (r : Report) :
  report cfg data_set cal canny files = (Ok (Some r), files') ->
  exists pre,
    prelude cfg data_set cal canny = Ok pre
    /\ report_calibration r = cal
    /\ np_max2 (pre_maxTgrad pre) = Ok (max_maxTgrad r)
    /\ np_max2 (pre_abruptness pre) = Ok (max_abruptness r)
    /\ PrimFloat.ltb (max_abruptness r) 2 = false.
Proof.
  intros H. unfold report, make_report in H. cbv zeta in H.
  io_step H as pre f0 Hpre. unfold io_lift in Hpre. injection Hpre as Hpre _.
  io_step H as top f1 Htop. unfold io_lift in Htop. injection Htop as Htop _.
  destruct (PrimFloat.ltb top 2) eqn:Hcheck; [discriminate H |].
  io_step H as years f2 Hyears.
  io_step H as mask_plot f3 Hp1. io_step H as signal_plot f4 Hp2.
  io_step H as region_plot f5 Hp3. io_step H as count_series f6 Hp4.
  io_step H as count_plot f7 Hp5. io_step H as abruptness_plot f8 Hp6.
  io_step H as maxTgrad_plot f9 Hp7. io_step H as timeseries_plot f10 Hp8.
  io_step H as year_plot f11 Hp9.
  io_step H as u1 f12 Hs1. io_step H as u2 f13 Hs2.
  io_step H as max_T f14 HmaxT. unfold io_lift in HmaxT. injection HmaxT as HmaxT _.
  io_step H as max_a f15 Hmaxa. unfold io_lift in Hmaxa. injection Hmaxa as Hmaxa _.
  unfold io_ret in H. injection H as Hr _. subst r.
  cbn [report_calibration max_maxTgrad max_abruptness].
  exists pre. fold prelude in Hpre.
  assert (Etop : top = max_a) by congruence. subst top.
  repeat split; assumption.
Qed.

End ReportResult.

Lemma make_report_result_witness :
  exists r files',
    make_report quantity float_of_string unit_of_string quantity_scale taper_identity
      gaussian_identity linregress_model nanstd_model mean_model
      default_config shift_data example_calibration shift_canny [] = (Ok (Some r), files')
    /\ report_calibration r = example_calibration
    /\ PrimFloat.ltb (max_abruptness r) 2 = false.
Proof.
  destruct (make_report quantity float_of_string unit_of_string quantity_scale
              taper_identity gaussian_identity linregress_model nanstd_model mean_model
              default_config shift_data example_calibration shift_canny [])
    as [[[r |] | e] files'] eqn:Hrun;
    try (exfalso; vm_compute in Hrun; discriminate Hrun).
  exists r, files'. split; [reflexivity |].
  destruct (make_report_result quantity float_of_string unit_of_string quantity_scale
              taper_identity gaussian_identity linregress_model nanstd_model mean_model
              default_config shift_data example_calibration shift_canny [] files' r Hrun)
    as (pre & _ & Hcal & _ & _ & Hcheck).
  split; assumption.
Defined.

(** ** The map of years *)

Lemma filter_none {A : Type} (f : A -> bool) (l : list A) :
  (forall a, In a l -> f a = false) -> filter f l = [].
Proof.
  induction l as [| a l IH]; intros H; cbn [filter]; [reflexivity |].
  rewrite (H a (or_introl eq_refl)). apply IH.
  intros b Hb. apply H. right. exact Hb.
Qed.

(** X20. [generate_year_plot] takes its colour range from the non-zero years:
    on a map (with at least one cell) that holds no non-zero year the smallest
    one does not exist, the call raises the ValueError of [np.min] on an empty
    array and no figure is written. *)
Theorem generate_year_plot_no_year
  (years_maxabrupt : ndarray2 Z) (filename : string) (files : list string) :
  (rows years_maxabrupt * cols years_maxabrupt)%nat <> 0%nat ->
  (forall j k, cell2 years_maxabrupt j k = 0%Z) ->
  generate_year_plot years_maxabrupt filename files
  = (Raise (ValueError "zero-size array to reduction operation which has no identity"),
     files).
Proof.
  intros Hcells Hzero. unfold generate_year_plot, io_bind, io_lift.
  assert (Hnone : filter (fun y => negb (Z.eqb y 0)) (flatten2 years_maxabrupt) = []).
  { apply filter_none. intros y Hy. unfold flatten2 in Hy.
    apply in_map_iff in Hy as (p & <- & _). rewrite Hzero. reflexivity. }
  rewrite Hnone. unfold flatten2.
  pose proof (indices2_length (rows years_maxabrupt) (cols years_maxabrupt)) as Hlen.
  destruct (indices2 (rows years_maxabrupt) (cols years_maxabrupt)) as [| p l];
    [cbn [length] in Hlen; congruence |].
  reflexivity.
Qed.

Lemma generate_year_plot_no_year_witness :
  generate_year_plot no_year "years_maxabrupt.png" []
  = (Raise (ValueError "zero-size array to reduction operation which has no identity"), []).
Proof.
  apply (generate_year_plot_no_year no_year "years_maxabrupt.png" []).
  - simpl. lia.
  - intros j k. reflexivity.
Defined.
